(** * EshWord: the document persistence and autosave contract

    A shallow embedding of [EshWord.py], the tabbed word processor, and the
    properties of its load / save / autosave / font-size / tab handlers.

    The toolkit widgets are modelled by the part of their state the handlers
    read and write: a [QTextEdit] holds the plain text and one font record
    (the Document of the specification: content plus five formatting fields),
    a [QTabWidget] holds the list of (title, editor) pages and the current
    index.  The file system, the status bar and the message boxes form the
    outside world, threaded through every handler together with the window.

    Text is modelled over the 8-bit alphabet of [string]: the characters
    with code points 0 to 255.  A file is the text its bytes encode; text
    outside this alphabet, and files whose bytes are not UTF-8 (on which
    [read] raises [UnicodeDecodeError]), are outside the model.  Reading goes
    through the universal newlines of Python's text mode
    ([universal_newlines]); writing is modelled on a host whose line
    separator is the line feed, where it translates nothing. *)

From Stdlib Require Import ZArith Ascii String List Bool Lia.
From Stdlib Require Import DecimalString DecimalZ DecimalN DecimalPos DecimalFacts.
From stdpp Require Import base option list strings gmap.

Local Open Scope Z_scope.

(** ** Strings *)

(** [str.endswith(suffix)]. *)
Definition endswith (s suffix : string) : bool :=
  let n := String.length s in
  let m := String.length suffix in
  if (m <=? n)%nat then String.eqb (String.substring (n - m) m s) suffix
  else false.

(** ['sub' in s] on two strings: some suffix of [s] starts with [sub]. *)
Fixpoint str_contains (sub s : string) : bool :=
  if String.prefix sub s then true
  else match s with
       | EmptyString => false
       | String _ r => str_contains sub r
       end.

(** What [read()] hands over for a file opened in text mode with the default
    [newline=None]: a carriage return, alone or in front of a line feed,
    comes out as one line feed. *)
Fixpoint universal_newlines (s : string) : string :=
  match s with
  | EmptyString => EmptyString
  | String c r =>
      if Ascii.eqb c "013" then
        String "010"
          match r with
          | String c' r' =>
              if Ascii.eqb c' "010" then universal_newlines r'
              else universal_newlines r
          | EmptyString => EmptyString
          end
      else String c (universal_newlines r)
  end.

(** A carriage return occurs in [s]. *)
Fixpoint has_cr (s : string) : bool :=
  match s with
  | EmptyString => false
  | String c r => Ascii.eqb c "013" || has_cr r
  end.

(** Sample file texts are written with an apostrophe where the file has a
    double quote (character 34). *)
Fixpoint dq (s : string) : string :=
  match s with
  | EmptyString => EmptyString
  | String c r => String (if Ascii.eqb c "'" then "034" else c) (dq r)
  end.

(** ** JSON values, as [json.load] builds them and [json.dump] writes them *)

Module Json.

#[local] Set Warnings "-register-all".

(** A Python value coming out of the decoder.  An object keeps its members
    in file order; the dict the decoder builds keeps the last of two equal
    keys, which is what [dict_get] returns.  A number with a fraction or an
    exponent (a Python float) carries its lexeme: no handler computes with
    it. *)
Inductive json : Type :=
  | JNull
  | JBool (b : bool)
  | JInt (z : Z)
  | JFloat (lexeme : string)
  | JString (s : string)
  | JArray (xs : list json)
  | JObject (kvs : list (string * json)).

Fixpoint dict_get (k : string) (kvs : list (string * json)) : option json :=
  match kvs with
  | [] => None
  | (k', v) :: r =>
      match dict_get k r with
      | Some v' => Some v'
      | None => if String.eqb k k' then Some v else None
      end
  end.

Definition dict_has (k : string) (kvs : list (string * json)) : bool :=
  existsb (fun kv => String.eqb k (fst kv)) kvs.

(** *** Decoder *)

Definition is_ws (c : ascii) : bool :=
  match c with
  | " " | "009" | "010" | "013" => true
  | _ => false
  end%char.

Fixpoint skip_ws (s : string) : string :=
  match s with
  | String c r => if is_ws c then skip_ws r else s
  | EmptyString => s
  end.

Definition is_digit (c : ascii) : bool :=
  let n := N_of_ascii c in ((48 <=? n) && (n <=? 57))%N.

Definition hex_val (c : ascii) : option N :=
  let n := N_of_ascii c in
  if ((48 <=? n) && (n <=? 57))%N then Some (n - 48)%N
  else if ((97 <=? n) && (n <=? 102))%N then Some (n - 87)%N
  else if ((65 <=? n) && (n <=? 70))%N then Some (n - 55)%N
  else None.

(** The four hex digits of a [\uXXXX] escape.  A code point above 255 has no
    image in the 8-bit alphabet and is refused: a file with such an escape
    holds text outside the model. *)
Definition hex4 (a b c d : ascii) : option ascii :=
  match hex_val a, hex_val b, hex_val c, hex_val d with
  | Some x, Some y, Some z, Some w =>
      let n := (((x * 16 + y) * 16 + z) * 16 + w)%N in
      if (n <? 256)%N then Some (ascii_of_N n) else None
  | _, _, _, _ => None
  end.

Definition unescape (e : ascii) : option ascii :=
  if Ascii.eqb e "034" then Some "034"%char
  else if Ascii.eqb e "\" then Some "\"%char
  else if Ascii.eqb e "/" then Some "/"%char
  else if Ascii.eqb e "b" then Some "008"%char
  else if Ascii.eqb e "f" then Some "012"%char
  else if Ascii.eqb e "n" then Some "010"%char
  else if Ascii.eqb e "r" then Some "013"%char
  else if Ascii.eqb e "t" then Some "009"%char
  else None.

Definition cons_scanned (x : ascii) (k : option (string * string))
  : option (string * string) :=
  match k with
  | Some (t, r) => Some (String x t, r)
  | None => None
  end.

(** [scanstring], strict: the text after an opening quote, up to the closing
    one.  A raw control character is an error. *)
Fixpoint scanstring (s : string) : option (string * string) :=
  match s with
  | EmptyString => None
  | String c r =>
      if Ascii.eqb c "034" then Some (EmptyString, r)
      else if Ascii.eqb c "\" then
        match r with
        | String e r' =>
            if Ascii.eqb e "u" then
              match r' with
              | String h1 (String h2 (String h3 (String h4 r''))) =>
                  match hex4 h1 h2 h3 h4 with
                  | Some x => cons_scanned x (scanstring r'')
                  | None => None
                  end
              | _ => None
              end
            else
              match unescape e with
              | Some x => cons_scanned x (scanstring r')
              | None => None
              end
        | EmptyString => None
        end
      else if (N_of_ascii c <? 32)%N then None
      else cons_scanned c (scanstring r)
  end.

(** The number pattern of the scanner: an optional minus sign, then a zero
    or a non-zero digit followed by digits; an optional fraction (a dot and
    at least one digit); an optional exponent (e or E, an optional sign, at
    least one digit). *)
Fixpoint take_digits (s : string) : string * string :=
  match s with
  | String c r =>
      if is_digit c then let '(d, r') := take_digits r in (String c d, r')
      else (EmptyString, s)
  | EmptyString => (EmptyString, s)
  end.

(** The integer part without its sign: ["0"], or a non-zero digit and the
    digits that follow. *)
Definition scan_intpart (s : string) : option (string * string) :=
  match s with
  | String c r =>
      if Ascii.eqb c "0" then Some (String c EmptyString, r)
      else if is_digit c then
        let '(d, r') := take_digits r in Some (String c d, r')
      else None
  | EmptyString => None
  end.

Definition scan_frac (s : string) : string * string :=
  match s with
  | String "." r =>
      match take_digits r with
      | (EmptyString, _) => (EmptyString, s)
      | (d, r') => (String "." d, r')
      end
  | _ => (EmptyString, s)
  end.

Definition scan_exp (s : string) : string * string :=
  match s with
  | String e r =>
      if Ascii.eqb e "e" || Ascii.eqb e "E" then
        let '(sign, r1) :=
          match r with
          | String "+" r1 => (String "+" EmptyString, r1)
          | String "-" r1 => (String "-" EmptyString, r1)
          | _ => (EmptyString, r)
          end in
        match take_digits r1 with
        | (EmptyString, _) => (EmptyString, s)
        | (d, r') => (String e (sign +:+ d), r')
        end
      else (EmptyString, s)
  | EmptyString => (EmptyString, s)
  end.

Definition digits_to_Z (d : string) : Z :=
  match NilZero.uint_of_string d with
  | Some u => Z.of_uint u
  | None => 0
  end.

Definition scan_number (s : string) : option (json * string) :=
  let '(neg, s1) :=
    match s with
    | String "-" r => (true, r)
    | _ => (false, s)
    end in
  match scan_intpart s1 with
  | None => None
  | Some (ip, r) =>
      let '(fr, r1) := scan_frac r in
      let '(ex, r2) := scan_exp r1 in
      match fr, ex with
      | EmptyString, EmptyString =>
          let z := digits_to_Z ip in
          Some (JInt (if neg then - z else z), r2)
      | _, _ =>
          Some (JFloat ((if neg then "-" else EmptyString) +:+ ip +:+ fr +:+ ex), r2)
      end
  end.

Definition strip_prefix (p s : string) : option string :=
  if String.prefix p s
  then Some (String.substring (String.length p)
               (String.length s - String.length p) s)
  else None.

(** [scan_once] with the object and array loops of the decoder, on fuel:
    every call consumes a character before it recurses, and [json_loads]
    starts it with more fuel than the input has characters. *)
Fixpoint scan_once (fuel : nat) (s : string) : option (json * string) :=
  match fuel with
  | O => None
  | S fuel' =>
      match s with
      | String "034" r =>
          match scanstring r with
          | Some (t, r') => Some (JString t, r')
          | None => None
          end
      | String "{" r =>
          match skip_ws r with
          | String "}" r' => Some (JObject [], r')
          | String "034" r' => scan_members fuel' r' []
          | _ => None
          end
      | String "[" r =>
          match skip_ws r with
          | String "]" r' => Some (JArray [], r')
          | r' => scan_elements fuel' r' []
          end
      | String "n" _ =>
          match strip_prefix "null" s with
          | Some r => Some (JNull, r)
          | None => None
          end
      | String "t" _ =>
          match strip_prefix "true" s with
          | Some r => Some (JBool true, r)
          | None => None
          end
      | String "f" _ =>
          match strip_prefix "false" s with
          | Some r => Some (JBool false, r)
          | None => None
          end
      | String "N" _ =>
          match strip_prefix "NaN" s with
          | Some r => Some (JFloat "NaN", r)
          | None => None
          end
      | String "I" _ =>
          match strip_prefix "Infinity" s with
          | Some r => Some (JFloat "Infinity", r)
          | None => None
          end
      | _ =>
          match scan_number s with
          | Some res => Some res
          | None =>
              match strip_prefix "-Infinity" s with
              | Some r => Some (JFloat "-Infinity", r)
              | None => None
              end
          end
      end
  end

(** The member loop of [JSONObject], entered after the opening quote of a
    key; [acc] holds the members read so far, last first. *)
with scan_members (fuel : nat) (s : string) (acc : list (string * json))
  : option (json * string) :=
  match fuel with
  | O => None
  | S fuel' =>
      match scanstring s with
      | None => None
      | Some (key, r) =>
          match skip_ws r with
          | String ":" r1 =>
              match scan_once fuel' (skip_ws r1) with
              | None => None
              | Some (v, r2) =>
                  match skip_ws r2 with
                  | String "}" r3 => Some (JObject (rev ((key, v) :: acc)), r3)
                  | String "," r3 =>
                      match skip_ws r3 with
                      | String "034" r4 =>
                          scan_members fuel' r4 ((key, v) :: acc)
                      | _ => None
                      end
                  | _ => None
                  end
              end
          | _ => None
          end
      end
  end

(** The element loop of [JSONArray]. *)
with scan_elements (fuel : nat) (s : string) (acc : list json)
  : option (json * string) :=
  match fuel with
  | O => None
  | S fuel' =>
      match scan_once fuel' s with
      | None => None
      | Some (v, r) =>
          match skip_ws r with
          | String "]" r1 => Some (JArray (rev (v :: acc)), r1)
          | String "," r1 => scan_elements fuel' (skip_ws r1) (v :: acc)
          | _ => None
          end
      end
  end.

(** [json.loads]: one value between optional white space, nothing after it.
    [None] stands for [JSONDecodeError]. *)
Definition json_loads (s : string) : option json :=
  match scan_once (S (String.length s)) (skip_ws s) with
  | Some (v, r) =>
      match skip_ws r with
      | EmptyString => Some v
      | _ => None
      end
  | None => None
  end.

(** [json.load(f)] is [json.loads(f.read())], for a file [f] that holds
    [contents]. *)
Definition json_load (contents : string) : option json :=
  json_loads (universal_newlines contents).

(** *** Encoder, [json.dump(obj, f, indent=4)] with the default
    [ensure_ascii=True] *)

Definition hex_digit (n : N) : ascii :=
  ascii_of_N (if (n <? 10)%N then 48 + n else 87 + n)%N.

(** One character of a string literal: the two-character escapes, a
    [\u00xx] escape for every other character outside the range from the
    space to the tilde, the character itself inside that range. *)
Definition escape_char (c : ascii) : string :=
  let n := N_of_ascii c in
  if Ascii.eqb c "034" then String "\" (String "034" EmptyString)
  else if Ascii.eqb c "\" then "\\"
  else if Ascii.eqb c "010" then "\n"
  else if Ascii.eqb c "013" then "\r"
  else if Ascii.eqb c "009" then "\t"
  else if Ascii.eqb c "008" then "\b"
  else if Ascii.eqb c "012" then "\f"
  else if ((32 <=? n) && (n <=? 126))%N then String c EmptyString
  else "\u00" +:+ String (hex_digit (n / 16)) (String (hex_digit (n mod 16)) EmptyString).

Fixpoint escape (s : string) : string :=
  match s with
  | EmptyString => EmptyString
  | String c r => escape_char c +:+ escape r
  end.

Definition encode_string (s : string) : string :=
  String "034" (escape s +:+ String "034" EmptyString).

Definition encode_int (z : Z) : string := NilZero.string_of_int (Z.to_int z).

Fixpoint spaces (n : nat) : string :=
  match n with
  | O => EmptyString
  | S n' => String " " (spaces n')
  end.

(** A line break followed by the indentation of nesting level [lvl]. *)
Definition newline_indent (lvl : nat) : string :=
  String "010" (spaces (4 * lvl)).

(** The handlers write strings, integers and booleans only; for
    completeness a float is written as its lexeme. *)
Fixpoint dumps (lvl : nat) (j : json) : string :=
  match j with
  | JNull => "null"
  | JBool true => "true"
  | JBool false => "false"
  | JInt z => encode_int z
  | JFloat lexeme => lexeme
  | JString s => encode_string s
  | JArray [] => "[]"
  | JArray xs =>
      "[" +:+ newline_indent (S lvl)
      +:+ String.concat ("," +:+ newline_indent (S lvl)) (map (dumps (S lvl)) xs)
      +:+ newline_indent lvl +:+ "]"
  | JObject [] => "{}"
  | JObject kvs =>
      "{" +:+ newline_indent (S lvl)
      +:+ String.concat ("," +:+ newline_indent (S lvl))
            (map (fun kv => let '(k, v) := kv in
                            encode_string k +:+ ": " +:+ dumps (S lvl) v) kvs)
      +:+ newline_indent lvl +:+ "}"
  end.

Definition json_dump (obj : json) : string := dumps 0 obj.

End Json.

Import Json.

(** ** The toolkit widgets *)

(** [QFont], the five attributes the handlers read and write. *)
Record QFont := mkFont {
  family : string;
  pointSize : Z;
  bold : bool;
  italic : bool;
  underline : bool
}.

(** [QFont("Segoe UI", 10)]: regular weight, upright, not underlined. *)
Definition default_font : QFont := mkFont "Segoe UI" 10 false false false.

(** [QFont.setPointSize]: a size that is not positive is refused with a
    warning and the font keeps its size. *)
Definition setPointSize (f : QFont) (n : Z) : QFont :=
  if 0 <? n then mkFont (family f) n (bold f) (italic f) (underline f) else f.

Definition setBold (f : QFont) (b : bool) : QFont :=
  mkFont (family f) (pointSize f) b (italic f) (underline f).

Definition setItalic (f : QFont) (b : bool) : QFont :=
  mkFont (family f) (pointSize f) (bold f) b (underline f).

Definition setUnderline (f : QFont) (b : bool) : QFont :=
  mkFont (family f) (pointSize f) (bold f) (italic f) b.

(** [QTextEdit]: the Document of one tab, its content and its formatting.
    The editor is modelled with one font: [currentFont] reads it, and the two
    setters the handlers call, [setFont] and [setCurrentFont], both write
    it. *)
Record QTextEdit := mkEdit {
  toPlainText : string;
  currentFont : QFont
}.

Definition setFont (e : QTextEdit) (f : QFont) : QTextEdit :=
  mkEdit (toPlainText e) f.

Definition setCurrentFont (e : QTextEdit) (f : QFont) : QTextEdit :=
  mkEdit (toPlainText e) f.

(** [QTabWidget]: the pages in tab order, each with its tab text, and the
    current index, -1 when there is no page. *)
Record QTabWidget := mkTabs {
  pages : list (string * QTextEdit);
  currentIndex : Z
}.

Definition count (t : QTabWidget) : Z := Z.of_nat (length (pages t)).

Definition page_at (t : QTabWidget) (i : Z) : option (string * QTextEdit) :=
  if 0 <=? i then pages t !! Z.to_nat i else None.

(** [tabText]: the empty string when the index is out of range. *)
Definition tabText (t : QTabWidget) (i : Z) : string :=
  match page_at t i with
  | Some (title, _) => title
  | None => EmptyString
  end.

(** [currentWidget]: [None] when there is no current page. *)
Definition currentWidget (t : QTabWidget) : option QTextEdit :=
  match page_at t (currentIndex t) with
  | Some (_, w) => Some w
  | None => None
  end.

(** [setTabText]: nothing happens when the index is out of range. *)
Definition setTabText (t : QTabWidget) (i : Z) (title : string) : QTabWidget :=
  match page_at t i with
  | Some (_, w) => mkTabs (<[Z.to_nat i := (title, w)]> (pages t)) (currentIndex t)
  | None => t
  end.

(** The editor of the current page is a shared object: writing it writes the
    page. *)
Definition setCurrentWidget (t : QTabWidget) (w : QTextEdit) : QTabWidget :=
  match page_at t (currentIndex t) with
  | Some (title, _) =>
      mkTabs (<[Z.to_nat (currentIndex t) := (title, w)]> (pages t)) (currentIndex t)
  | None => t
  end.

(** [addTab] appends the page and returns its index; the first page of an
    empty widget becomes the current one. *)
Definition addTab (t : QTabWidget) (w : QTextEdit) (title : string)
  : QTabWidget * Z :=
  (mkTabs (pages t ++ [(title, w)])
          (if count t =? 0 then 0 else currentIndex t),
   count t).

Definition setCurrentIndex (t : QTabWidget) (i : Z) : QTabWidget :=
  if (0 <=? i) && (i <? count t) then mkTabs (pages t) i else t.

(** [removeTab]: nothing happens when the index is out of range.  When the
    current page goes, the page to its right becomes current, or the last
    page when there is none to the right. *)
Definition removeTab (t : QTabWidget) (i : Z) : QTabWidget :=
  if (0 <=? i) && (i <? count t) then
    let cur := currentIndex t in
    let n' := count t - 1 in
    mkTabs (delete (Z.to_nat i) (pages t))
           (if i <? cur then cur - 1
            else if i =? cur then (if cur <? n' then cur else n' - 1)
            else cur)
  else t.

(** ** Exceptions *)

Inductive exn_class :=
  | ValueError        (* raised by [load_file] itself *)
  | JSONDecodeError   (* a subclass of ValueError *)
  | TypeError
  | KeyError
  | AttributeError
  | OSError.          (* FileNotFoundError, PermissionError, a failed write *)

(** An exception and the text [str(e)] gives; the text of a library
    exception is abbreviated. *)
Record exn := mkExn { exn_kind : exn_class; exn_str : string }.

(** The two error kinds of the persistence contract. *)
Definition FormatError (e : exn) : bool :=
  match exn_kind e with
  | ValueError | JSONDecodeError => true
  | _ => false
  end.

Definition IOError (e : exn) : bool :=
  match exn_kind e with
  | OSError => true
  | _ => false
  end.

(** ** The outside world *)

Inductive event :=
  | OpenRead (path : string)                  (* [open(path, "r")] *)
  | OpenWrite (path : string)                 (* [open(path, "w")] *)
  | StatusMessage (text : string) (msecs : Z)   (* [statusBar().showMessage] *)
  | Critical (title text : string).           (* [QMessageBox.critical] *)

(** Files by path, the paths that cannot be opened for reading or for
    writing, the fault of the device, and what happened so far, latest
    first.  [write_fault] is [None] when writes go through, and [Some k]
    when the device fails a write after it took [k] characters of it (a
    fault falls between two characters). *)
Record World := mkWorld {
  files : gmap string string;
  unreadable : gset string;
  readonly : gset string;
  write_fault : option nat;
  log : list event
}.

(** ** The main window *)

Record EshWord := mkWin {
  tabs : QTabWidget;
  autosave_enabled : bool;
  dark_mode : bool
}.

Record state := mkState { self : EshWord; world : World }.

(** ** Handlers run in a state and exception monad *)

Inductive result (A : Type) :=
  | Return (a : A)
  | Raise (e : exn).
Arguments Return {A} a.
Arguments Raise {A} e.

Definition M (A : Type) : Type := state -> result A * state.

Definition ret {A} (a : A) : M A := fun st => (Return a, st).

Definition bind {A B} (m : M A) (k : A -> M B) : M B :=
  fun st =>
    match m st with
    | (Return a, st') => k a st'
    | (Raise e, st') => (Raise e, st')
    end.

Definition raise {A} (e : exn) : M A := fun st => (Raise e, st).

(** [try: m except Exception as e: h e]. *)
Definition try_except {A} (m : M A) (h : exn -> M A) : M A :=
  fun st =>
    match m st with
    | (Return a, st') => (Return a, st')
    | (Raise e, st') => h e st'
    end.

Declare Scope eff_scope.
Delimit Scope eff_scope with eff.
Notation "x <~ m ;; k" := (bind m (fun x => k))
  (at level 100, m at next level, right associativity) : eff_scope.
Notation "m ;;; k" := (bind m (fun _ => k))
  (at level 100, right associativity) : eff_scope.
Local Open Scope eff_scope.

Definition get_tabs : M QTabWidget := fun st => (Return (tabs (self st)), st).

Definition put_tabs (t : QTabWidget) : M unit := fun st =>
  (Return tt,
   mkState (mkWin t (autosave_enabled (self st)) (dark_mode (self st))) (world st)).

Definition get_world : M World := fun st => (Return (world st), st).

Definition put_world (w : World) : M unit := fun st =>
  (Return tt, mkState (self st) w).

Definition emit (ev : event) : M unit :=
  w <~ get_world ;;
  put_world (mkWorld (files w) (unreadable w) (readonly w) (write_fault w)
                     (ev :: log w)).

Definition set_file (path data : string) : M unit :=
  w <~ get_world ;;
  put_world (mkWorld (<[path := data]> (files w)) (unreadable w) (readonly w)
                     (write_fault w) (log w)).

(** *** File objects *)

(** [open(path, "r", encoding="utf-8")]. *)
Definition open_r (path : string) : M unit :=
  emit (OpenRead path) ;;;
  w <~ get_world ;;
  match files w !! path with
  | None => raise (mkExn OSError ("[Errno 2] No such file or directory: '" +:+ path +:+ "'"))
  | Some _ =>
      if decide (path ∈ unreadable w)
      then raise (mkExn OSError ("[Errno 13] Permission denied: '" +:+ path +:+ "'"))
      else ret tt
  end.

(** [f.read()] on a file opened for reading. *)
Definition f_read (path : string) : M string :=
  w <~ get_world ;;
  ret (universal_newlines (default EmptyString (files w !! path))).

(** [open(path, "w", encoding="utf-8")]: the file is created or emptied. *)
Definition open_w (path : string) : M unit :=
  emit (OpenWrite path) ;;;
  w <~ get_world ;;
  if decide (path ∈ readonly w)
  then raise (mkExn OSError ("[Errno 13] Permission denied: '" +:+ path +:+ "'"))
  else set_file path EmptyString.

(** [f.write(data)] and the close at the end of the [with] block.  Text
    reaches the device only when there is some; when the device fails the
    write, the characters it took before are in the file and the error is
    raised. *)
Definition f_write (path data : string) : M unit :=
  w <~ get_world ;;
  let old := default EmptyString (files w !! path) in
  match write_fault w with
  | Some k =>
      if String.eqb data EmptyString then set_file path (old +:+ data)
      else
        set_file path (old +:+ String.substring 0 k data) ;;;
        raise (mkExn OSError "[Errno 28] No space left on device")
  | None => set_file path (old +:+ data)
  end.

(** *** Message boxes and the status bar *)

Definition critical (title text : string) : M unit := emit (Critical title text).

Definition showMessage (text : string) (msecs : Z) : M unit :=
  emit (StatusMessage text msecs).

(** ** The handlers of [EshWord] *)

Module EshWordApp.

(** [self.current_editor()]: the current page's editor, or [None]. *)
Definition current_editor : M (option QTextEdit) :=
  t <~ get_tabs ;;
  ret (currentWidget t).

(** Calling a method on what [current_editor] returned. *)
Definition deref (method : string) (editor : option QTextEdit) : M QTextEdit :=
  match editor with
  | Some e => ret e
  | None =>
      raise (mkExn AttributeError
               ("'NoneType' object has no attribute '" +:+ method +:+ "'"))
  end.

(** Writing through the reference [current_editor] returned. *)
Definition update_editor (e : QTextEdit) : M unit :=
  t <~ get_tabs ;;
  put_tabs (setCurrentWidget t e).

(** [editor.setPlainText(content)] on a fresh editor: a string is taken as
    it is, [None] as the empty string, anything else is a [TypeError]. *)
Definition setPlainText (content : json) : M string :=
  match content with
  | JString s => ret s
  | JNull => ret EmptyString
  | _ => raise (mkExn TypeError "setPlainText(self, text: Optional[str]): argument 1 has unexpected type")
  end.

Definition add_new_tab (title : string) (content : json) : M unit :=
  text <~ setPlainText content ;;
  let editor := setFont (mkEdit text default_font) default_font in
  t <~ get_tabs ;;
  let '(t', index) := addTab t editor title in
  put_tabs (setCurrentIndex t' index).

(** ["text" in data]. *)
Definition py_contains (k : string) (data : json) : M bool :=
  match data with
  | JObject kvs => ret (dict_has k kvs)
  | JArray xs =>
      ret (existsb (fun x => match x with
                             | JString s => String.eqb s k
                             | _ => false
                             end) xs)
  | JString s => ret (str_contains k s)
  | _ => raise (mkExn TypeError "argument of this type is not iterable")
  end.

(** [data["text"]], after the membership test succeeded. *)
Definition py_getitem (data : json) (k : string) : M json :=
  match data with
  | JObject kvs =>
      match dict_get k kvs with
      | Some v => ret v
      | None => raise (mkExn KeyError ("'" +:+ k +:+ "'"))
      end
  | JArray _ => raise (mkExn TypeError "list indices must be integers or slices, not str")
  | JString _ => raise (mkExn TypeError "string indices must be integers, not 'str'")
  | _ => raise (mkExn TypeError "object is not subscriptable")
  end.

(** [json.load(f)]. *)
Definition json_load_file (path : string) : M json :=
  text <~ f_read path ;;
  match json_loads text with
  | Some data => ret data
  | None => raise (mkExn JSONDecodeError "Expecting value")
  end.

(** The body of the [try] of [load_file]. *)
Definition load_file_body (file_name : string) : M unit :=
  content <~
    (if endswith file_name ".esh" then
       open_r file_name ;;;
       data <~ json_load_file file_name ;;
       has_text <~ py_contains "text" data ;;
       if negb has_text
       then raise (mkExn ValueError "Invalid file format: missing 'text' key.")
       else py_getitem data "text"
     else
       open_r file_name ;;;
       text <~ f_read file_name ;;
       ret (JString text)) ;;
  add_new_tab file_name content ;;;
  showMessage ("File loaded: " +:+ file_name) 3000.

(** [load_file]; [file_name] is the answer of the open dialog, empty when
    the dialog was cancelled. *)
Definition load_file (file_name : string) : M unit :=
  if String.eqb file_name EmptyString then ret tt
  else
    try_except (load_file_body file_name)
      (fun e => critical "Load Error" ("Failed to load file: " +:+ exn_str e)).

(** [write_to_file(file_name, is_esh)]; the handler re-raises. *)
Definition write_to_file (file_name : string) (is_esh : bool) : M unit :=
  editor <~ current_editor ;;
  try_except
    (if is_esh then
       e <~ deref "toPlainText" editor ;;
       let data := JObject
         [ ("text", JString (toPlainText e));
           ("font", JString (family (currentFont e)));
           ("size", JInt (pointSize (currentFont e)));
           ("bold", JBool (bold (currentFont e)));
           ("italic", JBool (italic (currentFont e)));
           ("underline", JBool (underline (currentFont e))) ] in
       open_w file_name ;;;
       f_write file_name (json_dump data)
     else
       open_w file_name ;;;
       e <~ deref "toPlainText" editor ;;
       f_write file_name (toPlainText e))
    (fun e => raise e).

(** The write inside the [try] of [save_file_as]. *)
Definition save_file_as_write (file_name : string) : M unit :=
  if endswith file_name ".esh" then write_to_file file_name true
  else
    open_w file_name ;;;
    editor <~ current_editor ;;
    e <~ deref "toPlainText" editor ;;
    f_write file_name (toPlainText e).

(** The body of the [try] of [save_file_as]. *)
Definition save_file_as_body (file_name : string) : M unit :=
  save_file_as_write file_name ;;;
  t <~ get_tabs ;;
  put_tabs (setTabText t (currentIndex t) file_name) ;;;
  showMessage ("File saved: " +:+ file_name) 3000.

(** [save_file_as]; [file_name] is the answer of the save dialog. *)
Definition save_file_as (file_name : string) : M unit :=
  if String.eqb file_name EmptyString then ret tt
  else
    try_except (save_file_as_body file_name)
      (fun e => critical "Save Error" ("Failed to save file: " +:+ exn_str e)).

(** [save_file]; [file_name] is what the save dialog would answer, asked
    only for an untitled document. *)
Definition save_file (file_name : string) : M unit :=
  t <~ get_tabs ;;
  let title := tabText t (currentIndex t) in
  if String.eqb title "Untitled" then save_file_as file_name
  else write_to_file title true.

Definition new_document : M unit := add_new_tab "Untitled" (JString EmptyString).

Definition toggle_font (f : QFont -> QFont) : M unit :=
  editor <~ current_editor ;;
  match editor with
  | Some e => update_editor (setCurrentFont e (f (currentFont e)))
  | None => ret tt
  end.

Definition make_bold : M unit := toggle_font (fun f => setBold f (negb (bold f))).
Definition make_italic : M unit := toggle_font (fun f => setItalic f (negb (italic f))).
Definition make_underline : M unit :=
  toggle_font (fun f => setUnderline f (negb (underline f))).

Definition increase_font_size : M unit :=
  try_except
    (editor <~ current_editor ;;
     e <~ deref "currentFont" editor ;;
     let font := currentFont e in
     let size := pointSize font in
     let size := if size <=? 0 then 10 else size in
     update_editor (setFont e (setPointSize font (size + 1))))
    (fun e => critical "Font Error" ("Failed to increase font size: " +:+ exn_str e)).

Definition decrease_font_size : M unit :=
  try_except
    (editor <~ current_editor ;;
     e <~ deref "currentFont" editor ;;
     let font := currentFont e in
     let size := pointSize font in
     let size := if size <=? 0 then 10 else size in
     if 1 <? size
     then update_editor (setFont e (setPointSize font (size - 1)))
     else ret tt)
    (fun e => critical "Font Error" ("Failed to decrease font size: " +:+ exn_str e)).

Definition close_tab (index : Z) : M unit :=
  t <~ get_tabs ;;
  put_tabs (removeTab t index) ;;;
  t' <~ get_tabs ;;
  if count t' =? 0 then add_new_tab "Untitled" (JString EmptyString)
  else ret tt.

(** The write inside the [try] of [autosave]. *)
Definition autosave_write (title : string) (editor : option QTextEdit) : M unit :=
  if endswith title ".esh" then write_to_file title true
  else
    open_w title ;;;
    e <~ deref "toPlainText" editor ;;
    f_write title (toPlainText e).

(** [autosave], the slot of the 60 second timer. *)
Definition autosave : M unit :=
  fun st =>
    if autosave_enabled (self st) then
      (editor <~ current_editor ;;
       t <~ get_tabs ;;
       let title := tabText t (currentIndex t) in
       if negb (String.eqb title "Untitled") then
         try_except
           (autosave_write title editor ;;;
            showMessage ("Autosaved: " +:+ title) 2000)
           (fun e => showMessage ("Autosave failed: " +:+ exn_str e) 2000)
       else ret tt) st
    else (Return tt, st).

(** [toggle_autosave]; [checked] is the outcome of the comparison of the
    signal's argument with [Qt.CheckState.Checked]. *)
Definition toggle_autosave (checked : bool) : M unit := fun st =>
  (Return tt,
   mkState (mkWin (tabs (self st)) checked (dark_mode (self st))) (world st)).

(** The window after [__init__]: autosave on, light mode, one empty
    "Untitled" tab. *)
Definition init_window : EshWord :=
  mkWin (mkTabs [("Untitled", mkEdit EmptyString default_font)] 0) true false.

End EshWordApp.

Import EshWordApp.


(** ** Observations, and the notions the statements use *)

(** The tab text and the editor of the current page. *)
Definition current_title (st : state) : string :=
  tabText (tabs (self st)) (currentIndex (tabs (self st))).

Definition current_doc (st : state) : option QTextEdit :=
  currentWidget (tabs (self st)).

(** [m] run [n] times in a row. *)
Fixpoint iterate (n : nat) (m : M unit) : M unit :=
  match n with
  | O => ret tt
  | S n' => m ;;; iterate n' m
  end.

(** What [add_new_tab] makes of the tab widget. *)
Definition open_tab (t : QTabWidget) (title text : string) : QTabWidget :=
  setCurrentIndex (fst (addTab t (mkEdit text default_font) title)) (count t).

Definition with_tabs (st : state) (t : QTabWidget) : state :=
  mkState (mkWin t (autosave_enabled (self st)) (dark_mode (self st))) (world st).

Definition with_log (st : state) (evs : list event) : state :=
  mkState (self st)
    (mkWorld (files (world st)) (unreadable (world st)) (readonly (world st))
       (write_fault (world st)) (evs ++ log (world st))).

Definition with_file (st : state) (path data : string) : state :=
  mkState (self st)
    (mkWorld (<[path := data]> (files (world st))) (unreadable (world st))
       (readonly (world st)) (write_fault (world st)) (log (world st))).

Definition the_world0 : World := mkWorld ∅ ∅ ∅ None [].

(** The state right after start-up, on an empty file system. *)
Definition st0 : state := mkState init_window the_world0.

(** The size the two handlers start from: 10 stands in for a size that is
    not positive. *)
Definition effective_size (f : QFont) : Z :=
  if pointSize f <=? 0 then 10 else pointSize f.

(** A file system holding one file. *)
Definition one_file (path contents : string) : World :=
  mkWorld {[ path := contents ]} ∅ ∅ None [].

(** [m] never writes the window. *)
Definition keeps_self {A} (m : M A) : Prop :=
  forall st, self (snd (m st)) = self st.

(** When [m] raises, the window is as it was before [m]. *)
Definition fails_clean {A} (m : M A) : Prop :=
  forall st e st', m st = (Raise e, st') -> self st' = self st.

(** [m] never raises. *)
Definition total {A} (m : M A) : Prop :=
  forall st, exists a, fst (m st) = Return a.

(** The three user actions that read or write a file, with the answer of
    the file dialog; [save_file] asks the dialog for an untitled document
    only. *)
Inductive user_action :=
  | Load (file_name : string)
  | SaveAs (file_name : string)
  | Save (answer : string).

Definition chosen_file (a : user_action) : string :=
  match a with Load f | SaveAs f | Save f => f end.

Definition handler (a : user_action) : M unit :=
  match a with
  | Load f => load_file f
  | SaveAs f => save_file_as f
  | Save f => save_file f
  end.

(** Whether the handler does its file work under a [try] of its own:
    [load_file] and [save_file_as] do, and so does [save_file] on an untitled
    document, which calls [save_file_as]; on a document that has a location
    [save_file] calls [write_to_file] with nothing around it. *)
Definition guarded (a : user_action) (st : state) : bool :=
  match a with
  | Load _ | SaveAs _ => true
  | Save _ => String.eqb (current_title st) "Untitled"
  end.

(** The file work of the handler: the body of its [try], or the bare call
    of [write_to_file]. *)
Definition file_work (a : user_action) : M unit :=
  match a with
  | Load f => load_file_body f
  | SaveAs f => save_file_as_body f
  | Save f => fun st =>
      if String.eqb (current_title st) "Untitled" then save_file_as_body f st
      else write_to_file (current_title st) true st
  end.

(** What the handler's [except] branch puts on screen. *)
Definition error_dialog (a : user_action) (e : exn) : event :=
  match a with
  | Load _ => Critical "Load Error" ("Failed to load file: " +:+ exn_str e)
  | SaveAs _ | Save _ =>
      Critical "Save Error" ("Failed to save file: " +:+ exn_str e)
  end.

(** A file system on which ["notes.txt"] exists and cannot be written. *)
Definition locked_world : World :=
  mkWorld {[ "notes.txt" := "old" ]} ∅ {[ "notes.txt" ]} None [].

Definition locked_state : state :=
  mkState (mkWin (mkTabs [("notes.txt", mkEdit "new" default_font)] 0) true false)
          locked_world.

(** Loading [path] in state [st] opens a new current tab that holds [doc]. *)
Definition reloads_as (path : string) (st : state) (doc : QTextEdit) : Prop :=
  load_file path st
  = (Return tt,
     with_log (with_tabs st (open_tab (tabs (self st)) path (toPlainText doc)))
       [StatusMessage ("File loaded: " +:+ path) 3000; OpenRead path])
  /\ pages (tabs (self (snd (load_file path st))))
     = pages (tabs (self st)) ++ [(path, doc)]
  /\ current_doc (snd (load_file path st)) = Some doc.

(** The structured write of [write_to_file]. *)
Definition document_json (e : QTextEdit) : json :=
  JObject
    [ ("text", JString (toPlainText e));
      ("font", JString (family (currentFont e)));
      ("size", JInt (pointSize (currentFont e)));
      ("bold", JBool (bold (currentFont e)));
      ("italic", JBool (italic (currentFont e)));
      ("underline", JBool (underline (currentFont e))) ].

Definition starts_number (s : string) : bool :=
  match s with
  | String c _ => is_digit c || Ascii.eqb c "-"
  | EmptyString => false
  end.

(** The document of the specification's save scenario: "Hello" in Mono,
    12 points, bold. *)
Definition hello_doc : QTextEdit :=
  mkEdit "Hello" (mkFont "Mono" 12 true false false).

Definition hello_state : state :=
  mkState (mkWin (mkTabs [("Untitled", hello_doc)] 0) true false) the_world0.

(** A document whose font was sized in pixels: its point size reads -1. *)
Definition pixel_doc : QTextEdit :=
  mkEdit "x" (mkFont "Mono" (-1) false true false).

Definition pixel_state : state :=
  mkState (mkWin (mkTabs [("Untitled", pixel_doc)] 0) true false) the_world0.

(** A structured file with formatting and no text. *)
Definition no_text_state : state :=
  mkState init_window (one_file "bad.esh" (dq "{'font': 'Mono', 'size': 12}")).

(** ** The handlers outside the persistence contract *)

(** [select_font]; [font] and [ok] are the answer of the font dialog. *)
Definition select_font (font : QFont) (ok : bool) : M unit :=
  editor <~ current_editor ;;
  match editor with
  | Some e => if ok then update_editor (setFont e font) else ret tt
  | None => ret tt
  end.

(** The current document with its font replaced. *)
Definition with_font (st : state) (f : QFont) : state :=
  match current_doc st with
  | Some e => with_tabs st (setCurrentWidget (tabs (self st)) (setFont e f))
  | None => st
  end.

(** The three style toggles and the two size handlers. *)
Definition style_toggles : list (M unit) := [make_bold; make_italic; make_underline].

Definition font_handlers : list (M unit) :=
  style_toggles ++ [increase_font_size; decrease_font_size].

(** What each font handler does to the font of the current document. *)
Definition bold_map (f : QFont) : QFont := setBold f (negb (bold f)).
Definition italic_map (f : QFont) : QFont := setItalic f (negb (italic f)).
Definition underline_map (f : QFont) : QFont := setUnderline f (negb (underline f)).
Definition increase_map (f : QFont) : QFont :=
  setPointSize f (effective_size f + 1).
Definition decrease_map (f : QFont) : QFont :=
  if 1 <? effective_size f then setPointSize f (effective_size f - 1) else f.

(** [h] rewrites the font of the current document by [g], and reports
    [err] when there is no current document. *)
Definition font_action (h : M unit) (g : QFont -> QFont) (err : list event) : Prop :=
  forall st,
    h st = (Return tt,
            match current_doc st with
            | Some e => with_font st (g (currentFont e))
            | None => with_log st err
            end).

(** [m] leaves every file outside [paths] as it was, and never changes
    which paths can be read or written nor the fault of the device. *)
Definition writes_only (paths : list string) {A} (m : M A) : Prop :=
  forall st,
    (forall p, p ∉ paths ->
               files (world (snd (m st))) !! p = files (world st) !! p)
    /\ unreadable (world (snd (m st))) = unreadable (world st)
    /\ readonly (world (snd (m st))) = readonly (world st)
    /\ write_fault (world (snd (m st))) = write_fault (world st).

(** What a save by suffix writes for a document: the structured text under
    [.esh], the plain text otherwise. *)
Definition encoding_by_suffix (path : string) (e : QTextEdit) : string :=
  if endswith path ".esh" then json_dump (document_json e) else toPlainText e.

(** The error of a write the device fails. *)
Definition no_space : exn := mkExn OSError "[Errno 28] No space left on device".

(** ["note.txt"] holds old text and is open in the only tab with new text,
    on a device that fails a write after three characters. *)
Definition faulty_state : state :=
  mkState (mkWin (mkTabs [("note.txt", mkEdit "new text" default_font)] 0) true false)
          (mkWorld {[ "note.txt" := "old text" ]} ∅ ∅ (Some 3%nat) []).

(** A document whose text holds a carriage return, between two letters. *)
Definition cr_doc : QTextEdit :=
  mkEdit (String "a" (String "013" (String "b" EmptyString))) default_font.

Definition cr_state : state :=
  mkState (mkWin (mkTabs [("Untitled", cr_doc)] 0) true false) the_world0.

(** ** The window as a state machine *)

(** One thing that happens to the window: a handler runs, on the answer of
    its dialog where it opens one, or the user works a widget directly
    (clicks a tab, types in the editor), which runs no handler. *)
Inductive ui_event :=
  | OnOpen (file_name : string)
  | OnSave (answer : string)
  | OnSaveAs (file_name : string)
  | OnNew
  | OnClose (index : Z)
  | OnBold
  | OnItalic
  | OnUnderline
  | OnIncrease
  | OnDecrease
  | OnFont (font : QFont) (ok : bool)
  | OnTick
  | OnToggleAutosave (checked : bool)
  | OnSelectTab (index : Z)
  | OnType (text : string).

Definition dispatch (ev : ui_event) : M unit :=
  match ev with
  | OnOpen f => load_file f
  | OnSave f => save_file f
  | OnSaveAs f => save_file_as f
  | OnNew => new_document
  | OnClose i => close_tab i
  | OnBold => make_bold
  | OnItalic => make_italic
  | OnUnderline => make_underline
  | OnIncrease => increase_font_size
  | OnDecrease => decrease_font_size
  | OnFont font ok => select_font font ok
  | OnTick => autosave
  | OnToggleAutosave b => toggle_autosave b
  | OnSelectTab i => t <~ get_tabs ;; put_tabs (setCurrentIndex t i)
  | OnType text =>
      editor <~ current_editor ;;
      match editor with
      | Some e => update_editor (mkEdit text (currentFont e))
      | None => ret tt
      end
  end.

(** The events in order; an exception that escapes a handler ends the run. *)
Fixpoint run_events (evs : list ui_event) : M unit :=
  match evs with
  | [] => ret tt
  | ev :: rest => dispatch ev ;;; run_events rest
  end.

(** There is a current page, and no tab has an empty title. *)
Definition tabs_ok (t : QTabWidget) : Prop :=
  0 <= currentIndex t < count t
  /\ Forall (fun p => fst p <> EmptyString) (pages t).

(** Every document has a point size of at least 1. *)
Definition sizes_ok (t : QTabWidget) : Prop :=
  Forall (fun p => 1 <= pointSize (currentFont (snd p))) (pages t).

(** The font dialog is only ever left with a font of positive size. *)
Definition sane_event (ev : ui_event) : Prop :=
  match ev with
  | OnFont font true => 1 <= pointSize font
  | _ => True
  end.

(** How one event can change the tab widget. *)
Inductive tab_change (ev : ui_event) (t : QTabWidget) : QTabWidget -> Prop :=
  | change_none : tab_change ev t t
  | change_open (title text : string) :
      title <> EmptyString ->
      tab_change ev t (open_tab t title text)
  | change_title (title : string) (e : QTextEdit) :
      title <> EmptyString ->
      currentWidget t = Some e ->
      tab_change ev t (setTabText t (currentIndex t) title)
  | change_doc (e w : QTextEdit) :
      currentWidget t = Some e ->
      (sane_event ev -> 1 <= pointSize (currentFont e) ->
       1 <= pointSize (currentFont w)) ->
      tab_change ev t (setCurrentWidget t w)
  | change_close (i : Z) :
      tab_change ev t
        (let t' := removeTab t i in
         if count t' =? 0 then open_tab t' "Untitled" EmptyString else t')
  | change_select (i : Z) :
      tab_change ev t (setCurrentIndex t i).

(** Every event [m] adds to the log satisfies [P]. *)
Definition logs (P : event -> Prop) {A} (m : M A) : Prop :=
  forall st, exists evs,
    log (world (snd (m st))) = evs ++ log (world st) /\ Forall P evs.

(** Anything but the "Font Error" dialog. *)
Definition not_font_error (ev : event) : Prop :=
  forall text, ev <> Critical "Font Error" text.

(** ** The syntax highlighter *)

(** [s.find(sub)]: the lowest index at which [sub] occurs in [s], or -1. *)
Fixpoint find_from (sub s : string) (i : Z) : Z :=
  if String.prefix sub s then i
  else match s with
       | EmptyString => -1
       | String _ r => find_from sub r (i + 1)
       end.

Definition str_find (s sub : string) : Z := find_from sub s 0.

Definition keywords : list string :=
  ["def"; "class"; "import"; "return"; "if"; "else"; "while"; "for"].

(** [CodeHighlighter.highlightBlock(text)]: the calls
    [setFormat(start_index, len(word), keyword_format)] it makes, in order;
    [is_code] is the property of that name of the parent editor. *)
Definition highlightBlock (is_code : bool) (text : string) : list (Z * Z) :=
  if is_code then
    flat_map
      (fun word =>
         let start_index := str_find text word in
         if negb (start_index =? -1)
         then [(start_index, Z.of_nat (String.length word))]
         else [])
      keywords
  else [].

(** [sub] stands in [s] at index [j]. *)
Definition occurs_at (sub s : string) (j : nat) : Prop :=
  String.substring j (String.length sub) s = sub.

(** [m] leaves the two flags of the window as they were. *)
Definition keeps_flags {A} (m : M A) : Prop :=
  forall st,
    autosave_enabled (self (snd (m st))) = autosave_enabled (self st)
    /\ dark_mode (self (snd (m st))) = dark_mode (self st).

Definition is_tick (ev : ui_event) : bool :=
  match ev with OnTick => true | _ => false end.

Definition is_toggle (ev : ui_event) : bool :=
  match ev with OnToggleAutosave _ => true | _ => false end.

(** ** Small lemmas *)

Ltac run_m :=
  unfold autosave, autosave_write, close_tab, increase_font_size,
    decrease_font_size, load_file, load_file_body, json_load_file,
    py_contains, py_getitem, save_file, save_file_as, save_file_as_body,
    save_file_as_write, write_to_file,
    update_editor, deref, current_editor, add_new_tab, setPlainText,
    showMessage, critical, open_r, open_w, f_read, f_write, emit, set_file,
    get_tabs, put_tabs, get_world, put_world, try_except, bind, ret, raise;
  cbn [self world tabs autosave_enabled dark_mode files unreadable readonly
       write_fault log fst snd].

Lemma state_eta (st : state) :
  mkState (mkWin (tabs (self st)) (autosave_enabled (self st)) (dark_mode (self st)))
          (world st) = st.
Proof. destruct st as [[t a d] w]; reflexivity. Qed.

Lemma count_nonneg (t : QTabWidget) : 0 <= count t.
Proof. unfold count; lia. Qed.

Lemma page_at_Some (t : QTabWidget) (i : Z) (p : string * QTextEdit) :
  page_at t i = Some p -> 0 <= i < count t.
Proof.
  unfold page_at, count. destruct (Z.leb_spec 0 i) as [Hi|Hi]; [|discriminate].
  intros Hp%lookup_lt_Some. lia.
Qed.

Lemma add_new_tab_str (title text : string) (st : state) :
  add_new_tab title (JString text) st
  = (Return tt, with_tabs st (open_tab (tabs (self st)) title text)).
Proof. reflexivity. Qed.

Lemma pages_open_tab (t : QTabWidget) (title text : string) :
  pages (open_tab t title text) = pages t ++ [(title, mkEdit text default_font)].
Proof.
  unfold open_tab, setCurrentIndex, addTab; cbn [fst].
  destruct (_ && _); reflexivity.
Qed.

Lemma count_open_tab (t : QTabWidget) (title text : string) :
  count (open_tab t title text) = count t + 1.
Proof.
  unfold count at 1. rewrite pages_open_tab, length_app. cbn. unfold count. lia.
Qed.

Lemma currentIndex_open_tab (t : QTabWidget) (title text : string) :
  currentIndex (open_tab t title text) = count t.
Proof.
  unfold open_tab, setCurrentIndex, addTab; cbn [fst].
  assert (H : count (mkTabs (pages t ++ [(title, mkEdit text default_font)])
                            (if count t =? 0 then 0 else currentIndex t))
              = count t + 1).
  { unfold count; cbn. rewrite length_app; cbn. lia. }
  rewrite H. pose proof (count_nonneg t).
  destruct (Z.leb_spec 0 (count t)); [|lia].
  destruct (Z.ltb_spec (count t) (count t + 1)); [|lia].
  reflexivity.
Qed.

Lemma currentWidget_open_tab (t : QTabWidget) (title text : string) :
  currentWidget (open_tab t title text) = Some (mkEdit text default_font).
Proof.
  unfold currentWidget, page_at.
  rewrite currentIndex_open_tab, pages_open_tab.
  pose proof (count_nonneg t).
  destruct (Z.leb_spec 0 (count t)); [|lia].
  unfold count. rewrite Nat2Z.id.
  rewrite lookup_app_r by lia. rewrite Nat.sub_diag. reflexivity.
Qed.

Lemma tabText_open_tab (t : QTabWidget) (title text : string) :
  tabText (open_tab t title text) (count t) = title.
Proof.
  unfold tabText, page_at. rewrite pages_open_tab.
  pose proof (count_nonneg t).
  destruct (Z.leb_spec 0 (count t)); [|lia].
  unfold count. rewrite Nat2Z.id.
  rewrite lookup_app_r by lia. rewrite Nat.sub_diag. reflexivity.
Qed.

(** ** Font size *)

Lemma currentWidget_setCurrentWidget (t : QTabWidget) (e w : QTextEdit) :
  currentWidget t = Some e -> currentWidget (setCurrentWidget t w) = Some w.
Proof.
  unfold currentWidget, setCurrentWidget.
  destruct (page_at t (currentIndex t)) as [[title e']|] eqn:Hp; [|discriminate].
  intros _. pose proof (page_at_Some _ _ _ Hp) as Hr.
  unfold page_at in *; cbn [pages currentIndex].
  destruct (Z.leb_spec 0 (currentIndex t)) as [Hi|Hi]; [|lia].
  rewrite list_lookup_insert_eq; [reflexivity|].
  unfold count in Hr. lia.
Qed.

Lemma current_doc_with_tabs (st : state) (t : QTabWidget) :
  current_doc (with_tabs st t) = currentWidget t.
Proof. reflexivity. Qed.

Lemma increase_font_size_run (st : state) (e : QTextEdit) :
  current_doc st = Some e ->
  increase_font_size st
  = (Return tt,
     with_tabs st
       (setCurrentWidget (tabs (self st))
          (setFont e (setPointSize (currentFont e)
                        (effective_size (currentFont e) + 1))))).
Proof.
  unfold current_doc. intros He. run_m. rewrite He. reflexivity.
Qed.

Lemma decrease_font_size_run (st : state) (e : QTextEdit) :
  current_doc st = Some e ->
  decrease_font_size st
  = (Return tt,
     if 1 <? effective_size (currentFont e)
     then with_tabs st
            (setCurrentWidget (tabs (self st))
               (setFont e (setPointSize (currentFont e)
                             (effective_size (currentFont e) - 1))))
     else st).
Proof.
  unfold current_doc. intros He. run_m. rewrite He. cbn.
  unfold effective_size. destruct (1 <? _); reflexivity.
Qed.

(** One decrement, on the size of the current document. *)
Lemma decrease_font_size_step (st : state) (e : QTextEdit) :
  current_doc st = Some e ->
  exists e',
    current_doc (snd (decrease_font_size st)) = Some e'
    /\ pointSize (currentFont e')
       = (if 1 <? effective_size (currentFont e)
          then effective_size (currentFont e) - 1
          else pointSize (currentFont e)).
Proof.
  intros He. rewrite (decrease_font_size_run _ _ He). cbn [snd].
  destruct (Z.ltb_spec 1 (effective_size (currentFont e))) as [Hs|Hs].
  - eexists. split.
    + rewrite current_doc_with_tabs.
      eapply currentWidget_setCurrentWidget. exact He.
    + cbn. unfold setPointSize.
      destruct (Z.ltb_spec 0 (effective_size (currentFont e) - 1)); [reflexivity|lia].
  - exists e. split; [exact He|reflexivity].
Qed.

Lemma iterate_S (n : nat) (m : M unit) (st : state) :
  fst (m st) = Return tt ->
  iterate (S n) m st = iterate n m (snd (m st)).
Proof.
  cbn [iterate]. unfold bind. destruct (m st) as [[[]|x] st']; cbn; [reflexivity|discriminate].
Qed.

Lemma decrease_font_size_returns (st : state) :
  fst (decrease_font_size st) = Return tt.
Proof.
  run_m. destruct (currentWidget (tabs (self st))); cbn; [|reflexivity].
  destruct (1 <? _); reflexivity.
Qed.

(** [k] decrements from a size of at least 1 stop at 1. *)
Lemma decrease_font_size_iterate (k : nat) (st : state) (e : QTextEdit) :
  current_doc st = Some e ->
  1 <= pointSize (currentFont e) ->
  exists e',
    iterate k decrease_font_size st
      = (Return tt, snd (iterate k decrease_font_size st))
    /\ current_doc (snd (iterate k decrease_font_size st)) = Some e'
    /\ pointSize (currentFont e')
       = Z.max 1 (pointSize (currentFont e) - Z.of_nat k).
Proof.
  revert st e. induction k as [|k IH]; intros st e He Hs.
  - exists e. cbn. repeat split; [exact He|lia].
  - rewrite iterate_S by apply decrease_font_size_returns.
    destruct (decrease_font_size_step st e He) as (e1 & He1 & Hs1).
    assert (Heff : effective_size (currentFont e) = pointSize (currentFont e)).
    { unfold effective_size. destruct (Z.leb_spec (pointSize (currentFont e)) 0); lia. }
    rewrite Heff in Hs1.
    assert (H1 : 1 <= pointSize (currentFont e1)).
    { rewrite Hs1. destruct (Z.ltb_spec 1 (pointSize (currentFont e))); lia. }
    destruct (IH _ _ He1 H1) as (e' & Hrun & He' & Hs').
    exists e'. repeat split; [exact Hrun|exact He'|].
    rewrite Hs', Hs1. destruct (Z.ltb_spec 1 (pointSize (currentFont e))); lia.
Qed.

(** C5. Size floor: from any point size between 1 and [N], any number of
    font-size decrements runs to completion and leaves the current
    document with a point size of at least 1; at point size 1 a decrement
    changes nothing at all. *)
Theorem C5_size_floor (N : Z) (k : nat) (st : state) (e : QTextEdit) :
  current_doc st = Some e ->
  1 <= pointSize (currentFont e) <= N ->
  (exists e',
     fst (iterate k decrease_font_size st) = Return tt
     /\ current_doc (snd (iterate k decrease_font_size st)) = Some e'
     /\ 1 <= pointSize (currentFont e'))
  /\ (pointSize (currentFont e) = 1 ->
      decrease_font_size st = (Return tt, st)).
Proof.
  intros He [Hlo Hhi]. split.
  - destruct (decrease_font_size_iterate k st e He Hlo) as (e' & Hrun & He' & Hs').
    exists e'. rewrite Hrun at 1. repeat split; [exact He'|lia].
  - intros H1. rewrite (decrease_font_size_run _ _ He).
    unfold effective_size. rewrite H1. reflexivity.
Qed.

Lemma C5_size_floor_witness :
  (exists e',
     fst (iterate 25 decrease_font_size st0) = Return tt
     /\ current_doc (snd (iterate 25 decrease_font_size st0)) = Some e'
     /\ 1 <= pointSize (currentFont e'))
  /\ (pointSize (currentFont (mkEdit EmptyString default_font)) = 1 ->
      decrease_font_size st0 = (Return tt, st0)).
Proof.
  apply (C5_size_floor 10 25 st0 (mkEdit EmptyString default_font)).
  - reflexivity.
  - cbn. lia.
Defined.

(** C10. From a point size that is not positive, both handlers take 10 as
    the size to step from: the increment leaves the current document at 11,
    the decrement at 9, the rest of its font and its text as they were. *)
Theorem C10_invalid_size_reset (st : state) (e : QTextEdit) :
  current_doc st = Some e ->
  pointSize (currentFont e) <= 0 ->
  let f := currentFont e in
  increase_font_size st
    = (Return tt,
       with_tabs st (setCurrentWidget (tabs (self st))
         (mkEdit (toPlainText e)
            (mkFont (family f) 11 (bold f) (italic f) (underline f)))))
  /\ decrease_font_size st
    = (Return tt,
       with_tabs st (setCurrentWidget (tabs (self st))
         (mkEdit (toPlainText e)
            (mkFont (family f) 9 (bold f) (italic f) (underline f)))))
  /\ (forall e', current_doc (snd (increase_font_size st)) = Some e' ->
                 pointSize (currentFont e') = 11)
  /\ (forall e', current_doc (snd (decrease_font_size st)) = Some e' ->
                 pointSize (currentFont e') = 9).
Proof.
  intros He Hs f.
  assert (Heff : effective_size (currentFont e) = 10).
  { unfold effective_size. destruct (Z.leb_spec (pointSize (currentFont e)) 0); lia. }
  rewrite (increase_font_size_run _ _ He), (decrease_font_size_run _ _ He), Heff.
  change (1 <? 10) with true. cbn [snd]. repeat split.
  - intros e'. rewrite current_doc_with_tabs.
    rewrite (currentWidget_setCurrentWidget _ _ _ He). intros [= <-]. reflexivity.
  - intros e'. rewrite current_doc_with_tabs.
    rewrite (currentWidget_setCurrentWidget _ _ _ He). intros [= <-]. reflexivity.
Qed.

Lemma C10_invalid_size_reset_witness :
  let f := currentFont pixel_doc in
  increase_font_size pixel_state
    = (Return tt,
       with_tabs pixel_state (setCurrentWidget (tabs (self pixel_state))
         (mkEdit (toPlainText pixel_doc)
            (mkFont (family f) 11 (bold f) (italic f) (underline f)))))
  /\ decrease_font_size pixel_state
    = (Return tt,
       with_tabs pixel_state (setCurrentWidget (tabs (self pixel_state))
         (mkEdit (toPlainText pixel_doc)
            (mkFont (family f) 9 (bold f) (italic f) (underline f)))))
  /\ (forall e', current_doc (snd (increase_font_size pixel_state)) = Some e' ->
                 pointSize (currentFont e') = 11)
  /\ (forall e', current_doc (snd (decrease_font_size pixel_state)) = Some e' ->
                 pointSize (currentFont e') = 9).
Proof.
  apply (C10_invalid_size_reset pixel_state pixel_doc).
  - reflexivity.
  - cbn. lia.
Defined.

(** ** Tabs *)

Lemma close_tab_run (index : Z) (st : state) :
  close_tab index st
  = (Return tt,
     let t' := removeTab (tabs (self st)) index in
     with_tabs st (if count t' =? 0 then open_tab t' "Untitled" EmptyString else t')).
Proof.
  run_m. destruct (count (removeTab (tabs (self st)) index) =? 0); reflexivity.
Qed.

(** C9. Closing a tab always runs to completion and leaves at least one tab
    open; closing the only tab leaves exactly one fresh tab: titled
    "Untitled", empty, in the default font, and current. *)
Theorem C9_close_tab_keeps_a_tab :
  (forall (index : Z) (st : state),
      fst (close_tab index st) = Return tt
      /\ 1 <= count (tabs (self (snd (close_tab index st)))))
  /\ (forall (p : string * QTextEdit) (cur : Z) (a d : bool) (w : World),
         close_tab 0 (mkState (mkWin (mkTabs [p] cur) a d) w)
         = (Return tt,
            mkState (mkWin (mkTabs [("Untitled", mkEdit EmptyString default_font)] 0)
                           a d) w)).
Proof.
  split.
  - intros index st. rewrite close_tab_run. cbn [fst snd]. split; [reflexivity|].
    cbn [with_tabs self tabs].
    destruct (Z.eqb_spec (count (removeTab (tabs (self st)) index)) 0) as [H0|H0].
    + rewrite count_open_tab, H0. lia.
    + pose proof (count_nonneg (removeTab (tabs (self st)) index)). lia.
  - intros p cur a d w. reflexivity.
Qed.

(** ** Autosave *)

(** C4. An autosave tick on a window whose current document carries the
    "Untitled" title returns normally and leaves the window and the world
    as they were, the log of file opens, status messages and dialogs
    included, whether autosave is enabled or not. *)
Theorem C4_untitled_never_autosaved
    (t : QTabWidget) (enabled dark : bool) (w : World) :
  tabText t (currentIndex t) = "Untitled" ->
  autosave (mkState (mkWin t enabled dark) w)
  = (Return tt, mkState (mkWin t enabled dark) w).
Proof.
  intros Ht. unfold autosave. cbn [self autosave_enabled].
  destruct enabled; [|reflexivity].
  run_m. rewrite Ht. reflexivity.
Qed.

Lemma C4_untitled_never_autosaved_witness :
  autosave (mkState (mkWin (tabs init_window) true false) the_world0)
  = (Return tt, mkState (mkWin (tabs init_window) true false) the_world0)
  /\ autosave (mkState (mkWin (tabs init_window) false false) the_world0)
     = (Return tt, mkState (mkWin (tabs init_window) false false) the_world0).
Proof.
  split.
  - apply (C4_untitled_never_autosaved (tabs init_window) true false the_world0).
    reflexivity.
  - apply (C4_untitled_never_autosaved (tabs init_window) false false the_world0).
    reflexivity.
Defined.

(** ** Loading *)

Lemma endswith_nonempty (s suffix : string) :
  suffix <> EmptyString -> endswith s suffix = true -> String.eqb s EmptyString = false.
Proof.
  intros Hne He. destruct (String.eqb_spec s EmptyString) as [->|]; [|reflexivity].
  destruct suffix; [contradiction|discriminate].
Qed.

Lemma esh_nonempty (path : string) :
  endswith path ".esh" = true -> String.eqb path EmptyString = false.
Proof. apply endswith_nonempty. discriminate. Qed.

Lemma dict_get_has (k : string) (kvs : list (string * json)) (v : json) :
  dict_get k kvs = Some v -> dict_has k kvs = true.
Proof.
  unfold dict_has. revert v.
  induction kvs as [|[k' v'] r IH]; intros v; cbn; [discriminate|].
  destruct (dict_get k r) as [v''|].
  - intros _. rewrite (IH v'') by reflexivity. apply orb_true_r.
  - destruct (String.eqb k k'); [reflexivity|discriminate].
Qed.

Lemma dict_has_get (k : string) (kvs : list (string * json)) :
  dict_has k kvs = true -> exists v, dict_get k kvs = Some v.
Proof.
  unfold dict_has.
  induction kvs as [|[k' v'] r IH]; cbn; [discriminate|].
  destruct (dict_get k r) as [v''|]; [eauto|].
  destruct (String.eqb k k'); [eauto|].
  cbn. intros H. destruct (IH H) as [? ?]. discriminate.
Qed.

(** The try body of [load_file] on a structured file that parses to an
    object without the [text] key. *)
Lemma load_file_body_missing_text
    (st : state) (path contents : string) (kvs : list (string * json)) :
  endswith path ".esh" = true ->
  files (world st) !! path = Some contents ->
  path ∉ unreadable (world st) ->
  json_load contents = Some (JObject kvs) ->
  dict_has "text" kvs = false ->
  load_file_body path st
  = (Raise (mkExn ValueError "Invalid file format: missing 'text' key."),
     with_log st [OpenRead path]).
Proof.
  intros Hext Hfile Hread Hjson Hhas. unfold json_load in Hjson. run_m.
  rewrite Hext. cbn. rewrite Hfile. rewrite decide_False by exact Hread.
  cbn. rewrite Hfile. cbn. rewrite Hjson. cbn. rewrite Hhas. reflexivity.
Qed.

(** The try body of [load_file] on a structured file that parses to an
    object whose [text] is a string. *)
Lemma load_file_body_text
    (st : state) (path contents text : string) (kvs : list (string * json)) :
  endswith path ".esh" = true ->
  files (world st) !! path = Some contents ->
  path ∉ unreadable (world st) ->
  json_load contents = Some (JObject kvs) ->
  dict_get "text" kvs = Some (JString text) ->
  load_file_body path st
  = (Return tt,
     with_log (with_tabs st (open_tab (tabs (self st)) path text))
       [StatusMessage ("File loaded: " +:+ path) 3000; OpenRead path]).
Proof.
  intros Hext Hfile Hread Hjson Hget. unfold json_load in Hjson. run_m.
  rewrite Hext. cbn. rewrite Hfile. rewrite decide_False by exact Hread.
  cbn. rewrite Hfile. cbn. rewrite Hjson. cbn.
  rewrite (dict_get_has _ _ _ Hget). cbn. rewrite Hget. reflexivity.
Qed.

(** Text without a carriage return is read as it is. *)
Lemma universal_newlines_id (s : string) :
  has_cr s = false -> universal_newlines s = s.
Proof.
  induction s as [|c r IH]; [reflexivity|].
  cbn [has_cr universal_newlines]. intros [Hc Hr]%orb_false_iff.
  rewrite Hc, (IH Hr). reflexivity.
Qed.

(** The try body of [load_file] on a plain file. *)
Lemma load_file_body_plain (st : state) (path contents : string) :
  endswith path ".esh" = false ->
  files (world st) !! path = Some contents ->
  path ∉ unreadable (world st) ->
  load_file_body path st
  = (Return tt,
     with_log
       (with_tabs st
          (open_tab (tabs (self st)) path (universal_newlines contents)))
       [StatusMessage ("File loaded: " +:+ path) 3000; OpenRead path]).
Proof.
  intros Hext Hfile Hread. run_m.
  rewrite Hext. cbn. rewrite Hfile. rewrite decide_False by exact Hread.
  cbn. rewrite Hfile. reflexivity.
Qed.

(** [load_file] around its try body. *)
Lemma load_file_ok (st st' : state) (path : string) :
  String.eqb path EmptyString = false ->
  load_file_body path st = (Return tt, st') ->
  load_file path st = (Return tt, st').
Proof.
  intros Hne Hbody. unfold load_file, try_except. rewrite Hne, Hbody. reflexivity.
Qed.

Lemma load_file_raise (st st' : state) (path : string) (e : exn) :
  String.eqb path EmptyString = false ->
  load_file_body path st = (Raise e, st') ->
  load_file path st
  = (Return tt,
     with_log st' [Critical "Load Error" ("Failed to load file: " +:+ exn_str e)]).
Proof.
  intros Hne Hbody. unfold load_file, try_except. rewrite Hne, Hbody. reflexivity.
Qed.

(** C3. Missing-key rejection: loading a structured file whose JSON object
    has no [text] key raises the format error "Invalid file format: missing
    'text' key." inside the handler, which reports it in the "Load Error"
    dialog; the window, and so the list of tabs, is left as it was. *)
Theorem C3_missing_text_rejected
    (st : state) (path contents : string) (kvs : list (string * json)) :
  endswith path ".esh" = true ->
  files (world st) !! path = Some contents ->
  path ∉ unreadable (world st) ->
  json_load contents = Some (JObject kvs) ->
  dict_has "text" kvs = false ->
  (exists e st',
      load_file_body path st = (Raise e, st')
      /\ FormatError e = true
      /\ load_file path st
         = (Return tt,
            with_log st
              [Critical "Load Error"
                 "Failed to load file: Invalid file format: missing 'text' key.";
               OpenRead path]))
  /\ self (snd (load_file path st)) = self st
  /\ pages (tabs (self (snd (load_file path st)))) = pages (tabs (self st)).
Proof.
  intros Hext Hfile Hread Hjson Hhas.
  pose proof (load_file_body_missing_text st path contents kvs
                Hext Hfile Hread Hjson Hhas) as Hbody.
  pose proof (load_file_raise _ _ _ _ (esh_nonempty _ Hext) Hbody) as Hload.
  split.
  - eexists _, _. split; [exact Hbody|]. split; [reflexivity|exact Hload].
  - rewrite Hload. split; reflexivity.
Qed.

Lemma C3_missing_text_rejected_witness :
  (exists e st',
      load_file_body "bad.esh" no_text_state = (Raise e, st')
      /\ FormatError e = true
      /\ load_file "bad.esh" no_text_state
         = (Return tt,
            with_log no_text_state
              [Critical "Load Error"
                 "Failed to load file: Invalid file format: missing 'text' key.";
               OpenRead "bad.esh"]))
  /\ self (snd (load_file "bad.esh" no_text_state)) = self no_text_state
  /\ pages (tabs (self (snd (load_file "bad.esh" no_text_state))))
     = pages (tabs (self no_text_state)).
Proof.
  apply (C3_missing_text_rejected no_text_state "bad.esh"
           (dq "{'font': 'Mono', 'size': 12}")
           [("font", JString "Mono"); ("size", JInt 12)]).
  - reflexivity.
  - reflexivity.
  - cbn. apply not_elem_of_empty.
  - reflexivity.
  - reflexivity.
Defined.


(** C2, as stated, fails: a structured file that has the [text] key and
    none of [font], [size], [bold], [italic], [underline] loads, so a missing
    key among the six does not always make the load fail. *)
Lemma C2_all_keys_required_counterexample :
  ~ (forall (st : state) (path contents key : string) (kvs : list (string * json)),
        In key ["text"; "font"; "size"; "bold"; "italic"; "underline"] ->
        endswith path ".esh" = true ->
        files (world st) !! path = Some contents ->
        path ∉ unreadable (world st) ->
        json_load contents = Some (JObject kvs) ->
        dict_has key kvs = false ->
        exists e st', load_file_body path st = (Raise e, st')).
Proof.
  intros H.
  destruct (H (mkState init_window (one_file "a.esh" (dq "{'text': 'hi'}")))
              "a.esh" (dq "{'text': 'hi'}") "font" [("text", JString "hi")])
    as (e & st' & Hbody).
  - cbn. tauto.
  - reflexivity.
  - reflexivity.
  - cbn. apply not_elem_of_empty.
  - reflexivity.
  - reflexivity.
  - vm_compute in Hbody. discriminate.
Qed.

(** C2, amended. Of the six keys only [text] is required on read: a
    structured file whose JSON object has no [text] key fails to load and
    leaves the window as it was, and one whose object has a string under
    [text] loads into a new current tab that holds that string, whatever
    other keys the object has or lacks. *)
Theorem C2_only_text_required
    (st : state) (path contents : string) (kvs : list (string * json)) :
  endswith path ".esh" = true ->
  files (world st) !! path = Some contents ->
  path ∉ unreadable (world st) ->
  json_load contents = Some (JObject kvs) ->
  (dict_has "text" kvs = false ->
   (exists e st', load_file_body path st = (Raise e, st'))
   /\ self (snd (load_file path st)) = self st)
  /\ (forall text : string,
         dict_get "text" kvs = Some (JString text) ->
         fst (load_file path st) = Return tt
         /\ exists doc : QTextEdit,
              pages (tabs (self (snd (load_file path st))))
              = pages (tabs (self st)) ++ [(path, doc)]
              /\ current_doc (snd (load_file path st)) = Some doc
              /\ toPlainText doc = text).
Proof.
  intros Hext Hfile Hread Hjson. split.
  - intros Hhas.
    pose proof (load_file_body_missing_text st path contents kvs
                  Hext Hfile Hread Hjson Hhas) as Hbody.
    split; [eauto|].
    rewrite (load_file_raise _ _ _ _ (esh_nonempty _ Hext) Hbody). reflexivity.
  - intros text Hget.
    rewrite (load_file_ok _ _ _ (esh_nonempty _ Hext)
               (load_file_body_text st path contents text kvs
                  Hext Hfile Hread Hjson Hget)).
    cbn [fst snd with_log with_tabs self tabs].
    split; [reflexivity|]. eexists. split; [apply pages_open_tab|].
    split; [|reflexivity]. unfold current_doc.
    cbn [self tabs]. apply currentWidget_open_tab.
Qed.

(** A file with formatting and no text, and a file with text alone. *)
Lemma C2_only_text_required_witness :
  ((exists e st', load_file_body "bad.esh" no_text_state = (Raise e, st'))
   /\ self (snd (load_file "bad.esh" no_text_state)) = self no_text_state)
  /\ (let st := mkState init_window (one_file "a.esh" (dq "{'text': 'hi'}")) in
      fst (load_file "a.esh" st) = Return tt
      /\ exists doc : QTextEdit,
           pages (tabs (self (snd (load_file "a.esh" st))))
           = pages (tabs (self st)) ++ [("a.esh", doc)]
           /\ current_doc (snd (load_file "a.esh" st)) = Some doc
           /\ toPlainText doc = "hi").
Proof.
  split.
  - apply (C2_only_text_required no_text_state "bad.esh"
             (dq "{'font': 'Mono', 'size': 12}")
             [("font", JString "Mono"); ("size", JInt 12)]).
    + reflexivity.
    + reflexivity.
    + cbn. apply not_elem_of_empty.
    + reflexivity.
    + reflexivity.
  - intros st.
    apply (C2_only_text_required st "a.esh" (dq "{'text': 'hi'}")
             [("text", JString "hi")]).
    + reflexivity.
    + reflexivity.
    + cbn. apply not_elem_of_empty.
    + reflexivity.
    + reflexivity.
Defined.

(** ** What a computation does to the window *)

Create HintDb frame.

Lemma keeps_ret {A} (a : A) : keeps_self (ret a).
Proof. intros st; reflexivity. Qed.

Lemma keeps_raise {A} (e : exn) : keeps_self (@raise A e).
Proof. intros st; reflexivity. Qed.

Lemma keeps_bind {A B} (m : M A) (k : A -> M B) :
  keeps_self m -> (forall a, keeps_self (k a)) -> keeps_self (bind m k).
Proof.
  intros Hm Hk st. unfold bind. specialize (Hm st).
  destruct (m st) as [[a|e] st1]; cbn in *; [|exact Hm].
  rewrite Hk. exact Hm.
Qed.

Lemma keeps_try {A} (m : M A) (h : exn -> M A) :
  keeps_self m -> (forall e, keeps_self (h e)) -> keeps_self (try_except m h).
Proof.
  intros Hm Hh st. unfold try_except. specialize (Hm st).
  destruct (m st) as [[a|e] st1]; cbn in *; [exact Hm|].
  rewrite Hh. exact Hm.
Qed.

Lemma keeps_if {A} (b : bool) (m1 m2 : M A) :
  keeps_self m1 -> keeps_self m2 -> keeps_self (if b then m1 else m2).
Proof. destruct b; auto. Qed.

Lemma keeps_get_tabs : keeps_self get_tabs.
Proof. intros st; reflexivity. Qed.

Lemma keeps_get_world : keeps_self get_world.
Proof. intros st; reflexivity. Qed.

Lemma keeps_put_world (w : World) : keeps_self (put_world w).
Proof. intros st; reflexivity. Qed.

#[local] Hint Resolve keeps_ret keeps_raise keeps_get_tabs keeps_get_world
  keeps_put_world : frame.
#[local] Hint Extern 2 (keeps_self (bind _ _)) =>
  apply keeps_bind; [|intros ?] : frame.
#[local] Hint Extern 2 (keeps_self (try_except _ _)) =>
  apply keeps_try; [|intros ?] : frame.
#[local] Hint Extern 2 (keeps_self (if _ then _ else _)) =>
  apply keeps_if : frame.
#[local] Hint Extern 3 (keeps_self (match ?x with _ => _ end)) =>
  destruct x : frame.

Lemma keeps_emit (ev : event) : keeps_self (emit ev).
Proof. unfold emit. auto with frame. Qed.

Lemma keeps_set_file (path data : string) : keeps_self (set_file path data).
Proof. unfold set_file. auto with frame. Qed.

#[local] Hint Resolve keeps_emit keeps_set_file : frame.

Lemma keeps_open_r (path : string) : keeps_self (open_r path).
Proof. unfold open_r. auto 8 with frame. Qed.

Lemma keeps_f_read (path : string) : keeps_self (f_read path).
Proof. unfold f_read. auto with frame. Qed.

Lemma keeps_open_w (path : string) : keeps_self (open_w path).
Proof. unfold open_w. auto 8 with frame. Qed.

Lemma keeps_f_write (path data : string) : keeps_self (f_write path data).
Proof. unfold f_write. auto 8 with frame. Qed.

Lemma keeps_showMessage (text : string) (msecs : Z) :
  keeps_self (showMessage text msecs).
Proof. apply keeps_emit. Qed.

Lemma keeps_critical (title text : string) : keeps_self (critical title text).
Proof. apply keeps_emit. Qed.

Lemma keeps_current_editor : keeps_self current_editor.
Proof. unfold current_editor. auto with frame. Qed.

Lemma keeps_deref (method : string) (editor : option QTextEdit) :
  keeps_self (deref method editor).
Proof. unfold deref. auto with frame. Qed.

#[local] Hint Resolve keeps_open_r keeps_f_read keeps_open_w keeps_f_write
  keeps_showMessage keeps_critical keeps_current_editor keeps_deref : frame.

Lemma keeps_json_load_file (path : string) : keeps_self (json_load_file path).
Proof. unfold json_load_file. auto 8 with frame. Qed.

Lemma keeps_py_contains (k : string) (data : json) : keeps_self (py_contains k data).
Proof. unfold py_contains. auto with frame. Qed.

Lemma keeps_py_getitem (data : json) (k : string) : keeps_self (py_getitem data k).
Proof. unfold py_getitem. auto 8 with frame. Qed.

(** No write touches the window. *)
Lemma keeps_write_to_file (path : string) (is_esh : bool) :
  keeps_self (write_to_file path is_esh).
Proof. unfold write_to_file. auto 12 with frame. Qed.

#[local] Hint Resolve keeps_json_load_file keeps_py_contains keeps_py_getitem
  keeps_write_to_file : frame.

Lemma keeps_save_file_as_write (path : string) :
  keeps_self (save_file_as_write path).
Proof. unfold save_file_as_write. auto 12 with frame. Qed.

Lemma keeps_autosave_write (title : string) (editor : option QTextEdit) :
  keeps_self (autosave_write title editor).
Proof. unfold autosave_write. auto 12 with frame. Qed.

Lemma keeps_fails_clean {A} (m : M A) : keeps_self m -> fails_clean m.
Proof. intros Hm st e st' Hrun. specialize (Hm st). rewrite Hrun in Hm. exact Hm. Qed.

Lemma fails_clean_bind {A B} (m : M A) (k : A -> M B) :
  keeps_self m -> (forall a, fails_clean (k a)) -> fails_clean (bind m k).
Proof.
  intros Hm Hk st e st'. unfold bind. specialize (Hm st).
  destruct (m st) as [[a|e1] st1]; cbn in *.
  - intros Hrun. rewrite (Hk _ _ _ _ Hrun). exact Hm.
  - intros [= <- <-]. exact Hm.
Qed.

Lemma fails_clean_total {A} (m : M A) : total m -> fails_clean m.
Proof.
  intros Hm st e st' Hrun. destruct (Hm st) as [a Ha].
  rewrite Hrun in Ha. discriminate.
Qed.

(** ** Failures of the user's load and save *)

(** The new tab is added after everything that can fail, and the message
    after it cannot fail. *)
Lemma fails_clean_add_new_tab (title : string) (content : json) (k : M unit) :
  total k -> fails_clean (add_new_tab title content ;;; k).
Proof.
  intros Hk st e st'. unfold bind, add_new_tab, setPlainText, get_tabs, put_tabs, ret, raise.
  destruct content; cbn; try (intros [= <- <-]; reflexivity).
  - match goal with |- context [k ?s] => destruct (Hk s) as [[] Ha]; destruct (k s) end.
    cbn in Ha. rewrite Ha. discriminate.
  - match goal with |- context [k ?s] => destruct (Hk s) as [[] Ha]; destruct (k s) end.
    cbn in Ha. rewrite Ha. discriminate.
Qed.

Lemma total_showMessage (text : string) (msecs : Z) : total (showMessage text msecs).
Proof. intros st. exists tt. reflexivity. Qed.

Lemma load_file_body_fails_clean (path : string) : fails_clean (load_file_body path).
Proof.
  unfold load_file_body. apply fails_clean_bind.
  - auto 12 with frame.
  - intros content. apply fails_clean_add_new_tab, total_showMessage.
Qed.

Lemma save_file_as_body_fails_clean (path : string) :
  fails_clean (save_file_as_body path).
Proof.
  unfold save_file_as_body. apply fails_clean_bind.
  - apply keeps_save_file_as_write.
  - intros _. apply fails_clean_total. intros st. exists tt. reflexivity.
Qed.

(** C8. When a load or a save the user asked for fails, the window is the
    one the handler started from: the same tabs (a failed load adds none),
    the same current tab, the same documents and the same tab titles (a
    failed save records no new location).  This holds for [load_file], for
    [save_file_as] and for [save_file].  The first two, and [save_file] on an
    untitled document, show the error in a dialog and return; [save_file] on
    a document that has a location has no [try] around its write, so there
    the exception leaves the handler and nothing is shown. *)
Theorem C8_failed_load_or_save_keeps_documents
    (a : user_action) (st st' : state) (e : exn) :
  (guarded a st = true -> chosen_file a <> EmptyString) ->
  file_work a st = (Raise e, st') ->
  handler a st
  = (if guarded a st
     then (Return tt, with_log st' [error_dialog a e])
     else (Raise e, st'))
  /\ self (snd (handler a st)) = self st
  /\ pages (tabs (self (snd (handler a st)))) = pages (tabs (self st))
  /\ current_title (snd (handler a st)) = current_title st.
Proof.
  intros Hne Hbody.
  assert (Hself : self st' = self st).
  { destruct a as [f|f|f]; cbn [file_work] in Hbody.
    - exact (load_file_body_fails_clean f _ _ _ Hbody).
    - exact (save_file_as_body_fails_clean f _ _ _ Hbody).
    - destruct (String.eqb (current_title st) "Untitled").
      + exact (save_file_as_body_fails_clean f _ _ _ Hbody).
      + exact (keeps_fails_clean _ (keeps_write_to_file _ _) _ _ _ Hbody). }
  assert (Hrun : handler a st
                 = (if guarded a st
                    then (Return tt, with_log st' [error_dialog a e])
                    else (Raise e, st'))).
  { destruct a as [f|f|f];
      cbn [handler guarded file_work chosen_file error_dialog] in *.
    - specialize (Hne eq_refl). unfold load_file, try_except.
      destruct (String.eqb_spec f EmptyString); [contradiction|].
      rewrite Hbody. reflexivity.
    - specialize (Hne eq_refl). unfold save_file_as, try_except.
      destruct (String.eqb_spec f EmptyString); [contradiction|].
      rewrite Hbody. reflexivity.
    - unfold save_file, bind, get_tabs. cbn [tabs self fst snd].
      fold (current_title st).
      destruct (String.eqb (current_title st) "Untitled").
      + specialize (Hne eq_refl). unfold save_file_as, try_except.
        destruct (String.eqb_spec f EmptyString); [contradiction|].
        rewrite Hbody. reflexivity.
      + exact Hbody. }
  rewrite Hrun. unfold current_title.
  destruct (guarded a st); cbn [snd with_log self]; rewrite Hself;
    (split; [reflexivity|]); (split; [reflexivity|]); split; reflexivity.
Qed.

Lemma C8_failed_load_or_save_keeps_documents_witness :
  (let e := mkExn OSError "[Errno 2] No such file or directory: 'nope.txt'" in
   let st' := with_log st0 [OpenRead "nope.txt"] in
   handler (Load "nope.txt") st0
   = (Return tt, with_log st' [error_dialog (Load "nope.txt") e])
   /\ self (snd (handler (Load "nope.txt") st0)) = self st0
   /\ pages (tabs (self (snd (handler (Load "nope.txt") st0))))
      = pages (tabs (self st0))
   /\ current_title (snd (handler (Load "nope.txt") st0)) = current_title st0)
  /\ (let e := mkExn OSError "[Errno 13] Permission denied: 'notes.txt'" in
      let st' := with_log locked_state [OpenWrite "notes.txt"] in
      handler (Save "other.txt") locked_state = (Raise e, st')
      /\ self (snd (handler (Save "other.txt") locked_state)) = self locked_state
      /\ pages (tabs (self (snd (handler (Save "other.txt") locked_state))))
         = pages (tabs (self locked_state))
      /\ current_title (snd (handler (Save "other.txt") locked_state))
         = current_title locked_state).
Proof.
  split.
  - intros e st'.
    apply (C8_failed_load_or_save_keeps_documents (Load "nope.txt") st0 st' e).
    + discriminate.
    + reflexivity.
  - intros e st'.
    apply (C8_failed_load_or_save_keeps_documents
             (Save "other.txt") locked_state st' e).
    + discriminate.
    + vm_compute. reflexivity.
Defined.

(** [save_file] on a document that has a location writes without a [try]:
    a failure is raised to the caller, and the window is as it was. *)
Lemma save_file_raise_keeps_window
    (file_name : string) (st st' : state) (e : exn) :
  save_file file_name st = (Raise e, st') -> self st' = self st.
Proof.
  unfold save_file, bind, get_tabs. cbn [tabs self].
  destruct (String.eqb _ "Untitled").
  - unfold save_file_as, try_except, ret.
    destruct (String.eqb file_name EmptyString); [discriminate|].
    destruct (save_file_as_body file_name st) as [[[]|e1] st1]; discriminate.
  - apply (keeps_fails_clean _ (keeps_write_to_file _ _)).
Qed.

(** ** Autosave failures *)

(** A write that fails for an I/O reason has opened the file, or tried to,
    and has logged nothing else. *)
Lemma autosave_write_io_error_log
    (title : string) (editor : option QTextEdit) (st st' : state) (e : exn) :
  autosave_write title editor st = (Raise e, st') ->
  IOError e = true ->
  log (world st') = OpenWrite title :: log (world st).
Proof.
  run_m.
  destruct (endswith title ".esh");
    [destruct (currentWidget (tabs (self st)))|destruct editor]; cbn;
    destruct (decide (title ∈ readonly (world st))); cbn;
    try rewrite lookup_insert_eq; cbn -[json_dump];
    try destruct (write_fault (world st)) as [k|]; cbn -[json_dump];
    try destruct (String.eqb _ EmptyString); cbn -[json_dump];
    intros [= <- <-]; cbn; try reflexivity; discriminate.
Qed.

(** C7. With autosave on and a current document that has a location, a tick
    whose write fails with an I/O error returns normally: the error is not
    raised to the caller, the only thing shown is the "Autosave failed"
    status message with its 2 second timeout, no dialog is opened, and the
    window is left as it was. *)
Theorem C7_autosave_failure_swallowed (st st' : state) (e : exn) :
  autosave_enabled (self st) = true ->
  current_title st <> "Untitled" ->
  autosave_write (current_title st) (current_doc st) st = (Raise e, st') ->
  IOError e = true ->
  autosave st
  = (Return tt,
     with_log st' [StatusMessage ("Autosave failed: " +:+ exn_str e) 2000])
  /\ self (snd (autosave st)) = self st
  /\ log (world (snd (autosave st)))
     = [StatusMessage ("Autosave failed: " +:+ exn_str e) 2000;
        OpenWrite (current_title st)] ++ log (world st).
Proof.
  intros Hon Htitle Hwrite Hio.
  assert (Hrun : autosave st
                 = (Return tt,
                    with_log st' [StatusMessage ("Autosave failed: " +:+ exn_str e) 2000])).
  { unfold autosave. rewrite Hon.
    unfold bind at 1, current_editor, bind at 1, get_tabs, ret. cbn.
    fold (current_title st). fold (current_doc st).
    destruct (String.eqb_spec (current_title st) "Untitled"); [contradiction|].
    cbn. unfold try_except, bind. rewrite Hwrite. reflexivity. }
  rewrite Hrun. cbn [snd with_log self world log].
  split; [reflexivity|]. split.
  - exact (keeps_fails_clean _ (keeps_autosave_write _ _) _ _ _ Hwrite).
  - rewrite (autosave_write_io_error_log _ _ _ _ _ Hwrite Hio). reflexivity.
Qed.

Lemma C7_autosave_failure_swallowed_witness :
  let e := mkExn OSError "[Errno 13] Permission denied: 'notes.txt'" in
  let st' := with_log locked_state [OpenWrite "notes.txt"] in
  autosave locked_state
  = (Return tt,
     with_log st' [StatusMessage ("Autosave failed: " +:+ exn_str e) 2000])
  /\ self (snd (autosave locked_state)) = self locked_state
  /\ log (world (snd (autosave locked_state)))
     = [StatusMessage ("Autosave failed: " +:+ exn_str e) 2000;
        OpenWrite (current_title locked_state)] ++ log (world locked_state).
Proof.
  intros e st'.
  apply (C7_autosave_failure_swallowed locked_state st' e).
  - reflexivity.
  - discriminate.
  - vm_compute. reflexivity.
  - reflexivity.
Defined.

(** ** Saving, and loading what was saved *)

Lemma reloads_plain (st : state) (path contents : string) :
  path <> EmptyString ->
  endswith path ".esh" = false ->
  files (world st) !! path = Some contents ->
  path ∉ unreadable (world st) ->
  reloads_as path st (mkEdit (universal_newlines contents) default_font).
Proof.
  intros Hne Hext Hfile Hread.
  assert (Hload : load_file path st
    = (Return tt,
       with_log
         (with_tabs st
            (open_tab (tabs (self st)) path (universal_newlines contents)))
         [StatusMessage ("File loaded: " +:+ path) 3000; OpenRead path])).
  { apply load_file_ok.
    - destruct (String.eqb_spec path EmptyString); [contradiction|reflexivity].
    - apply load_file_body_plain; assumption. }
  unfold reloads_as. rewrite Hload. cbn [snd toPlainText].
  split; [reflexivity|]. split.
  - cbn. apply pages_open_tab.
  - unfold current_doc. cbn. apply currentWidget_open_tab.
Qed.

Lemma reloads_plain_lf (st : state) (path contents : string) :
  path <> EmptyString ->
  endswith path ".esh" = false ->
  files (world st) !! path = Some contents ->
  path ∉ unreadable (world st) ->
  has_cr contents = false ->
  reloads_as path st (mkEdit contents default_font).
Proof.
  intros Hne Hext Hfile Hread Hcr.
  rewrite <- (universal_newlines_id contents Hcr).
  apply reloads_plain; assumption.
Qed.

Lemma reloads_esh (st : state) (path contents text : string)
    (kvs : list (string * json)) :
  endswith path ".esh" = true ->
  files (world st) !! path = Some contents ->
  path ∉ unreadable (world st) ->
  json_load contents = Some (JObject kvs) ->
  dict_get "text" kvs = Some (JString text) ->
  reloads_as path st (mkEdit text default_font).
Proof.
  intros Hext Hfile Hread Hjson Hget.
  assert (Hload : load_file path st
    = (Return tt,
       with_log (with_tabs st (open_tab (tabs (self st)) path text))
         [StatusMessage ("File loaded: " +:+ path) 3000; OpenRead path])).
  { apply load_file_ok; [exact (esh_nonempty _ Hext)|].
    eapply load_file_body_text; eassumption. }
  unfold reloads_as. rewrite Hload. cbn [snd toPlainText].
  split; [reflexivity|]. split.
  - cbn. apply pages_open_tab.
  - unfold current_doc. cbn. apply currentWidget_open_tab.
Qed.


Lemma write_to_file_esh_run (st : state) (e : QTextEdit) (path : string) :
  current_doc st = Some e ->
  path ∉ readonly (world st) ->
  write_fault (world st) = None ->
  write_to_file path true st
  = (Return tt,
     with_log (with_file st path (json_dump (document_json e))) [OpenWrite path]).
Proof.
  unfold current_doc. intros He Hw Hfault. run_m.
  rewrite He. cbn -[json_dump]. rewrite decide_False by exact Hw. cbn -[json_dump].
  rewrite Hfault. cbn -[json_dump]. rewrite lookup_insert_eq. cbn -[json_dump].
  rewrite insert_insert_eq. unfold with_log, with_file. cbn -[json_dump].
  rewrite Hfault. reflexivity.
Qed.

(** [save_file_as] on a path without the [.esh] suffix. *)
Lemma save_file_as_plain_run (st : state) (e : QTextEdit) (path : string) :
  current_doc st = Some e ->
  path <> EmptyString ->
  endswith path ".esh" = false ->
  path ∉ readonly (world st) ->
  write_fault (world st) = None ->
  save_file_as path st
  = (Return tt,
     with_log
       (with_tabs (with_file st path (toPlainText e))
          (setTabText (tabs (self st)) (currentIndex (tabs (self st))) path))
       [StatusMessage ("File saved: " +:+ path) 3000; OpenWrite path]).
Proof.
  unfold current_doc. intros He Hne Hext Hw Hfault. run_m.
  destruct (String.eqb_spec path EmptyString); [contradiction|].
  rewrite Hext. cbn. rewrite decide_False by exact Hw. cbn.
  rewrite He. cbn. rewrite Hfault. cbn. rewrite lookup_insert_eq. cbn.
  rewrite insert_insert_eq. unfold with_log, with_tabs, with_file. cbn.
  rewrite Hfault. reflexivity.
Qed.

(** [save_file_as] on a path with the [.esh] suffix. *)
Lemma save_file_as_esh_run (st : state) (e : QTextEdit) (path : string) :
  current_doc st = Some e ->
  endswith path ".esh" = true ->
  path ∉ readonly (world st) ->
  write_fault (world st) = None ->
  save_file_as path st
  = (Return tt,
     with_log
       (with_tabs (with_file st path (json_dump (document_json e)))
          (setTabText (tabs (self st)) (currentIndex (tabs (self st))) path))
       [StatusMessage ("File saved: " +:+ path) 3000; OpenWrite path]).
Proof.
  intros He Hext Hw Hfault.
  unfold save_file_as, try_except, save_file_as_body, save_file_as_write.
  rewrite (esh_nonempty _ Hext), Hext. unfold bind at 1.
  rewrite (write_to_file_esh_run _ _ _ He Hw Hfault). reflexivity.
Qed.




(** The input of the counterexample run through the code: the file holds
    the carriage return, the reloaded document a line feed. *)
Example cr_round_trip :
  files (world (snd (save_file_as "note.txt" cr_state))) !! "note.txt"
  = Some (String "a" (String "013" (String "b" EmptyString)))
  /\ current_doc (snd (load_file "note.txt" (snd (save_file_as "note.txt" cr_state))))
     = Some (mkEdit (String "a" (String "010" (String "b" EmptyString)))
               default_font).
Proof. split; vm_compute; reflexivity. Qed.

(** ** The structured encoding read back *)

Lemma append_nil (b : string) : EmptyString +:+ b = b.
Proof. reflexivity. Qed.

Lemma append_cons (x : ascii) (a b : string) :
  String x a +:+ b = String x (a +:+ b).
Proof. reflexivity. Qed.

Lemma append_assoc (a b c : string) : (a +:+ b) +:+ c = a +:+ (b +:+ c).
Proof.
  induction a as [|x a IH]; [reflexivity|].
  rewrite !append_cons, IH. reflexivity.
Qed.

Lemma substring_all (s : string) : String.substring 0 (String.length s) s = s.
Proof. induction s as [|c s IH]; cbn; [reflexivity|]. f_equal. exact IH. Qed.

(** Reading back one written character. *)
Lemma scanstring_escape_char (c : ascii) (t : string) :
  scanstring (escape_char c +:+ t) = cons_scanned c (scanstring t).
Proof.
  destruct c as [[] [] [] [] [] [] [] []]; reflexivity.
Qed.

(** Reading back a written string literal, after its opening quote. *)
Lemma scanstring_escape (s rest : string) :
  scanstring (escape s +:+ String "034" rest) = Some (s, rest).
Proof.
  induction s as [|c s IH]; [reflexivity|].
  cbn [escape]. rewrite append_assoc, scanstring_escape_char, IH. reflexivity.
Qed.

(** Reading back a written integer, in front of a comma. *)
Lemma take_digits_uint (d : Decimal.uint) (r : string) :
  take_digits (NilEmpty.string_of_uint d +:+ String "," r)
  = (NilEmpty.string_of_uint d, String "," r).
Proof.
  induction d as [|d IH|d IH|d IH|d IH|d IH|d IH|d IH|d IH|d IH|d IH];
    cbn [NilEmpty.string_of_uint]; [reflexivity|..];
    rewrite append_cons; cbn [take_digits];
    (change (is_digit _) with true; cbn iota; rewrite IH; reflexivity).
Qed.

Lemma pos_to_uint_normal (p : positive) :
  match Pos.to_uint p with
  | Decimal.Nil | Decimal.D0 _ => False
  | _ => True
  end.
Proof.
  pose proof (DecimalPos.Unsigned.to_uint_nonzero p) as Hnz.
  pose proof (DecimalPos.Unsigned.to_uint_nonnil p) as Hnn.
  assert (Hnorm : Decimal.unorm (Pos.to_uint p) = Pos.to_uint p).
  { rewrite <- (DecimalN.Unsigned.to_of (Pos.to_uint p)).
    change (N.of_uint (Pos.to_uint p)) with (Pos.of_uint (Pos.to_uint p)).
    rewrite DecimalPos.Unsigned.of_to. reflexivity. }
  destruct (Pos.to_uint p) as [|u|u|u|u|u|u|u|u|u|u]; try exact I.
  - apply Hnn. reflexivity.
  - rewrite DecimalFacts.unorm_D0 in Hnorm. unfold Decimal.unorm in Hnorm.
    destruct (Decimal.nzhead u) as [|v|v|v|v|v|v|v|v|v|v] eqn:Hh;
      apply (DecimalFacts.nzhead_nonzero u u); congruence.
Qed.

Lemma digits_to_Z_uint (d : Decimal.uint) :
  d <> Decimal.Nil -> digits_to_Z (NilEmpty.string_of_uint d) = Z.of_uint d.
Proof.
  intros Hd. unfold digits_to_Z.
  replace (NilEmpty.string_of_uint d) with (NilZero.string_of_uint d)
    by (destruct d; [contradiction|reflexivity..]).
  rewrite NilZero.usu by exact Hd. reflexivity.
Qed.

Lemma string_of_uint_pos (p : positive) :
  NilZero.string_of_uint (Pos.to_uint p) = NilEmpty.string_of_uint (Pos.to_uint p).
Proof.
  pose proof (pos_to_uint_normal p).
  destruct (Pos.to_uint p); [contradiction|reflexivity..].
Qed.

Lemma digits_to_Z_pos (p : positive) :
  digits_to_Z (NilEmpty.string_of_uint (Pos.to_uint p)) = Zpos p.
Proof.
  rewrite digits_to_Z_uint by apply DecimalPos.Unsigned.to_uint_nonnil.
  unfold Z.of_uint. rewrite DecimalPos.Unsigned.of_to. reflexivity.
Qed.

Lemma scan_intpart_pos (p : positive) (r : string) :
  scan_intpart (NilEmpty.string_of_uint (Pos.to_uint p) +:+ String "," r)
  = Some (NilEmpty.string_of_uint (Pos.to_uint p), String "," r).
Proof.
  pose proof (pos_to_uint_normal p) as Hn.
  destruct (Pos.to_uint p) as [|u|u|u|u|u|u|u|u|u|u]; try contradiction;
    cbn [NilEmpty.string_of_uint]; rewrite append_cons; unfold scan_intpart;
    (change (Ascii.eqb _ "0") with false; change (is_digit _) with true;
     cbn iota; rewrite take_digits_uint; reflexivity).
Qed.

(** The first digit is not a minus sign. *)
Lemma sign_pos {A} (p : positive) (r : string) (k : string -> A) (d : A) :
  match NilEmpty.string_of_uint (Pos.to_uint p) +:+ String "," r with
  | String "-" t => k t
  | _ => d
  end = d.
Proof.
  pose proof (pos_to_uint_normal p) as Hn.
  destruct (Pos.to_uint p) as [|u|u|u|u|u|u|u|u|u|u]; try contradiction;
    reflexivity.
Qed.

Lemma scan_number_encode_int (z : Z) (r : string) :
  scan_number (encode_int z +:+ String "," r) = Some (JInt z, String "," r).
Proof.
  destruct z as [|p|p]; [reflexivity| |];
    unfold encode_int; cbn [Z.to_int NilZero.string_of_int];
    rewrite string_of_uint_pos; unfold scan_number.
  - rewrite sign_pos, scan_intpart_pos. cbn. rewrite digits_to_Z_pos. reflexivity.
  - rewrite append_cons. cbn iota. rewrite scan_intpart_pos. cbn.
    rewrite digits_to_Z_pos. reflexivity.
Qed.

Ltac norm_app :=
  repeat (rewrite append_assoc || rewrite append_cons || rewrite append_nil).

(** The steps of the decoder, one lemma each. *)
Lemma scan_once_object (fuel : nat) (r r' : string) :
  skip_ws r = String "034" r' ->
  scan_once (S fuel) (String "{" r) = scan_members fuel r' [].
Proof. intros H. cbn [scan_once]. rewrite H. reflexivity. Qed.

Lemma scan_once_string (fuel : nat) (s rest : string) :
  scan_once (S fuel) (String "034" (escape s +:+ String "034" rest))
  = Some (JString s, rest).
Proof. cbn [scan_once]. rewrite scanstring_escape. reflexivity. Qed.

Lemma scan_once_number (fuel : nat) (s : string) (res : json * string) :
  starts_number s = true ->
  scan_number s = Some res ->
  scan_once (S fuel) s = Some res.
Proof.
  destruct s as [|c t]; [discriminate|].
  intros Hc Hn. cbn [scan_once].
  destruct c as [[] [] [] [] [] [] [] []]; try discriminate Hc;
    rewrite Hn; reflexivity.
Qed.

Lemma starts_number_encode_int (z : Z) (r : string) :
  starts_number (encode_int z +:+ r) = true.
Proof.
  destruct z as [|p|p]; [reflexivity| |reflexivity].
  unfold encode_int. cbn [Z.to_int NilZero.string_of_int].
  pose proof (pos_to_uint_normal p) as Hn.
  destruct (Pos.to_uint p); try contradiction; reflexivity.
Qed.

Lemma scan_once_int (fuel : nat) (z : Z) (r : string) :
  scan_once (S fuel) (encode_int z +:+ String "," r)
  = Some (JInt z, String "," r).
Proof.
  apply scan_once_number;
    [apply starts_number_encode_int|apply scan_number_encode_int].
Qed.

Lemma scan_once_bool (fuel : nat) (b : bool) (rest : string) :
  scan_once (S fuel) ((if b then "true" else "false") +:+ rest)
  = Some (JBool b, rest).
Proof.
  assert (Hp : String.prefix EmptyString rest = true) by (destruct rest; reflexivity).
  destruct b; norm_app; cbn [scan_once]; unfold strip_prefix;
    cbn [String.prefix String.length String.substring Nat.sub];
    rewrite Nat.sub_0_r, substring_all;
    (repeat match goal with |- context [ascii_dec ?a ?b] =>
       change (ascii_dec a b) with (ascii_dec a a); destruct (ascii_dec a a); [|congruence] end);
    rewrite Hp; reflexivity.
Qed.

Lemma scan_members_more
    (fuel : nat) (s r r1 r2 r3 r4 key : string) (v : json)
    (acc : list (string * json)) :
  scanstring s = Some (key, r) ->
  skip_ws r = String ":" r1 ->
  scan_once fuel (skip_ws r1) = Some (v, r2) ->
  skip_ws r2 = String "," r3 ->
  skip_ws r3 = String "034" r4 ->
  scan_members (S fuel) s acc = scan_members fuel r4 ((key, v) :: acc).
Proof.
  intros Hk Hc Hv Hs Hq. cbn [scan_members].
  rewrite Hk, Hc, Hv, Hs, Hq. reflexivity.
Qed.

Lemma scan_members_last
    (fuel : nat) (s r r1 r2 r3 key : string) (v : json)
    (acc : list (string * json)) :
  scanstring s = Some (key, r) ->
  skip_ws r = String ":" r1 ->
  scan_once fuel (skip_ws r1) = Some (v, r2) ->
  skip_ws r2 = String "}" r3 ->
  scan_members (S fuel) s acc = Some (JObject (rev ((key, v) :: acc)), r3).
Proof.
  intros Hk Hc Hv Hs. cbn [scan_members].
  rewrite Hk, Hc, Hv, Hs. reflexivity.
Qed.

Lemma skip_ws_number (s : string) : starts_number s = true -> skip_ws s = s.
Proof.
  destruct s as [|c t]; [reflexivity|]. cbn [starts_number skip_ws].
  destruct c as [[] [] [] [] [] [] [] []]; intros H; try discriminate H;
    reflexivity.
Qed.

Lemma scan_once_ws_int (fuel : nat) (z : Z) (r : string) :
  scan_once (S fuel) (skip_ws (encode_int z +:+ String "," r))
  = Some (JInt z, String "," r).
Proof.
  rewrite skip_ws_number by apply starts_number_encode_int.
  apply scan_once_int.
Qed.

Lemma scan_once_ws_bool (fuel : nat) (b : bool) (rest : string) :
  scan_once (S fuel) (skip_ws ((if b then "true" else "false") +:+ rest))
  = Some (JBool b, rest).
Proof.
  rewrite <- (scan_once_bool fuel b rest). destruct b; reflexivity.
Qed.

Ltac eval_escapes :=
  repeat match goal with
         | |- context [escape_char ?c] =>
             let v := eval vm_compute in (escape_char c) in
             change (escape_char c) with v
         end.

Ltac member val_lemma :=
  erewrite scan_members_more;
    [ | reflexivity | reflexivity
      | cbn [skip_ws is_ws]; apply val_lemma
      | reflexivity | reflexivity ].

(** What [write_to_file] writes for a document is read back by [json.load]
    as the object it was written from. *)
Lemma json_loads_document (text fam : string) (size : Z) (b i u : bool) :
  let doc := JObject
    [ ("text", JString text); ("font", JString fam); ("size", JInt size);
      ("bold", JBool b); ("italic", JBool i); ("underline", JBool u) ] in
  json_loads (json_dump doc) = Some doc.
Proof.
  intros doc. unfold json_loads, json_dump, doc.
  cbn [dumps map String.concat]. unfold encode_string, newline_indent.
  cbn [spaces Nat.mul Nat.add escape]. eval_escapes. norm_app.
  cbn [String.length skip_ws is_ws].
  erewrite scan_once_object by reflexivity.
  member scan_once_string.
  member scan_once_string.
  member scan_once_ws_int.
  member scan_once_ws_bool.
  member scan_once_ws_bool.
  erewrite scan_members_last;
    [ | reflexivity | reflexivity
      | cbn [skip_ws is_ws]; apply scan_once_ws_bool | reflexivity ].
  reflexivity.
Qed.

(** The encoder writes no carriage return: it escapes the ones of a string,
    and its own line breaks are line feeds. *)
Lemma has_cr_append (a b : string) : has_cr (a +:+ b) = has_cr a || has_cr b.
Proof.
  induction a as [|c a IH]; [reflexivity|].
  rewrite append_cons. cbn [has_cr]. rewrite IH, orb_assoc. reflexivity.
Qed.

Lemma has_cr_escape_char (c : ascii) : has_cr (escape_char c) = false.
Proof. destruct c as [[] [] [] [] [] [] [] []]; reflexivity. Qed.

Lemma has_cr_escape (s : string) : has_cr (escape s) = false.
Proof.
  induction s as [|c s IH]; [reflexivity|].
  cbn [escape]. rewrite has_cr_append, has_cr_escape_char, IH. reflexivity.
Qed.

Lemma has_cr_uint (d : Decimal.uint) : has_cr (NilEmpty.string_of_uint d) = false.
Proof.
  induction d as [|d IH|d IH|d IH|d IH|d IH|d IH|d IH|d IH|d IH|d IH];
    cbn [NilEmpty.string_of_uint has_cr]; [reflexivity|..]; exact IH.
Qed.

Lemma has_cr_encode_int (z : Z) : has_cr (encode_int z) = false.
Proof.
  destruct z as [|p|p]; [reflexivity| |];
    unfold encode_int; cbn [Z.to_int NilZero.string_of_int];
    rewrite string_of_uint_pos; [|cbn [has_cr orb Ascii.eqb]];
    apply has_cr_uint.
Qed.

Lemma has_cr_document (text fam : string) (size : Z) (b i u : bool) :
  has_cr (json_dump (JObject
    [ ("text", JString text); ("font", JString fam); ("size", JInt size);
      ("bold", JBool b); ("italic", JBool i); ("underline", JBool u) ]))
  = false.
Proof.
  unfold json_dump. cbn [dumps map String.concat].
  unfold encode_string, newline_indent. cbn [spaces Nat.mul Nat.add escape].
  norm_app. cbn [has_cr]. 
  repeat (rewrite has_cr_append || rewrite has_cr_escape
          || rewrite has_cr_encode_int || cbn [has_cr orb]).
  destruct b, i, u; reflexivity.
Qed.

Lemma has_cr_document_json (e : QTextEdit) :
  has_cr (json_dump (document_json e)) = false.
Proof. apply has_cr_document. Qed.

Lemma json_load_document (e : QTextEdit) :
  json_load (json_dump (document_json e)) = Some (document_json e).
Proof.
  unfold json_load. rewrite universal_newlines_id by apply has_cr_document.
  apply json_loads_document.
Qed.

(** C1. What the code does on the structured round trip: [save_file_as] to
    an [.esh] path writes the text and the five font attributes of the
    current document, the decoder reads all six back from that file, and
    [load_file] opens a tab with the text and the default font; so the
    content is reproduced, and the formatting is reproduced only when it
    was the default one. *)
Theorem C1_structured_round_trip_drops_formatting
    (st : state) (e : QTextEdit) (path : string) :
  current_doc st = Some e ->
  endswith path ".esh" = true ->
  path ∉ readonly (world st) ->
  path ∉ unreadable (world st) ->
  write_fault (world st) = None ->
  fst (save_file_as path st) = Return tt
  /\ files (world (snd (save_file_as path st))) !! path
     = Some (json_dump (document_json e))
  /\ json_load (json_dump (document_json e)) = Some (document_json e)
  /\ reloads_as path (snd (save_file_as path st))
       (mkEdit (toPlainText e) default_font)
  /\ (currentFont e <> default_font ->
      current_doc (snd (load_file path (snd (save_file_as path st)))) <> Some e).
Proof.
  intros He Hext Hw Hr Hfault.
  rewrite (save_file_as_esh_run _ _ _ He Hext Hw Hfault). cbn [fst snd].
  assert (Hre : reloads_as path
            (with_log
               (with_tabs (with_file st path (json_dump (document_json e)))
                  (setTabText (tabs (self st)) (currentIndex (tabs (self st))) path))
               [StatusMessage ("File saved: " +:+ path) 3000; OpenWrite path])
            (mkEdit (toPlainText e) default_font)).
  { eapply reloads_esh with (kvs := _);
      [exact Hext|apply lookup_insert_eq|exact Hr|apply json_load_document|].
    reflexivity. }
  split; [reflexivity|]. split; [apply lookup_insert_eq|].
  split; [apply json_load_document|]. split; [exact Hre|].
  intros Hfont. destruct Hre as (_ & _ & Hdoc). rewrite Hdoc.
  intros [= Heq]. apply Hfont. rewrite <- Heq. reflexivity.
Qed.

Lemma C1_structured_round_trip_drops_formatting_witness :
  fst (save_file_as "note.esh" hello_state) = Return tt
  /\ files (world (snd (save_file_as "note.esh" hello_state))) !! "note.esh"
     = Some (json_dump (document_json hello_doc))
  /\ json_load (json_dump (document_json hello_doc)) = Some (document_json hello_doc)
  /\ reloads_as "note.esh" (snd (save_file_as "note.esh" hello_state))
       (mkEdit (toPlainText hello_doc) default_font)
  /\ (currentFont hello_doc <> default_font ->
      current_doc (snd (load_file "note.esh" (snd (save_file_as "note.esh" hello_state))))
      <> Some hello_doc).
Proof.
  apply (C1_structured_round_trip_drops_formatting hello_state hello_doc "note.esh").
  - reflexivity.
  - reflexivity.
  - cbn. apply not_elem_of_empty.
  - cbn. apply not_elem_of_empty.
  - reflexivity.
Defined.

(** The failing input of C1 run through the code: the file has the five
    formatting fields, the reloaded document has the default ones. *)
Example hello_round_trip :
  files (world (snd (save_file_as "note.esh" hello_state))) !! "note.esh"
  = Some (dq "{
    'text': 'Hello',
    'font': 'Mono',
    'size': 12,
    'bold': true,
    'italic': false,
    'underline': false
}")
  /\ current_doc (snd (load_file "note.esh" (snd (save_file_as "note.esh" hello_state))))
     = Some (mkEdit "Hello" (mkFont "Segoe UI" 10 false false false)).
Proof. split; vm_compute; reflexivity. Qed.

(** ** Font handlers: how they compose and what they leave alone *)

Lemma page_at_current (t : QTabWidget) (e : QTextEdit) :
  currentWidget t = Some e ->
  exists title, page_at t (currentIndex t) = Some (title, e).
Proof.
  unfold currentWidget. destruct (page_at t (currentIndex t)) as [[title e']|];
    [|discriminate]. intros [= ->]. eauto.
Qed.

Lemma setCurrentWidget_same (t : QTabWidget) (e : QTextEdit) :
  currentWidget t = Some e -> setCurrentWidget t e = t.
Proof.
  intros He. destruct (page_at_current _ _ He) as [title Hp].
  unfold setCurrentWidget. rewrite Hp.
  unfold page_at in Hp. destruct (0 <=? currentIndex t); [|discriminate].
  rewrite list_insert_id by exact Hp. destruct t; reflexivity.
Qed.

Lemma setCurrentWidget_twice (t : QTabWidget) (e w1 w2 : QTextEdit) :
  currentWidget t = Some e ->
  setCurrentWidget (setCurrentWidget t w1) w2 = setCurrentWidget t w2.
Proof.
  intros He. destruct (page_at_current _ _ He) as [title Hp].
  pose proof (page_at_Some _ _ _ Hp) as Hr.
  unfold setCurrentWidget at 2 3. rewrite Hp.
  unfold setCurrentWidget, page_at; cbn [pages currentIndex].
  destruct (Z.leb_spec 0 (currentIndex t)) as [Hi|Hi]; [|lia].
  rewrite list_lookup_insert_eq by (unfold count in Hr; lia).
  rewrite list_insert_insert_eq. reflexivity.
Qed.

Lemma with_font_run (st : state) (e : QTextEdit) (f : QFont) :
  current_doc st = Some e ->
  with_font st f = with_tabs st (setCurrentWidget (tabs (self st)) (setFont e f)).
Proof. intros He. unfold with_font. rewrite He. reflexivity. Qed.

Lemma current_doc_with_font (st : state) (e : QTextEdit) (f : QFont) :
  current_doc st = Some e ->
  current_doc (with_font st f) = Some (setFont e f).
Proof.
  intros He. rewrite (with_font_run _ _ _ He), current_doc_with_tabs.
  exact (currentWidget_setCurrentWidget _ _ _ He).
Qed.

Lemma with_font_twice (st : state) (e : QTextEdit) (f g : QFont) :
  current_doc st = Some e ->
  with_font (with_font st f) g = with_font st g.
Proof.
  intros He.
  rewrite (with_font_run (with_font st f) _ g (current_doc_with_font _ _ f He)).
  rewrite !(with_font_run _ _ _ He). unfold with_tabs; cbn [self tabs world
    autosave_enabled dark_mode].
  rewrite (setCurrentWidget_twice _ _ _ _ He). reflexivity.
Qed.

Lemma with_font_same (st : state) (e : QTextEdit) :
  current_doc st = Some e -> with_font st (currentFont e) = st.
Proof.
  intros He. rewrite (with_font_run _ _ _ He).
  replace (setFont e (currentFont e)) with e by (destruct e; reflexivity).
  rewrite (setCurrentWidget_same _ _ He). apply state_eta.
Qed.

Lemma setPointSize_twice (f : QFont) (a b : Z) :
  0 < b -> setPointSize (setPointSize f a) b = setPointSize f b.
Proof.
  intros Hb. unfold setPointSize.
  destruct (Z.ltb_spec 0 b); [|lia]. destruct (0 <? a); reflexivity.
Qed.

Lemma setPointSize_same (f : QFont) :
  0 < pointSize f -> setPointSize f (pointSize f) = f.
Proof.
  intros Hp. unfold setPointSize. destruct (Z.ltb_spec 0 (pointSize f)); [|lia].
  destruct f; reflexivity.
Qed.

Lemma pointSize_setPointSize (f : QFont) (n : Z) :
  0 < n -> pointSize (setPointSize f n) = n.
Proof. intros Hn. unfold setPointSize. destruct (Z.ltb_spec 0 n); [reflexivity|lia]. Qed.

Lemma effective_size_valid (f : QFont) :
  1 <= pointSize f -> effective_size f = pointSize f.
Proof. intros H. unfold effective_size. destruct (Z.leb_spec (pointSize f) 0); lia. Qed.

Lemma increase_font_size_with_font (st : state) (e : QTextEdit) :
  current_doc st = Some e ->
  increase_font_size st
  = (Return tt,
     with_font st (setPointSize (currentFont e) (effective_size (currentFont e) + 1))).
Proof.
  intros He. rewrite (increase_font_size_run _ _ He), (with_font_run _ _ _ He).
  reflexivity.
Qed.

Lemma decrease_font_size_with_font (st : state) (e : QTextEdit) :
  current_doc st = Some e ->
  decrease_font_size st
  = (Return tt,
     if 1 <? effective_size (currentFont e)
     then with_font st (setPointSize (currentFont e) (effective_size (currentFont e) - 1))
     else st).
Proof.
  intros He. rewrite (decrease_font_size_run _ _ He), (with_font_run _ _ _ He).
  reflexivity.
Qed.

Lemma toggle_font_with_font (g : QFont -> QFont) (st : state) :
  toggle_font g st
  = (Return tt,
     match current_doc st with
     | Some e => with_font st (g (currentFont e))
     | None => st
     end).
Proof.
  unfold toggle_font, current_editor, update_editor, bind, get_tabs, ret, put_tabs.
  cbn [self tabs]. fold (current_doc st).
  destruct (current_doc st) as [e|] eqn:He; [|reflexivity].
  rewrite (with_font_run _ _ _ He). reflexivity.
Qed.

Lemma iterate_run (n : nat) (m : M unit) (f : state -> state) (st : state) :
  (forall s, m s = (Return tt, f s)) ->
  iterate n m st = (Return tt, Nat.iter n f st).
Proof.
  intros Hm. revert st. induction n as [|n IH]; intros st; [reflexivity|].
  cbn [iterate]. unfold bind. rewrite Hm, IH.
  rewrite <- Nat.iter_succ_r. reflexivity.
Qed.

(** [k] increments from a valid size. *)
Lemma increase_font_size_iterate (k : nat) (st : state) (e : QTextEdit) :
  current_doc st = Some e ->
  1 <= pointSize (currentFont e) ->
  iterate k increase_font_size st
  = (Return tt,
     with_font st (setPointSize (currentFont e)
                     (pointSize (currentFont e) + Z.of_nat k))).
Proof.
  revert st e. induction k as [|k IH]; intros st e He Hs.
  - cbn [iterate Z.of_nat]. rewrite Z.add_0_r, setPointSize_same by lia.
    rewrite (with_font_same _ _ He). reflexivity.
  - cbn [iterate]. unfold bind.
    rewrite (increase_font_size_with_font _ _ He), effective_size_valid by exact Hs.
    set (f1 := setPointSize (currentFont e) (pointSize (currentFont e) + 1)).
    rewrite (IH (with_font st f1) (setFont e f1) (current_doc_with_font _ _ _ He)).
    + cbn [currentFont setFont]. unfold f1.
      rewrite pointSize_setPointSize, setPointSize_twice by lia.
      rewrite (with_font_twice _ _ _ _ He). do 3 f_equal. lia.
    + cbn [currentFont setFont]. unfold f1. rewrite pointSize_setPointSize; lia.
Qed.

(** [k] decrements from a valid size, as a state. *)
Lemma decrease_font_size_iterate_state (k : nat) (st : state) (e : QTextEdit) :
  current_doc st = Some e ->
  1 <= pointSize (currentFont e) ->
  iterate k decrease_font_size st
  = (Return tt,
     with_font st (setPointSize (currentFont e)
                     (Z.max 1 (pointSize (currentFont e) - Z.of_nat k)))).
Proof.
  revert st e. induction k as [|k IH]; intros st e He Hs.
  - cbn [iterate Z.of_nat]. rewrite Z.sub_0_r, Z.max_r by lia.
    rewrite setPointSize_same by lia. rewrite (with_font_same _ _ He). reflexivity.
  - cbn [iterate]. unfold bind.
    rewrite (decrease_font_size_with_font _ _ He), effective_size_valid by exact Hs.
    destruct (Z.ltb_spec 1 (pointSize (currentFont e))) as [Hgt|Hle].
    + set (f1 := setPointSize (currentFont e) (pointSize (currentFont e) - 1)).
      rewrite (IH (with_font st f1) (setFont e f1) (current_doc_with_font _ _ _ He)).
      * cbn [currentFont setFont]. unfold f1.
        rewrite pointSize_setPointSize, setPointSize_twice by lia.
        rewrite (with_font_twice _ _ _ _ He). do 3 f_equal. lia.
      * cbn [currentFont setFont]. unfold f1. rewrite pointSize_setPointSize; lia.
    + rewrite (IH st e He Hs). do 3 f_equal. lia.
Qed.

(** X1. From a point size of at least 1, [k] font-size increments followed
    by [k] decrements give back exactly the state they started from. *)
Theorem X1_increase_then_decrease (k : nat) (st : state) (e : QTextEdit) :
  current_doc st = Some e ->
  1 <= pointSize (currentFont e) ->
  (iterate k increase_font_size ;;; iterate k decrease_font_size) st
  = (Return tt, st).
Proof.
  intros He Hs. unfold bind.
  rewrite (increase_font_size_iterate k _ _ He Hs).
  set (f1 := setPointSize (currentFont e) (pointSize (currentFont e) + Z.of_nat k)).
  rewrite (decrease_font_size_iterate_state k _ _ (current_doc_with_font _ _ f1 He)).
  - cbn [currentFont setFont]. unfold f1.
    rewrite pointSize_setPointSize, setPointSize_twice by lia.
    rewrite (with_font_twice _ _ _ _ He).
    replace (Z.max 1 (pointSize (currentFont e) + Z.of_nat k - Z.of_nat k))
      with (pointSize (currentFont e)) by lia.
    rewrite setPointSize_same by lia. rewrite (with_font_same _ _ He). reflexivity.
  - cbn [currentFont setFont]. unfold f1. rewrite pointSize_setPointSize; lia.
Qed.

Lemma X1_increase_then_decrease_witness :
  (iterate 7 increase_font_size ;;; iterate 7 decrease_font_size) hello_state
  = (Return tt, hello_state).
Proof.
  apply (X1_increase_then_decrease 7 hello_state hello_doc).
  - reflexivity.
  - cbn. lia.
Defined.

(** X2. The other order is lossy at the floor: [k] decrements followed by
    [k] increments leave the point size at [max n (k + 1)] for a start at
    [n >= 1], so the start is restored exactly when [k < n]. *)
Theorem X2_decrease_then_increase (k : nat) (st : state) (e : QTextEdit) :
  current_doc st = Some e ->
  1 <= pointSize (currentFont e) ->
  (iterate k decrease_font_size ;;; iterate k increase_font_size) st
  = (Return tt,
     with_font st (setPointSize (currentFont e)
                     (Z.max (pointSize (currentFont e)) (Z.of_nat k + 1))))
  /\ (Z.of_nat k < pointSize (currentFont e) ->
      (iterate k decrease_font_size ;;; iterate k increase_font_size) st
      = (Return tt, st)).
Proof.
  intros He Hs.
  assert (Hrun : (iterate k decrease_font_size ;;; iterate k increase_font_size) st
    = (Return tt,
       with_font st (setPointSize (currentFont e)
                       (Z.max (pointSize (currentFont e)) (Z.of_nat k + 1))))).
  { unfold bind. rewrite (decrease_font_size_iterate_state k _ _ He Hs).
    set (f1 := setPointSize (currentFont e)
                 (Z.max 1 (pointSize (currentFont e) - Z.of_nat k))).
    rewrite (increase_font_size_iterate k _ _ (current_doc_with_font _ _ f1 He)).
    - cbn [currentFont setFont]. unfold f1.
      rewrite pointSize_setPointSize, setPointSize_twice by lia.
      rewrite (with_font_twice _ _ _ _ He). do 3 f_equal. lia.
    - cbn [currentFont setFont]. unfold f1. rewrite pointSize_setPointSize; lia. }
  split; [exact Hrun|]. intros Hk. rewrite Hrun.
  rewrite Z.max_l by lia. rewrite setPointSize_same by lia.
  rewrite (with_font_same _ _ He). reflexivity.
Qed.

Lemma X2_decrease_then_increase_witness :
  (iterate 20 decrease_font_size ;;; iterate 20 increase_font_size) hello_state
  = (Return tt,
     with_font hello_state (setPointSize (currentFont hello_doc)
                     (Z.max (pointSize (currentFont hello_doc)) (Z.of_nat 20 + 1))))
  /\ (Z.of_nat 20 < pointSize (currentFont hello_doc) ->
      (iterate 20 decrease_font_size ;;; iterate 20 increase_font_size) hello_state
      = (Return tt, hello_state)).
Proof.
  apply (X2_decrease_then_increase 20 hello_state hello_doc).
  - reflexivity.
  - cbn. lia.
Defined.

Lemma with_log_nil (st : state) : with_log st [] = st.
Proof. destruct st as [s [f u r d l]]; reflexivity. Qed.

Lemma toggle_font_action (g : QFont -> QFont) : font_action (toggle_font g) g [].
Proof.
  intros st. rewrite toggle_font_with_font.
  destruct (current_doc st); [reflexivity|]. rewrite with_log_nil. reflexivity.
Qed.

Lemma increase_font_size_action :
  font_action increase_font_size increase_map
    [Critical "Font Error"
       "Failed to increase font size: 'NoneType' object has no attribute 'currentFont'"].
Proof.
  intros st. destruct (current_doc st) as [e|] eqn:He.
  - apply (increase_font_size_with_font _ _ He).
  - unfold current_doc in He. run_m. rewrite He. reflexivity.
Qed.

Lemma decrease_font_size_action :
  font_action decrease_font_size decrease_map
    [Critical "Font Error"
       "Failed to decrease font size: 'NoneType' object has no attribute 'currentFont'"].
Proof.
  intros st. destruct (current_doc st) as [e|] eqn:He.
  - rewrite (decrease_font_size_with_font _ _ He). unfold decrease_map.
    destruct (1 <? _); [reflexivity|]. rewrite (with_font_same _ _ He). reflexivity.
  - unfold current_doc in He. run_m. rewrite He. reflexivity.
Qed.

Lemma font_handlers_actions (h : M unit) :
  In h font_handlers ->
  exists g err,
    font_action h g err
    /\ (forall f, family (g f) = family f)
    /\ (forall f, 1 <= pointSize f -> 1 <= pointSize (g f)).
Proof.
  intros [<-|[<-|[<-|[<-|[<-|[]]]]]].
  - exists bold_map, []. split; [apply toggle_font_action|]. split; intros; assumption || reflexivity.
  - exists italic_map, []. split; [apply toggle_font_action|]. split; intros; assumption || reflexivity.
  - exists underline_map, []. split; [apply toggle_font_action|]. split; intros; assumption || reflexivity.
  - eexists increase_map, _. split; [apply increase_font_size_action|]. split.
    + intros f. unfold increase_map, setPointSize. destruct (0 <? _); reflexivity.
    + intros f Hf. unfold increase_map. rewrite effective_size_valid by exact Hf.
      rewrite pointSize_setPointSize; lia.
  - eexists decrease_map, _. split; [apply decrease_font_size_action|]. split.
    + intros f. unfold decrease_map, setPointSize.
      destruct (1 <? _); [|reflexivity]. destruct (0 <? _); reflexivity.
    + intros f Hf. unfold decrease_map. rewrite effective_size_valid by exact Hf.
      destruct (Z.ltb_spec 1 (pointSize f)); [|exact Hf].
      rewrite pointSize_setPointSize; lia.
Qed.

Lemma font_action_twice (h : M unit) (g : QFont -> QFont) (err : list event) (st : state) (e : QTextEdit) :
  font_action h g err ->
  current_doc st = Some e ->
  (h ;;; h) st = (Return tt, with_font st (g (g (currentFont e)))).
Proof.
  intros Hh He. unfold bind. rewrite (Hh st), He.
  rewrite (Hh _), (current_doc_with_font _ _ _ He). cbn [currentFont setFont].
  rewrite (with_font_twice _ _ _ _ He). reflexivity.
Qed.

Lemma toggle_involutive (g : QFont -> QFont) (st : state) :
  (forall f, g (g f) = f) ->
  (toggle_font g ;;; toggle_font g) st = (Return tt, st).
Proof.
  intros Hg. destruct (current_doc st) as [e|] eqn:He.
  - rewrite (font_action_twice _ _ _ _ _ (toggle_font_action g) He), Hg.
    rewrite (with_font_same _ _ He). reflexivity.
  - unfold bind. rewrite toggle_font_with_font, He, toggle_font_with_font, He.
    reflexivity.
Qed.

(** X3. Each style toggle is its own inverse: pressing Bold twice, Italic
    twice or Underline twice gives back exactly the state before, with or
    without a current document. *)
Theorem X3_style_toggles_involutive (st : state) :
  (make_bold ;;; make_bold) st = (Return tt, st)
  /\ (make_italic ;;; make_italic) st = (Return tt, st)
  /\ (make_underline ;;; make_underline) st = (Return tt, st).
Proof.
  repeat split; apply toggle_involutive; intros [fam sz b i u]; cbn;
    rewrite negb_involutive; reflexivity.
Qed.

Lemma font_actions_commute
    (h1 h2 : M unit) (g1 g2 : QFont -> QFont) (err : list event) (st : state) :
  font_action h1 g1 [] ->
  font_action h2 g2 err ->
  (forall f, g1 (g2 f) = g2 (g1 f)) ->
  (h1 ;;; h2) st = (h2 ;;; h1) st.
Proof.
  intros H1 H2 Hc. unfold bind. rewrite (H1 st), (H2 st).
  destruct (current_doc st) as [e|] eqn:He.
  - rewrite (H1 _), (H2 _), !(current_doc_with_font _ _ _ He).
    cbn [currentFont setFont]. rewrite !(with_font_twice _ _ _ _ He), Hc.
    reflexivity.
  - rewrite with_log_nil, (H2 st), He, (H1 _).
    replace (current_doc (with_log st err)) with (current_doc st) by reflexivity.
    rewrite He, with_log_nil. reflexivity.
Qed.

(** X4. The style toggles commute: Bold, Italic and Underline can be
    pressed in either order, and the resulting state is the same.  Each of
    them reads the font with [currentFont] and writes it back with
    [setCurrentFont], changing one attribute and keeping the others. *)
Theorem X4_style_toggles_commute (h1 h2 : M unit) (st : state) :
  In h1 style_toggles ->
  In h2 style_toggles ->
  (h1 ;;; h2) st = (h2 ;;; h1) st.
Proof.
  intros H1 H2.
  assert (Ht : forall h, In h style_toggles ->
             exists g, font_action h g []
             /\ (g = bold_map \/ g = italic_map \/ g = underline_map)).
  { intros h [<-|[<-|[<-|[]]]]; eexists; (split; [apply toggle_font_action|]); auto. }
  destruct (Ht h1 H1) as (g1 & Hg1 & Hcase).
  destruct (Ht h2 H2) as (g2 & Hg2 & Hcase2).
  apply (font_actions_commute h1 h2 g1 g2 [] st Hg1 Hg2).
  intros [fam sz b i u].
  destruct Hcase as [->|[->| ->]]; destruct Hcase2 as [->|[->| ->]]; reflexivity.
Qed.

Lemma X4_style_toggles_commute_witness :
  (make_bold ;;; make_underline) hello_state
  = (make_underline ;;; make_bold) hello_state.
Proof.
  apply (X4_style_toggles_commute make_bold make_underline hello_state).
  - left. reflexivity.
  - right. right. left. reflexivity.
Defined.

Lemma setCurrentWidget_frame (t : QTabWidget) (w : QTextEdit) :
  currentIndex (setCurrentWidget t w) = currentIndex t
  /\ count (setCurrentWidget t w) = count t
  /\ (forall i, tabText (setCurrentWidget t w) i = tabText t i)
  /\ (forall i, i <> currentIndex t ->
                page_at (setCurrentWidget t w) i = page_at t i).
Proof.
  unfold setCurrentWidget.
  destruct (page_at t (currentIndex t)) as [[title e]|] eqn:Hp;
    [|repeat split; reflexivity].
  pose proof (page_at_Some _ _ _ Hp) as Hr. unfold count in Hr.
  split; [reflexivity|]. split; [unfold count; cbn; rewrite length_insert; reflexivity|].
  split.
  - intros i. unfold tabText, page_at in *; cbn [pages].
    destruct (Z.leb_spec 0 i) as [Hi|Hi]; [|reflexivity].
    destruct (Z.leb_spec 0 (currentIndex t)); [|lia].
    destruct (decide (Z.to_nat i = Z.to_nat (currentIndex t))) as [Heq|Hne].
    + rewrite Heq, list_lookup_insert_eq by lia. rewrite Hp. reflexivity.
    + rewrite list_lookup_insert_ne by congruence. reflexivity.
  - intros i Hne. unfold page_at; cbn [pages].
    destruct (Z.leb_spec 0 i) as [Hi|Hi]; [|reflexivity].
    rewrite list_lookup_insert_ne by lia. reflexivity.
Qed.

Lemma select_font_run (font : QFont) (ok : bool) (st : state) (e : QTextEdit) :
  current_doc st = Some e ->
  select_font font ok st
  = (Return tt, with_font st (if ok then font else currentFont e)).
Proof.
  intros He. unfold select_font, current_editor, update_editor, bind, get_tabs,
    ret, put_tabs. cbn [self tabs]. fold (current_doc st). rewrite He.
  destruct ok.
  - rewrite (with_font_run _ _ _ He). reflexivity.
  - rewrite (with_font_same _ _ He). reflexivity.
Qed.

(** X5. With a current document, a font handler (Bold, Italic, Underline,
    Increase, Decrease, or the font dialog) returns normally and changes
    nothing but the font of the current document: its text, the other
    pages, every tab title, the current index, the autosave flag, the files
    and the event log are as before. *)
Theorem X5_font_handlers_frame
    (h : M unit) (font : QFont) (ok : bool) (st : state) (e : QTextEdit) :
  In h (font_handlers ++ [select_font font ok]) ->
  current_doc st = Some e ->
  let st' := snd (h st) in
  fst (h st) = Return tt
  /\ world st' = world st
  /\ autosave_enabled (self st') = autosave_enabled (self st)
  /\ (exists f', current_doc st' = Some (mkEdit (toPlainText e) f'))
  /\ currentIndex (tabs (self st')) = currentIndex (tabs (self st))
  /\ count (tabs (self st')) = count (tabs (self st))
  /\ (forall i, tabText (tabs (self st')) i = tabText (tabs (self st)) i)
  /\ (forall i, i <> currentIndex (tabs (self st)) ->
                page_at (tabs (self st')) i = page_at (tabs (self st)) i).
Proof.
  intros Hin He.
  assert (Hrun : exists f', h st = (Return tt, with_font st f')).
  { apply in_app_or in Hin. destruct Hin as [Hin|[<-|[]]].
    - destruct (font_handlers_actions h Hin) as (g & err & Hg & _).
      exists (g (currentFont e)). rewrite (Hg st), He. reflexivity.
    - eexists. apply (select_font_run _ _ _ _ He). }
  destruct Hrun as [f' Hrun]. rewrite Hrun. cbn [fst snd].
  rewrite (with_font_run _ _ _ He).
  destruct (setCurrentWidget_frame (tabs (self st)) (setFont e f'))
    as (Hc & Hn & Ht & Hp).
  split; [reflexivity|]. split; [reflexivity|]. split; [reflexivity|].
  split; [exists f'; rewrite current_doc_with_tabs;
          apply (currentWidget_setCurrentWidget _ _ _ He)|].
  cbn [with_tabs self tabs]. auto.
Qed.

Lemma X5_font_handlers_frame_witness :
  let st' := snd (increase_font_size hello_state) in
  fst (increase_font_size hello_state) = Return tt
  /\ world st' = world hello_state
  /\ autosave_enabled (self st') = autosave_enabled (self hello_state)
  /\ (exists f', current_doc st' = Some (mkEdit (toPlainText hello_doc) f'))
  /\ currentIndex (tabs (self st')) = currentIndex (tabs (self hello_state))
  /\ count (tabs (self st')) = count (tabs (self hello_state))
  /\ (forall i, tabText (tabs (self st')) i = tabText (tabs (self hello_state)) i)
  /\ (forall i, i <> currentIndex (tabs (self hello_state)) ->
                page_at (tabs (self st')) i = page_at (tabs (self hello_state)) i).
Proof.
  apply (X5_font_handlers_frame increase_font_size default_font false
           hello_state hello_doc).
  - right. right. right. left. reflexivity.
  - reflexivity.
Defined.

(** ** Which files a handler can change *)

Lemma writes_only_ret (paths : list string) {A} (a : A) : writes_only paths (ret a).
Proof. intros st; repeat split; reflexivity. Qed.

Lemma writes_only_raise (paths : list string) {A} (e : exn) :
  writes_only paths (@raise A e).
Proof. intros st; repeat split; reflexivity. Qed.

Lemma writes_only_bind (paths : list string) {A B} (m : M A) (k : A -> M B) :
  writes_only paths m -> (forall a, writes_only paths (k a)) ->
  writes_only paths (bind m k).
Proof.
  intros Hm Hk st. unfold bind. specialize (Hm st).
  destruct (m st) as [[a|e] st1]; cbn [snd] in *; [|exact Hm].
  destruct Hm as (Hf & Hu & Hr & Hd).
  destruct (Hk a st1) as (Hf' & Hu' & Hr' & Hd').
  repeat split; try congruence.
  intros p Hp. rewrite Hf', Hf by exact Hp. reflexivity.
Qed.

Lemma writes_only_try (paths : list string) {A} (m : M A) (h : exn -> M A) :
  writes_only paths m -> (forall e, writes_only paths (h e)) ->
  writes_only paths (try_except m h).
Proof.
  intros Hm Hh st. unfold try_except. specialize (Hm st).
  destruct (m st) as [[a|e] st1]; cbn [snd] in *; [exact Hm|].
  destruct Hm as (Hf & Hu & Hr & Hd).
  destruct (Hh e st1) as (Hf' & Hu' & Hr' & Hd').
  repeat split; try congruence.
  intros p Hp. rewrite Hf', Hf by exact Hp. reflexivity.
Qed.

Lemma writes_only_if (paths : list string) {A} (b : bool) (m1 m2 : M A) :
  writes_only paths m1 -> writes_only paths m2 ->
  writes_only paths (if b then m1 else m2).
Proof. destruct b; auto. Qed.

Lemma writes_only_get_tabs (paths : list string) : writes_only paths get_tabs.
Proof. intros st; repeat split; reflexivity. Qed.

Lemma writes_only_put_tabs (paths : list string) (t : QTabWidget) :
  writes_only paths (put_tabs t).
Proof. intros st; repeat split; reflexivity. Qed.

Lemma writes_only_get_world (paths : list string) : writes_only paths get_world.
Proof. intros st; repeat split; reflexivity. Qed.

Lemma writes_only_emit (paths : list string) (ev : event) :
  writes_only paths (emit ev).
Proof. intros st; repeat split; reflexivity. Qed.

Lemma writes_only_set_file (paths : list string) (path data : string) :
  path ∈ paths -> writes_only paths (set_file path data).
Proof.
  intros Hin st. repeat split; try reflexivity.
  intros p Hp. cbn. apply lookup_insert_ne. intros ->. contradiction.
Qed.

Create HintDb files.

#[local] Hint Resolve writes_only_ret writes_only_raise writes_only_get_tabs
  writes_only_put_tabs writes_only_get_world writes_only_emit : files.
#[local] Hint Extern 2 (writes_only _ (bind _ _)) =>
  apply writes_only_bind; [|intros ?] : files.
#[local] Hint Extern 2 (writes_only _ (try_except _ _)) =>
  apply writes_only_try; [|intros ?] : files.
#[local] Hint Extern 2 (writes_only _ (if _ then _ else _)) =>
  apply writes_only_if : files.
#[local] Hint Extern 3 (writes_only _ (match ?x with _ => _ end)) =>
  destruct x : files.
#[local] Hint Extern 1 (writes_only _ (let '(_, _) := ?x in _)) =>
  destruct x : files.

Lemma writes_only_open_r (paths : list string) (path : string) :
  writes_only paths (open_r path).
Proof. unfold open_r. auto 8 with files. Qed.

Lemma writes_only_f_read (paths : list string) (path : string) :
  writes_only paths (f_read path).
Proof. unfold f_read. auto with files. Qed.

Lemma writes_only_open_w (paths : list string) (path : string) :
  path ∈ paths -> writes_only paths (open_w path).
Proof. intros Hin. unfold open_w. auto 8 using writes_only_set_file with files. Qed.

Lemma writes_only_f_write (paths : list string) (path data : string) :
  path ∈ paths -> writes_only paths (f_write path data).
Proof. intros Hin. unfold f_write. auto 8 using writes_only_set_file with files. Qed.

#[local] Hint Resolve writes_only_open_r writes_only_f_read : files.

Lemma writes_only_add_new_tab (paths : list string) (title : string) (content : json) :
  writes_only paths (add_new_tab title content).
Proof.
  unfold add_new_tab, setPlainText, showMessage. auto 10 with files.
Qed.

Lemma writes_only_load_file (path : string) : writes_only [] (load_file path).
Proof.
  unfold load_file, load_file_body, json_load_file, py_contains, py_getitem,
    showMessage, critical.
  auto 14 using writes_only_add_new_tab with files.
Qed.

Lemma writes_only_write_to_file (path : string) (is_esh : bool) :
  writes_only [path] (write_to_file path is_esh).
Proof.
  assert (Hin : path ∈ [path]) by (apply list_elem_of_here).
  unfold write_to_file, current_editor, deref.
  auto 14 using writes_only_open_w, writes_only_f_write with files.
Qed.

Lemma writes_only_save_file_as (path : string) :
  writes_only [path] (save_file_as path).
Proof.
  assert (Hin : path ∈ [path]) by (apply list_elem_of_here).
  unfold save_file_as, save_file_as_body, save_file_as_write, current_editor,
    deref, showMessage, critical.
  auto 14 using writes_only_open_w, writes_only_f_write,
    writes_only_write_to_file with files.
Qed.

Lemma writes_only_autosave_write (title : string) (editor : option QTextEdit) :
  writes_only [title] (autosave_write title editor).
Proof.
  assert (Hin : title ∈ [title]) by (apply list_elem_of_here).
  unfold autosave_write, deref.
  auto 14 using writes_only_open_w, writes_only_f_write,
    writes_only_write_to_file with files.
Qed.

Lemma autosave_unfold (st : state) :
  autosave st
  = if autosave_enabled (self st) then
      if negb (String.eqb (current_title st) "Untitled") then
        try_except
          (autosave_write (current_title st) (current_doc st) ;;;
           showMessage ("Autosaved: " +:+ current_title st) 2000)
          (fun e => showMessage ("Autosave failed: " +:+ exn_str e) 2000) st
      else (Return tt, st)
    else (Return tt, st).
Proof.
  unfold autosave. destruct (autosave_enabled (self st)); [|reflexivity].
  unfold bind at 1, current_editor, bind at 1, get_tabs, ret.
  unfold bind at 1. cbn [self tabs]. unfold current_title, current_doc.
  destruct (negb _); reflexivity.
Qed.

Lemma save_file_unfold (file_name : string) (st : state) :
  save_file file_name st
  = if String.eqb (current_title st) "Untitled" then save_file_as file_name st
    else write_to_file (current_title st) true st.
Proof.
  unfold save_file, bind, get_tabs. cbn [self tabs]. fold (current_title st).
  destruct (String.eqb _ _); reflexivity.
Qed.

(** X6. Which files a handler can change: [load_file] leaves the whole
    file system as it was; [save_file_as] changes at most the file it was
    given; an autosave tick changes at most the file named by the current
    tab title; [save_file] changes at most that file or, for an untitled
    document, the file the dialog gave. *)
Theorem X6_handlers_write_only_their_file (st : state) (file_name p : string) :
  files (world (snd (load_file file_name st))) = files (world st)
  /\ (p <> file_name ->
      files (world (snd (save_file_as file_name st))) !! p = files (world st) !! p)
  /\ (p <> current_title st ->
      files (world (snd (autosave st))) !! p = files (world st) !! p)
  /\ (p <> current_title st -> p <> file_name ->
      files (world (snd (save_file file_name st))) !! p = files (world st) !! p).
Proof.
  split; [|split; [|split]].
  - apply map_eq. intros q.
    apply (writes_only_load_file file_name st). apply not_elem_of_nil.
  - intros Hp. apply (writes_only_save_file_as file_name st).
    intros Hin%list_elem_of_singleton. contradiction.
  - intros Hp. rewrite autosave_unfold.
    destruct (autosave_enabled (self st)); [|reflexivity].
    destruct (negb _); [|reflexivity].
    assert (Hw : writes_only [current_title st]
      (try_except
         (autosave_write (current_title st) (current_doc st) ;;;
          showMessage ("Autosaved: " +:+ current_title st) 2000)
         (fun e => showMessage ("Autosave failed: " +:+ exn_str e) 2000))).
    { apply writes_only_try.
      - apply writes_only_bind; [apply writes_only_autosave_write|].
        intros _. apply writes_only_emit.
      - intros e. apply writes_only_emit. }
    apply (Hw st). intros Hin%list_elem_of_singleton. contradiction.
  - intros Hp Hq. rewrite save_file_unfold.
    destruct (String.eqb _ _).
    + apply (writes_only_save_file_as file_name st).
      intros Hin%list_elem_of_singleton. contradiction.
    + apply (writes_only_write_to_file (current_title st) true st).
      intros Hin%list_elem_of_singleton. contradiction.
Qed.

(** ** Saving and autosaving: encodings, locations, failures *)

Lemma length_append (a b : string) :
  String.length (a +:+ b) = (String.length a + String.length b)%nat.
Proof.
  induction a as [|c a IH]; [reflexivity|].
  rewrite append_cons. cbn [String.length]. rewrite IH. reflexivity.
Qed.

Lemma length_escape (s : string) :
  (String.length s <= String.length (escape s))%nat.
Proof.
  induction s as [|c s IH]; [reflexivity|].
  cbn [escape]. rewrite length_append. cbn [String.length].
  assert (1 <= String.length (escape_char c))%nat; [|lia].
  destruct c as [[] [] [] [] [] [] [] []]; vm_compute; lia.
Qed.

(** The structured text of a document is longer than the document. *)
Lemma json_dump_longer (e : QTextEdit) :
  (String.length (toPlainText e) < String.length (json_dump (document_json e)))%nat.
Proof.
  unfold json_dump, document_json. cbn [dumps map String.concat].
  unfold encode_string at 2. rewrite !length_append. cbn [String.length].
  rewrite !length_append. pose proof (length_escape (toPlainText e)). lia.
Qed.

Lemma save_file_titled_run (file_name : string) (st : state) (e : QTextEdit) :
  current_doc st = Some e ->
  current_title st <> "Untitled" ->
  current_title st ∉ readonly (world st) ->
  write_fault (world st) = None ->
  save_file file_name st
  = (Return tt,
     with_log (with_file st (current_title st) (json_dump (document_json e)))
       [OpenWrite (current_title st)]).
Proof.
  intros He Ht Hw Hfault. rewrite save_file_unfold.
  destruct (String.eqb_spec (current_title st) "Untitled"); [contradiction|].
  apply (write_to_file_esh_run _ _ _ He Hw Hfault).
Qed.

(** X7. [save_file] on a document that has a location always writes the
    structured encoding, whatever the suffix of the location.  When the
    location does not end in [.esh], loading the saved file shows the JSON
    text as the content, which is never the text that was saved. *)
Theorem X7_save_file_always_structured
    (file_name : string) (st : state) (e : QTextEdit) :
  current_doc st = Some e ->
  current_title st <> "Untitled" ->
  current_title st ∉ readonly (world st) ->
  current_title st ∉ unreadable (world st) ->
  write_fault (world st) = None ->
  let path := current_title st in
  let st1 := snd (save_file file_name st) in
  fst (save_file file_name st) = Return tt
  /\ files (world st1) !! path = Some (json_dump (document_json e))
  /\ (path <> EmptyString -> endswith path ".esh" = false ->
      reloads_as path st1 (mkEdit (json_dump (document_json e)) default_font)
      /\ json_dump (document_json e) <> toPlainText e).
Proof.
  intros He Ht Hw Hr Hfault path st1. subst path st1.
  rewrite (save_file_titled_run _ _ _ He Ht Hw Hfault). cbn [fst snd].
  split; [reflexivity|]. split; [apply lookup_insert_eq|].
  intros Hne Hext. split.
  - apply reloads_plain_lf;
      [exact Hne|exact Hext|apply lookup_insert_eq|exact Hr
      |apply has_cr_document_json].
  - intros Heq. pose proof (json_dump_longer e) as Hlen. rewrite Heq in Hlen. lia.
Qed.

(** The document "Hello" of a tab titled ["note.txt"]. *)
Lemma X7_save_file_always_structured_witness :
  let st := mkState (mkWin (mkTabs [("note.txt", hello_doc)] 0) true false) the_world0 in
  let path := current_title st in
  let st1 := snd (save_file "other.txt" st) in
  fst (save_file "other.txt" st) = Return tt
  /\ files (world st1) !! path = Some (json_dump (document_json hello_doc))
  /\ (path <> EmptyString -> endswith path ".esh" = false ->
      reloads_as path st1 (mkEdit (json_dump (document_json hello_doc)) default_font)
      /\ json_dump (document_json hello_doc) <> toPlainText hello_doc).
Proof.
  intros st.
  apply (X7_save_file_always_structured "other.txt" st hello_doc).
  - reflexivity.
  - discriminate.
  - cbn. apply not_elem_of_empty.
  - cbn. apply not_elem_of_empty.
  - reflexivity.
Defined.

Lemma autosave_write_run (st : state) (e : QTextEdit) (title : string) :
  current_doc st = Some e ->
  title ∉ readonly (world st) ->
  write_fault (world st) = None ->
  autosave_write title (Some e) st
  = (Return tt, with_log (with_file st title (encoding_by_suffix title e)) [OpenWrite title]).
Proof.
  intros He Hw Hfault. unfold autosave_write, encoding_by_suffix.
  destruct (endswith title ".esh").
  - apply (write_to_file_esh_run _ _ _ He Hw Hfault).
  - run_m. rewrite decide_False by exact Hw. cbn. rewrite Hfault. cbn.
    rewrite lookup_insert_eq. cbn. rewrite insert_insert_eq.
    unfold with_log, with_file. cbn. rewrite Hfault. reflexivity.
Qed.

Lemma autosave_run (st : state) (e : QTextEdit) :
  autosave_enabled (self st) = true ->
  current_doc st = Some e ->
  current_title st <> "Untitled" ->
  current_title st ∉ readonly (world st) ->
  write_fault (world st) = None ->
  autosave st
  = (Return tt,
     with_log (with_file st (current_title st)
                 (encoding_by_suffix (current_title st) e))
       [StatusMessage ("Autosaved: " +:+ current_title st) 2000;
        OpenWrite (current_title st)]).
Proof.
  intros Hon He Ht Hw Hfault. rewrite autosave_unfold, Hon.
  destruct (String.eqb_spec (current_title st) "Untitled"); [contradiction|].
  cbn [negb]. unfold try_except, bind. rewrite He.
  rewrite (autosave_write_run _ _ _ He Hw Hfault). reflexivity.
Qed.

(** X8. A successful autosave tick (autosave on, a current document with a
    location, the file writable, no fault of the device) writes the structured
    text when the location ends in [.esh] and the plain text otherwise,
    shows "Autosaved: <location>" for 2 seconds and leaves the window as it
    was; a second tick right after it leaves every file as the first one
    left it. *)
Theorem X8_autosave_writes_by_suffix (st : state) (e : QTextEdit) :
  autosave_enabled (self st) = true ->
  current_doc st = Some e ->
  current_title st <> "Untitled" ->
  current_title st ∉ readonly (world st) ->
  write_fault (world st) = None ->
  let st1 := snd (autosave st) in
  autosave st
  = (Return tt,
     with_log (with_file st (current_title st)
                 (encoding_by_suffix (current_title st) e))
       [StatusMessage ("Autosaved: " +:+ current_title st) 2000;
        OpenWrite (current_title st)])
  /\ self st1 = self st
  /\ files (world (snd (autosave st1))) = files (world st1).
Proof.
  intros Hon He Ht Hw Hfault st1. subst st1.
  pose proof (autosave_run st e Hon He Ht Hw Hfault) as Hrun.
  rewrite Hrun. cbn [snd]. split; [reflexivity|]. split; [reflexivity|].
  rewrite (autosave_run _ e); try assumption.
  cbn [snd with_log with_file world files self].
  unfold current_title; cbn [self with_log with_file]. fold (current_title st).
  apply insert_insert_eq.
Qed.

Lemma X8_autosave_writes_by_suffix_witness :
  let st := mkState (mkWin (mkTabs [("note.txt", hello_doc)] 0) true false) the_world0 in
  let st1 := snd (autosave st) in
  autosave st
  = (Return tt,
     with_log (with_file st (current_title st)
                 (encoding_by_suffix (current_title st) hello_doc))
       [StatusMessage ("Autosaved: " +:+ current_title st) 2000;
        OpenWrite (current_title st)])
  /\ self st1 = self st
  /\ files (world (snd (autosave st1))) = files (world st1).
Proof.
  intros st.
  apply (X8_autosave_writes_by_suffix st hello_doc).
  - reflexivity.
  - reflexivity.
  - discriminate.
  - cbn. apply not_elem_of_empty.
  - reflexivity.
Defined.

Lemma esh_not_untitled (path : string) :
  endswith path ".esh" = true -> path <> "Untitled".
Proof. intros He ->. discriminate. Qed.

Lemma current_title_open_tab (st : state) (path text : string) (evs : list event) :
  current_title (with_log (with_tabs st (open_tab (tabs (self st)) path text)) evs)
  = path.
Proof.
  unfold current_title. cbn [with_log with_tabs self tabs].
  rewrite currentIndex_open_tab. apply tabText_open_tab.
Qed.

(** X9. Opening a structured file and letting one autosave tick pass (or
    pressing Save) rewrites the file with the default formatting: whatever
    [font], [size], [bold], [italic] and [underline] the file held, it now
    holds Segoe UI, 10, false, false, false next to its text. *)
Theorem X9_open_then_save_resets_stored_formatting
    (st : state) (path contents text file_name : string)
    (kvs : list (string * json)) :
  endswith path ".esh" = true ->
  files (world st) !! path = Some contents ->
  path ∉ unreadable (world st) ->
  path ∉ readonly (world st) ->
  write_fault (world st) = None ->
  autosave_enabled (self st) = true ->
  json_load contents = Some (JObject kvs) ->
  dict_get "text" kvs = Some (JString text) ->
  let st1 := snd (load_file path st) in
  let reset := JObject
    [ ("text", JString text); ("font", JString "Segoe UI"); ("size", JInt 10);
      ("bold", JBool false); ("italic", JBool false); ("underline", JBool false) ] in
  files (world (snd (autosave st1))) !! path = Some (json_dump reset)
  /\ files (world (snd (save_file file_name st1))) !! path = Some (json_dump reset)
  /\ json_load (json_dump reset) = Some reset.
Proof.
  intros Hext Hfile Hr Hw Hfault Hon Hjson Hget st1 reset.
  assert (Hload : load_file path st
    = (Return tt,
       with_log (with_tabs st (open_tab (tabs (self st)) path text))
         [StatusMessage ("File loaded: " +:+ path) 3000; OpenRead path])).
  { apply load_file_ok; [exact (esh_nonempty _ Hext)|].
    eapply load_file_body_text; eassumption. }
  subst st1. rewrite Hload. cbn [snd].
  set (st1 := with_log _ _).
  assert (Ht : current_title st1 = path) by apply current_title_open_tab.
  assert (Hd : current_doc st1 = Some (mkEdit text default_font)).
  { unfold current_doc, st1. cbn [with_log with_tabs self tabs].
    apply currentWidget_open_tab. }
  pose proof (esh_not_untitled _ Hext) as Hnu.
  split; [|split].
  - rewrite (autosave_run st1 _ Hon Hd); rewrite ?Ht; try assumption.
    cbn [snd with_log with_file world files].
    rewrite lookup_insert_eq. unfold encoding_by_suffix. rewrite Hext.
    reflexivity.
  - rewrite (save_file_titled_run file_name st1 _ Hd); rewrite ?Ht; try assumption.
    cbn [snd with_log with_file world files].
    rewrite lookup_insert_eq. reflexivity.
  - apply (json_load_document (mkEdit text default_font)).
Qed.

(** A structured file holding "Hello" in Mono, 12 points, bold. *)
Lemma X9_open_then_save_resets_stored_formatting_witness :
  let contents := json_dump (document_json hello_doc) in
  let st := mkState init_window (one_file "note.esh" contents) in
  let st1 := snd (load_file "note.esh" st) in
  let reset := JObject
    [ ("text", JString "Hello"); ("font", JString "Segoe UI"); ("size", JInt 10);
      ("bold", JBool false); ("italic", JBool false); ("underline", JBool false) ] in
  files (world (snd (autosave st1))) !! "note.esh" = Some (json_dump reset)
  /\ files (world (snd (save_file "x" st1))) !! "note.esh" = Some (json_dump reset)
  /\ json_load (json_dump reset) = Some reset.
Proof.
  intros contents st.
  apply (X9_open_then_save_resets_stored_formatting st "note.esh" contents
           "Hello" "x" [ ("text", JString "Hello"); ("font", JString "Mono");
                         ("size", JInt 12); ("bold", JBool true);
                         ("italic", JBool false); ("underline", JBool false) ]).
  - reflexivity.
  - reflexivity.
  - cbn. apply not_elem_of_empty.
  - cbn. apply not_elem_of_empty.
  - reflexivity.
  - reflexivity.
  - vm_compute. reflexivity.
  - reflexivity.
Defined.

Lemma setTabText_current (t : QTabWidget) (e : QTextEdit) (title : string) :
  currentWidget t = Some e ->
  let t' := setTabText t (currentIndex t) title in
  tabText t' (currentIndex t') = title
  /\ currentWidget t' = Some e
  /\ currentIndex t' = currentIndex t
  /\ count t' = count t
  /\ (forall i, i <> currentIndex t -> page_at t' i = page_at t i).
Proof.
  intros He. destruct (page_at_current _ _ He) as [old Hp].
  pose proof (page_at_Some _ _ _ Hp) as Hr. unfold count in Hr.
  cbn zeta. unfold setTabText. rewrite Hp.
  unfold tabText, currentWidget, page_at, count; cbn [pages currentIndex].
  destruct (Z.leb_spec 0 (currentIndex t)) as [Hi|Hi]; [|lia].
  rewrite list_lookup_insert_eq by lia.
  repeat split.
  - rewrite length_insert. reflexivity.
  - intros i Hne. destruct (Z.leb_spec 0 i); [|reflexivity].
    rewrite list_lookup_insert_ne by lia. reflexivity.
Qed.

Lemma save_file_as_run (st : state) (e : QTextEdit) (path : string) :
  current_doc st = Some e ->
  path <> EmptyString ->
  path ∉ readonly (world st) ->
  write_fault (world st) = None ->
  save_file_as path st
  = (Return tt,
     with_log
       (with_tabs (with_file st path (encoding_by_suffix path e))
          (setTabText (tabs (self st)) (currentIndex (tabs (self st))) path))
       [StatusMessage ("File saved: " +:+ path) 3000; OpenWrite path]).
Proof.
  intros He Hne Hw Hfault. unfold encoding_by_suffix.
  destruct (endswith path ".esh") eqn:Hext.
  - apply (save_file_as_esh_run _ _ _ He Hext Hw Hfault).
  - apply (save_file_as_plain_run _ _ _ He Hne Hext Hw Hfault).
Qed.

(** X10. A successful [save_file_as] writes the document (structured under
    [.esh], plain otherwise), records the file name as the title of the
    current tab and changes no document and no other tab.  From then on
    [save_file] writes to that location without asking, whatever the
    dialog would answer, unless the file is literally named "Untitled":
    then the document still counts as unsaved, [save_file] asks again and
    autosave skips it. *)
Theorem X10_save_as_assigns_location (st : state) (e : QTextEdit) (path : string) :
  current_doc st = Some e ->
  path <> EmptyString ->
  path ∉ readonly (world st) ->
  write_fault (world st) = None ->
  let st1 := snd (save_file_as path st) in
  fst (save_file_as path st) = Return tt
  /\ files (world st1) !! path = Some (encoding_by_suffix path e)
  /\ current_title st1 = path
  /\ current_doc st1 = Some e
  /\ count (tabs (self st1)) = count (tabs (self st))
  /\ (forall i, i <> currentIndex (tabs (self st)) ->
                page_at (tabs (self st1)) i = page_at (tabs (self st)) i)
  /\ (forall answer,
         save_file answer st1
         = if String.eqb path "Untitled" then save_file_as answer st1
           else write_to_file path true st1)
  /\ (path = "Untitled" -> autosave st1 = (Return tt, st1)).
Proof.
  intros He Hne Hw Hfault st1. subst st1.
  rewrite (save_file_as_run _ _ _ He Hne Hw Hfault). cbn [fst snd].
  set (st1 := with_log _ _).
  destruct (setTabText_current (tabs (self st)) e path He)
    as (Ht & Hd & Hc & Hn & Hp).
  assert (Htitle : current_title st1 = path) by exact Ht.
  split; [reflexivity|]. split; [apply lookup_insert_eq|].
  split; [exact Htitle|]. split; [exact Hd|]. split; [exact Hn|].
  split; [exact Hp|]. split.
  - intros answer. rewrite save_file_unfold, Htitle.
    destruct (String.eqb path "Untitled"); reflexivity.
  - intros ->. rewrite autosave_unfold, Htitle. cbn [String.eqb negb].
    destruct (autosave_enabled (self st1)); reflexivity.
Qed.

Lemma X10_save_as_assigns_location_witness :
  let st1 := snd (save_file_as "Untitled" hello_state) in
  fst (save_file_as "Untitled" hello_state) = Return tt
  /\ files (world st1) !! "Untitled" = Some (encoding_by_suffix "Untitled" hello_doc)
  /\ current_title st1 = "Untitled"
  /\ current_doc st1 = Some hello_doc
  /\ count (tabs (self st1)) = count (tabs (self hello_state))
  /\ (forall i, i <> currentIndex (tabs (self hello_state)) ->
                page_at (tabs (self st1)) i = page_at (tabs (self hello_state)) i)
  /\ (forall answer,
         save_file answer st1
         = if String.eqb "Untitled" "Untitled" then save_file_as answer st1
           else write_to_file "Untitled" true st1)
  /\ ("Untitled" = "Untitled" -> autosave st1 = (Return tt, st1)).
Proof.
  apply (X10_save_as_assigns_location hello_state hello_doc "Untitled").
  - reflexivity.
  - discriminate.
  - cbn. apply not_elem_of_empty.
  - reflexivity.
Defined.

Lemma f_write_fault (st : state) (path data : string) (k : nat) :
  write_fault (world st) = Some k ->
  data <> EmptyString ->
  f_write path data st
  = (Raise no_space,
     with_file st path
       (default EmptyString (files (world st) !! path)
        +:+ String.substring 0 k data)).
Proof.
  intros Hfault Hdata. unfold f_write, bind, get_world, raise, set_file, put_world.
  cbn. rewrite Hfault. destruct (String.eqb_spec data EmptyString); [contradiction|].
  unfold with_file. rewrite Hfault. reflexivity.
Qed.

Lemma open_w_run (st : state) (path : string) :
  path ∉ readonly (world st) ->
  open_w path st = (Return tt, with_log (with_file st path EmptyString) [OpenWrite path]).
Proof.
  intros Hw. unfold open_w, bind, emit, get_world, put_world, set_file. cbn.
  rewrite decide_False by exact Hw. reflexivity.
Qed.

Lemma open_w_denied (st : state) (path : string) :
  path ∈ readonly (world st) ->
  open_w path st
  = (Raise (mkExn OSError ("[Errno 13] Permission denied: '" +:+ path +:+ "'")),
     with_log st [OpenWrite path]).
Proof.
  intros Hw. unfold open_w, bind, emit, get_world, put_world, set_file. cbn.
  rewrite decide_True by exact Hw. reflexivity.
Qed.

(** The write shared by [save_file_as] and [autosave], on a device that
    fails it after [k] characters. *)
Lemma save_file_as_write_fault
    (st : state) (e : QTextEdit) (path : string) (k : nat) :
  current_doc st = Some e ->
  path ∉ readonly (world st) ->
  write_fault (world st) = Some k ->
  encoding_by_suffix path e <> EmptyString ->
  save_file_as_write path st
  = (Raise no_space,
     with_log
       (with_file st path (String.substring 0 k (encoding_by_suffix path e)))
       [OpenWrite path])
  /\ autosave_write path (Some e) st
  = (Raise no_space,
     with_log
       (with_file st path (String.substring 0 k (encoding_by_suffix path e)))
       [OpenWrite path]).
Proof.
  unfold current_doc, encoding_by_suffix. intros He Hw Hfault Hdata.
  unfold no_space. run_m.
  destruct (endswith path ".esh"); rewrite ?He; cbn -[json_dump String.substring];
    rewrite decide_False by exact Hw; cbn -[json_dump String.substring];
    rewrite ?He, ?Hfault; cbn -[json_dump String.substring]; rewrite ?Hfault;
    (match goal with
     | |- context [String.eqb ?d EmptyString] =>
         destruct (String.eqb_spec d EmptyString); [contradiction|]
     end);
    cbn -[json_dump String.substring]; rewrite lookup_insert_eq;
    cbn -[json_dump String.substring]; rewrite insert_insert_eq;
    unfold with_log, with_file; cbn -[json_dump String.substring];
    rewrite ?Hfault; split; reflexivity.
Qed.

(** X11. What a failed [save_file_as] does to a file that existed.  When
    the file cannot be opened for writing, it keeps its content.  When it
    can be opened and the device then fails the write after [k] characters,
    the old content is gone, whatever it was: [open(..., "w")] emptied the
    file, and it holds the first [k] characters of what was being written.
    In both cases the "Save Error" dialog is shown and the window, the tab
    title included, is unchanged. *)
Theorem X11_failed_save_as_and_the_old_file
    (st : state) (e : QTextEdit) (path old : string) (k : nat) :
  current_doc st = Some e ->
  path <> EmptyString ->
  files (world st) !! path = Some old ->
  (path ∈ readonly (world st) ->
   save_file_as path st
   = (Return tt,
      with_log st
        [Critical "Save Error"
           ("Failed to save file: [Errno 13] Permission denied: '" +:+ path +:+ "'");
         OpenWrite path])
   /\ files (world (snd (save_file_as path st))) !! path = Some old)
  /\ (path ∉ readonly (world st) ->
      write_fault (world st) = Some k ->
      encoding_by_suffix path e <> EmptyString ->
      save_file_as path st
      = (Return tt,
         with_log
           (with_file st path (String.substring 0 k (encoding_by_suffix path e)))
           [Critical "Save Error"
              "Failed to save file: [Errno 28] No space left on device";
            OpenWrite path])
      /\ files (world (snd (save_file_as path st))) !! path
         = Some (String.substring 0 k (encoding_by_suffix path e))
      /\ self (snd (save_file_as path st)) = self st).
Proof.
  intros He Hne Hold.
  assert (Hnb : String.eqb path EmptyString = false)
    by (destruct (String.eqb_spec path EmptyString); [contradiction|reflexivity]).
  split.
  - intros Hro.
    assert (Hsave : save_file_as path st
      = (Return tt,
         with_log st
           [Critical "Save Error"
              ("Failed to save file: [Errno 13] Permission denied: '" +:+ path +:+ "'");
            OpenWrite path])).
    { unfold current_doc in He. run_m. rewrite Hnb.
      destruct (endswith path ".esh"); rewrite ?He; cbn;
        rewrite decide_True by exact Hro; reflexivity. }
    rewrite Hsave. split; [reflexivity|exact Hold].
  - intros Hw Hfault Hdata.
    destruct (save_file_as_write_fault st e path k He Hw Hfault Hdata) as [Hrun _].
    assert (Hsave : save_file_as path st
      = (Return tt,
         with_log
           (with_file st path (String.substring 0 k (encoding_by_suffix path e)))
           [Critical "Save Error"
              "Failed to save file: [Errno 28] No space left on device";
            OpenWrite path])).
    { unfold save_file_as, try_except, save_file_as_body. rewrite Hnb.
      unfold bind at 1. rewrite Hrun. reflexivity. }
    rewrite Hsave. split; [reflexivity|]. split; [apply lookup_insert_eq|].
    reflexivity.
Qed.

(** A file that cannot be opened for writing, and a device that fails the
    write after three characters. *)
Lemma X11_failed_save_as_and_the_old_file_witness :
  (save_file_as "notes.txt" locked_state
   = (Return tt,
      with_log locked_state
        [Critical "Save Error"
           "Failed to save file: [Errno 13] Permission denied: 'notes.txt'";
         OpenWrite "notes.txt"])
   /\ files (world (snd (save_file_as "notes.txt" locked_state))) !! "notes.txt"
      = Some "old")
  /\ (save_file_as "note.txt" faulty_state
      = (Return tt,
         with_log (with_file faulty_state "note.txt" "new")
           [Critical "Save Error"
              "Failed to save file: [Errno 28] No space left on device";
            OpenWrite "note.txt"])
      /\ files (world (snd (save_file_as "note.txt" faulty_state))) !! "note.txt"
         = Some "new"
      /\ self (snd (save_file_as "note.txt" faulty_state)) = self faulty_state).
Proof.
  split.
  - apply (X11_failed_save_as_and_the_old_file locked_state
             (mkEdit "new" default_font) "notes.txt" "old" 0%nat).
    + reflexivity.
    + discriminate.
    + reflexivity.
    + cbn. apply elem_of_singleton. reflexivity.
  - apply (X11_failed_save_as_and_the_old_file faulty_state
             (mkEdit "new text" default_font) "note.txt" "old text" 3%nat).
    + reflexivity.
    + discriminate.
    + reflexivity.
    + cbn. apply not_elem_of_empty.
    + reflexivity.
    + discriminate.
Defined.

(** X12. An autosave tick whose write the device fails damages the saved
    copy silently: with autosave on and a current document whose location
    can be opened for writing, the file is left with the first [k]
    characters of what was being written, whatever it held before, and all
    the user gets is the "Autosave failed" status message for 2 seconds. *)
Theorem X12_failed_autosave_truncates_the_file
    (st : state) (e : QTextEdit) (k : nat) :
  autosave_enabled (self st) = true ->
  current_doc st = Some e ->
  current_title st <> "Untitled" ->
  current_title st ∉ readonly (world st) ->
  write_fault (world st) = Some k ->
  encoding_by_suffix (current_title st) e <> EmptyString ->
  autosave st
  = (Return tt,
     with_log
       (with_file st (current_title st)
          (String.substring 0 k (encoding_by_suffix (current_title st) e)))
       [StatusMessage "Autosave failed: [Errno 28] No space left on device" 2000;
        OpenWrite (current_title st)])
  /\ files (world (snd (autosave st))) !! current_title st
     = Some (String.substring 0 k (encoding_by_suffix (current_title st) e)).
Proof.
  intros Hon He Ht Hw Hfault Hdata.
  destruct (save_file_as_write_fault st e _ k He Hw Hfault Hdata) as [_ Hrun].
  assert (Hauto : autosave st
    = (Return tt,
       with_log
         (with_file st (current_title st)
            (String.substring 0 k (encoding_by_suffix (current_title st) e)))
         [StatusMessage "Autosave failed: [Errno 28] No space left on device" 2000;
          OpenWrite (current_title st)])).
  { rewrite autosave_unfold, Hon.
    destruct (String.eqb_spec (current_title st) "Untitled"); [contradiction|].
    cbn [negb]. unfold try_except, bind. rewrite He, Hrun. reflexivity. }
  rewrite Hauto. split; [reflexivity|]. apply lookup_insert_eq.
Qed.

Lemma X12_failed_autosave_truncates_the_file_witness :
  autosave faulty_state
  = (Return tt,
     with_log (with_file faulty_state "note.txt" "new")
       [StatusMessage "Autosave failed: [Errno 28] No space left on device" 2000;
        OpenWrite "note.txt"])
  /\ files (world (snd (autosave faulty_state))) !! "note.txt" = Some "new".
Proof.
  apply (X12_failed_autosave_truncates_the_file faulty_state
           (mkEdit "new text" default_font) 3%nat).
  - reflexivity.
  - reflexivity.
  - discriminate.
  - cbn. apply not_elem_of_empty.
  - reflexivity.
  - discriminate.
Defined.


(** ** Loading: what it can and cannot do *)

Lemma add_new_tab_cases (title : string) (content : json) (st : state) :
  (exists e, add_new_tab title content st = (Raise e, st))
  \/ (exists text,
        add_new_tab title content st
        = (Return tt, with_tabs st (open_tab (tabs (self st)) title text))
        /\ (content = JString text \/ (content = JNull /\ text = EmptyString))).
Proof.
  destruct content; try (left; eexists; reflexivity).
  - right. exists EmptyString. split; [reflexivity|]. right. split; reflexivity.
  - right. exists s. split; [reflexivity|]. left. reflexivity.
Qed.

Lemma load_file_body_return (path : string) (st st1 : state) :
  load_file_body path st = (Return tt, st1) ->
  exists text,
    self st1 = self (with_tabs st (open_tab (tabs (self st)) path text)).
Proof.
  unfold load_file_body. unfold bind at 1.
  match goal with |- context [let (_, _) := ?m st in _] =>
    assert (Hk : keeps_self m) by (auto 12 with frame);
    specialize (Hk st); destruct (m st) as [[content|e] st0] end;
    cbn [snd] in Hk; [|discriminate].
  unfold bind.
  destruct (add_new_tab_cases path content st0) as [[e Hr]|(text & Hr & _)];
    rewrite Hr; [discriminate|].
  intros [= <-]. exists text. cbn [showMessage emit]. unfold with_tabs.
  cbn [self]. rewrite Hk. reflexivity.
Qed.

(** X13. [load_file] never raises and never touches what is open: it
    either leaves the window exactly as it was (cancelled dialog, or a
    failure reported in the "Load Error" dialog), or appends one tab titled
    with the file name, in the default font, and makes it current; the
    tabs that were open keep their titles, texts and fonts, and the
    autosave flag is unchanged. *)
Theorem X13_load_file_only_adds_a_tab (path : string) (st : state) :
  let st1 := snd (load_file path st) in
  fst (load_file path st) = Return tt
  /\ (path = EmptyString -> load_file path st = (Return tt, st))
  /\ (self st1 = self st
      \/ exists text,
           pages (tabs (self st1))
           = pages (tabs (self st)) ++ [(path, mkEdit text default_font)]
           /\ current_title st1 = path
           /\ current_doc st1 = Some (mkEdit text default_font)
           /\ autosave_enabled (self st1) = autosave_enabled (self st)).
Proof.
  cbn zeta. unfold load_file.
  destruct (String.eqb_spec path EmptyString) as [->|Hne].
  - cbn. repeat split. left. reflexivity.
  - unfold try_except.
    destruct (load_file_body path st) as [[[]|e] st0] eqn:Hb; cbn [fst snd].
    + split; [reflexivity|]. split; [intros; contradiction|]. right.
      destruct (load_file_body_return _ _ _ Hb) as [text Hs].
      exists text. unfold current_title, current_doc. rewrite Hs.
      cbn [with_tabs self tabs autosave_enabled].
      rewrite currentIndex_open_tab.
      split; [apply pages_open_tab|]. split; [apply tabText_open_tab|].
      split; [apply currentWidget_open_tab|reflexivity].
    + split; [reflexivity|]. split; [intros; contradiction|]. left.
      cbn. apply (load_file_body_fails_clean path _ _ _ Hb).
Qed.

(** X14. A structured file loads only if it decodes to a JSON object whose
    [text] member is a string or null: an undecodable file, a top-level
    array, string or number, an object without [text], and an object whose
    [text] is a number, a boolean, an array or an object all end in the
    "Load Error" dialog. *)
Theorem X14_structured_load_needs_object_with_text
    (st st1 : state) (path contents : string) :
  endswith path ".esh" = true ->
  files (world st) !! path = Some contents ->
  load_file_body path st = (Return tt, st1) ->
  exists kvs v,
    json_load contents = Some (JObject kvs)
    /\ dict_get "text" kvs = Some v
    /\ (v = JNull \/ exists s, v = JString s).
Proof.
  intros Hext Hfile. run_m. rewrite Hext. cbn. rewrite Hfile.
  destruct (decide _); cbn; [discriminate|]. rewrite Hfile. cbn.
  change (json_loads (universal_newlines contents)) with (json_load contents).
  destruct (json_load contents) as [data|]; cbn; [|discriminate].
  destruct data as [| | | |s|xs|kvs]; cbn; try discriminate.
  - destruct (str_contains "text" s); cbn; discriminate.
  - destruct (existsb _ xs); cbn; discriminate.
  - destruct (dict_has "text" kvs); cbn; [|discriminate].
    destruct (dict_get "text" kvs) as [v|] eqn:Hg; cbn; [|discriminate].
    destruct v; cbn; try discriminate; intros _;
      eexists _, _; (split; [reflexivity|]); (split; [exact Hg|]);
      [left; reflexivity|right; eexists; reflexivity].
Qed.

Lemma X14_structured_load_needs_object_with_text_witness :
  let st := mkState init_window (one_file "a.esh" (dq "{'text': 'hi'}")) in
  exists kvs v,
    json_load (dq "{'text': 'hi'}") = Some (JObject kvs)
    /\ dict_get "text" kvs = Some v
    /\ (v = JNull \/ exists s, v = JString s).
Proof.
  intros st.
  apply (X14_structured_load_needs_object_with_text st
           (snd (load_file_body "a.esh" st)) "a.esh" (dq "{'text': 'hi'}")).
  - reflexivity.
  - reflexivity.
  - reflexivity.
Defined.

(** ** The window as a state machine: what every run keeps *)

Lemma keeps_self_autosave : keeps_self autosave.
Proof.
  intros st. rewrite autosave_unfold.
  destruct (autosave_enabled (self st)); [|reflexivity].
  destruct (negb _); [|reflexivity].
  match goal with |- self (snd (?m st)) = _ =>
    assert (Hk : keeps_self m); [|exact (Hk st)] end.
  apply keeps_try; [|intros e; apply keeps_showMessage].
  apply keeps_bind; [apply keeps_autosave_write|intros _; apply keeps_showMessage].
Qed.

Lemma load_file_tabs (path : string) (st : state) :
  tabs (self (snd (load_file path st))) = tabs (self st)
  \/ (path <> EmptyString
      /\ exists text,
           tabs (self (snd (load_file path st)))
           = open_tab (tabs (self st)) path text).
Proof.
  unfold load_file.
  destruct (String.eqb_spec path EmptyString) as [->|Hne]; [left; reflexivity|].
  unfold try_except.
  destruct (load_file_body path st) as [[[]|e] st0] eqn:Hb; cbn [snd].
  - right. split; [exact Hne|].
    destruct (load_file_body_return _ _ _ Hb) as [text Hs].
    exists text. rewrite Hs. reflexivity.
  - left. cbn. rewrite (load_file_body_fails_clean path _ _ _ Hb). reflexivity.
Qed.

Lemma save_file_as_tabs (path : string) (st : state) :
  tabs (self (snd (save_file_as path st))) = tabs (self st)
  \/ (path <> EmptyString
      /\ tabs (self (snd (save_file_as path st)))
         = setTabText (tabs (self st)) (currentIndex (tabs (self st))) path).
Proof.
  unfold save_file_as.
  destruct (String.eqb_spec path EmptyString) as [->|Hne]; [left; reflexivity|].
  unfold try_except.
  destruct (save_file_as_body path st) as [[[]|e] st0] eqn:Hb; cbn [snd].
  - right. split; [exact Hne|]. revert Hb.
    unfold save_file_as_body. unfold bind at 1.
    pose proof (keeps_save_file_as_write path st) as Hk.
    destruct (save_file_as_write path st) as [[[]|e] st1]; cbn [snd] in Hk;
      [|discriminate].
    unfold bind, get_tabs, put_tabs, showMessage, emit, get_world, put_world.
    cbn. intros [= <-]. cbn. rewrite Hk. reflexivity.
  - left. cbn. rewrite (save_file_as_body_fails_clean path _ _ _ Hb). reflexivity.
Qed.

Lemma setTabText_none (t : QTabWidget) (title : string) :
  currentWidget t = None -> setTabText t (currentIndex t) title = t.
Proof.
  unfold currentWidget, setTabText.
  destruct (page_at t (currentIndex t)) as [[? ?]|]; [discriminate|reflexivity].
Qed.

Lemma tab_change_title_or_none (ev : ui_event) (t : QTabWidget) (title : string) :
  title <> EmptyString ->
  tab_change ev t (setTabText t (currentIndex t) title).
Proof.
  intros Hne. destruct (currentWidget t) as [e|] eqn:He.
  - exact (change_title ev t title e Hne He).
  - rewrite (setTabText_none _ _ He). constructor.
Qed.

Lemma tab_change_font_action
    (ev : ui_event) (h : M unit) (g : QFont -> QFont) (err : list event) (st : state) :
  font_action h g err ->
  (forall f, 1 <= pointSize f -> 1 <= pointSize (g f)) ->
  tab_change ev (tabs (self st)) (tabs (self (snd (h st)))).
Proof.
  intros Hh Hg. rewrite (Hh st).
  destruct (current_doc st) as [e|] eqn:He; cbn [snd]; [|constructor].
  rewrite (with_font_run _ _ _ He). cbn [with_tabs self tabs].
  apply (change_doc ev _ e); [exact He|]. intros _. apply Hg.
Qed.

(** Every event changes the tab widget in one of six ways. *)
Lemma dispatch_tab_change (ev : ui_event) (st : state) :
  tab_change ev (tabs (self st)) (tabs (self (snd (dispatch ev st)))).
Proof.
  destruct ev as [f|f|f| |i| | | | | |font ok| |b|i|text]; cbn [dispatch].
  - destruct (load_file_tabs f st) as [->|(Hne & text & ->)];
      [constructor|apply change_open; exact Hne].
  - rewrite save_file_unfold. destruct (String.eqb _ _).
    + destruct (save_file_as_tabs f st) as [->|(Hne & ->)];
        [constructor|apply tab_change_title_or_none; exact Hne].
    + rewrite (keeps_write_to_file _ _ st). constructor.
  - destruct (save_file_as_tabs f st) as [->|(Hne & ->)];
      [constructor|apply tab_change_title_or_none; exact Hne].
  - apply (change_open _ _ "Untitled" EmptyString). discriminate.
  - rewrite close_tab_run. apply change_close.
  - apply (tab_change_font_action _ _ bold_map [] st (toggle_font_action _)).
    intros f Hf; exact Hf.
  - apply (tab_change_font_action _ _ italic_map [] st (toggle_font_action _)).
    intros f Hf; exact Hf.
  - apply (tab_change_font_action _ _ underline_map [] st (toggle_font_action _)).
    intros f Hf; exact Hf.
  - destruct (font_handlers_actions increase_font_size) as (g & err & Hg & _ & Hs).
    { unfold font_handlers, style_toggles. cbn. tauto. }
    apply (tab_change_font_action _ _ g err st Hg Hs).
  - destruct (font_handlers_actions decrease_font_size) as (g & err & Hg & _ & Hs).
    { unfold font_handlers, style_toggles. cbn. tauto. }
    apply (tab_change_font_action _ _ g err st Hg Hs).
  - destruct (current_doc st) as [e|] eqn:He.
    + rewrite (select_font_run _ _ _ _ He), (with_font_run _ _ _ He).
      cbn [snd with_tabs self tabs].
      apply (change_doc _ _ e); [exact He|]. intros Hsane Hs.
      destruct ok; [exact Hsane|exact Hs].
    + unfold select_font, current_editor, bind, get_tabs, ret. cbn [self tabs].
      unfold current_doc in He. rewrite He. constructor.
  - rewrite (keeps_self_autosave st). constructor.
  - constructor.
  - apply change_select.
  - unfold current_editor, update_editor, bind, get_tabs, put_tabs, ret.
    cbn [self tabs].
    destruct (currentWidget (tabs (self st))) as [e|] eqn:He; [|constructor].
    cbn [snd self tabs]. apply (change_doc _ _ e); [exact He|].
    intros _ Hs. exact Hs.
Qed.

Lemma tabs_ok_open_tab (t : QTabWidget) (title text : string) :
  title <> EmptyString ->
  Forall (fun p => fst p <> EmptyString) (pages t) ->
  tabs_ok (open_tab t title text).
Proof.
  intros Hne Hall. unfold tabs_ok.
  rewrite currentIndex_open_tab, count_open_tab, pages_open_tab.
  pose proof (count_nonneg t). split; [lia|].
  apply Forall_app. split; [exact Hall|]. constructor; [exact Hne|constructor].
Qed.

Lemma count_removeTab (t : QTabWidget) (i : Z) :
  0 <= i < count t -> count (removeTab t i) = count t - 1.
Proof.
  intros Hi. unfold removeTab.
  destruct (Z.leb_spec 0 i); [|lia]. destruct (Z.ltb_spec i (count t)); [|lia].
  cbn [andb]. unfold count in *. cbn [pages].
  rewrite length_delete; [lia|]. apply lookup_lt_is_Some. lia.
Qed.

Lemma tab_change_tabs_ok (ev : ui_event) (t t' : QTabWidget) :
  tab_change ev t t' -> tabs_ok t -> tabs_ok t'.
Proof.
  intros Hc [Hcur Hall]. destruct Hc as [|title text Hne|title e Hne He|e w He _|i|i].
  - split; assumption.
  - apply tabs_ok_open_tab; assumption.
  - destruct (setTabText_current t e title He) as (_ & _ & Hc & Hn & _).
    split; [rewrite Hc, Hn; exact Hcur|].
    destruct (page_at_current _ _ He) as [old Hp].
    unfold setTabText. rewrite Hp. cbn [pages].
    apply Forall_insert; [exact Hall|exact Hne].
  - destruct (setCurrentWidget_frame t w) as (Hc & Hn & _ & _).
    split; [rewrite Hc, Hn; exact Hcur|].
    destruct (page_at_current _ _ He) as [title Hp].
    unfold setCurrentWidget. rewrite Hp. cbn [pages].
    apply Forall_insert; [exact Hall|].
    unfold page_at in Hp. destruct (0 <=? currentIndex t); [|discriminate].
    exact (Forall_lookup_1 _ _ _ _ Hall Hp).
  - cbn zeta.
    assert (Hall' : Forall (fun p => fst p <> EmptyString) (pages (removeTab t i))).
    { unfold removeTab. destruct (_ && _); [|exact Hall].
      cbn [pages]. apply Forall_delete. exact Hall. }
    destruct (Z.eqb_spec (count (removeTab t i)) 0) as [H0|H0].
    + apply tabs_ok_open_tab; [discriminate|exact Hall'].
    + split; [|exact Hall'].
      destruct (Z.leb_spec 0 i) as [Hi|Hi];
        [destruct (Z.ltb_spec i (count t)) as [Hj|Hj]|].
      * rewrite count_removeTab in * by lia.
        unfold removeTab. destruct (Z.leb_spec 0 i); [|lia].
        destruct (Z.ltb_spec i (count t)); [|lia]. cbn [andb currentIndex].
        destruct (Z.ltb_spec i (currentIndex t)); [lia|].
        destruct (Z.eqb_spec i (currentIndex t)); [|lia].
        destruct (Z.ltb_spec (currentIndex t) (count t - 1)); lia.
      * unfold removeTab. destruct (Z.leb_spec 0 i); [|lia].
        destruct (Z.ltb_spec i (count t)); [lia|]. exact Hcur.
      * unfold removeTab. destruct (Z.leb_spec 0 i); [lia|]. exact Hcur.
  - split.
    + unfold setCurrentIndex.
      destruct (Z.leb_spec 0 i); [destruct (Z.ltb_spec i (count t))|];
        cbn [andb]; [|exact Hcur|exact Hcur].
      unfold count in *. cbn [currentIndex pages]. lia.
    + unfold setCurrentIndex. destruct (_ && _); exact Hall.
Qed.

Lemma tab_change_sizes_ok (ev : ui_event) (t t' : QTabWidget) :
  tab_change ev t t' -> sane_event ev -> sizes_ok t -> sizes_ok t'.
Proof.
  unfold sizes_ok.
  intros Hc Hsane Hall. destruct Hc as [|title text Hne|title e Hne He|e w He Hw|i|i].
  - exact Hall.
  - rewrite pages_open_tab. apply Forall_app. split; [exact Hall|].
    constructor; [cbn; lia|constructor].
  - destruct (page_at_current _ _ He) as [old Hp].
    unfold setTabText. rewrite Hp. cbn [pages].
    apply Forall_insert; [exact Hall|]. cbn [snd].
    unfold page_at in Hp. destruct (0 <=? currentIndex t); [|discriminate].
    exact (Forall_lookup_1 _ _ _ _ Hall Hp).
  - destruct (page_at_current _ _ He) as [title Hp].
    unfold setCurrentWidget. rewrite Hp. cbn [pages].
    apply Forall_insert; [exact Hall|]. cbn [snd]. apply Hw; [exact Hsane|].
    unfold page_at in Hp. destruct (0 <=? currentIndex t); [|discriminate].
    exact (Forall_lookup_1 _ _ _ _ Hall Hp).
  - cbn zeta.
    assert (Hall' : Forall (fun p => 1 <= pointSize (currentFont (snd p)))
                      (pages (removeTab t i))).
    { unfold removeTab. destruct (_ && _); [|exact Hall].
      cbn [pages]. apply Forall_delete. exact Hall. }
    destruct (count (removeTab t i) =? 0); [|exact Hall'].
    rewrite pages_open_tab. apply Forall_app. split; [exact Hall'|].
    constructor; [cbn; lia|constructor].
  - unfold setCurrentIndex. destruct (_ && _); exact Hall.
Qed.

Lemma run_events_invariant (P : QTabWidget -> Prop) (Q : ui_event -> Prop) :
  (forall ev t t', Q ev -> tab_change ev t t' -> P t -> P t') ->
  forall evs st,
    Forall Q evs -> P (tabs (self st)) ->
    P (tabs (self (snd (run_events evs st)))).
Proof.
  intros Hstep evs. induction evs as [|ev rest IH]; intros st Hq Hp; [exact Hp|].
  apply Forall_cons in Hq as [Hq1 Hq2]. cbn [run_events]. unfold bind.
  pose proof (dispatch_tab_change ev st) as Hc.
  destruct (dispatch ev st) as [[[]|e] st1]; cbn [snd] in *.
  - apply IH; [exact Hq2|]. exact (Hstep _ _ _ Hq1 Hc Hp).
  - exact (Hstep _ _ _ Hq1 Hc Hp).
Qed.

(** X15. There is always a current document.  From a window with a valid
    current tab and no empty tab title, such as the window at start-up,
    every sequence of events (handlers on any dialog answers, tab clicks,
    typing, autosave ticks) ends in a window with at least one tab, a
    current index inside the tabs, a current editor, and no empty title. *)
Theorem X15_always_a_current_document (evs : list ui_event) (st : state) :
  tabs_ok (tabs (self st)) ->
  let st' := snd (run_events evs st) in
  tabs_ok (tabs (self st'))
  /\ 1 <= count (tabs (self st'))
  /\ (exists e, current_doc st' = Some e)
  /\ current_title st' <> EmptyString.
Proof.
  intros Hok st'.
  assert (Hok' : tabs_ok (tabs (self st'))).
  { apply (run_events_invariant tabs_ok (fun _ => True)).
    - intros ev t t' _. apply tab_change_tabs_ok.
    - apply Forall_forall. intros; exact I.
    - exact Hok. }
  split; [exact Hok'|]. destruct Hok' as [Hcur Hall]. split; [lia|].
  unfold current_doc, current_title, currentWidget, tabText, page_at.
  destruct (Z.leb_spec 0 (currentIndex (tabs (self st')))); [|lia].
  destruct (pages (tabs (self st')) !! Z.to_nat (currentIndex (tabs (self st'))))
    as [[title e]|] eqn:Hp.
  - split; [eauto|]. exact (Forall_lookup_1 _ _ _ _ Hall Hp).
  - apply lookup_ge_None in Hp. unfold count in Hcur. lia.
Qed.

Lemma X15_always_a_current_document_witness :
  let evs := [OnClose 0; OnOpen "nope.esh"; OnSaveAs "a.txt"; OnNew; OnClose 7;
              OnSelectTab 0; OnClose 0; OnTick; OnClose 0] in
  let st' := snd (run_events evs st0) in
  tabs_ok (tabs (self st'))
  /\ 1 <= count (tabs (self st'))
  /\ (exists e, current_doc st' = Some e)
  /\ current_title st' <> EmptyString.
Proof.
  intros evs. apply (X15_always_a_current_document evs st0).
  split; [unfold st0, init_window, count; cbn; lia|].
  repeat constructor; discriminate.
Defined.

(** X16. No handler ever produces a point size below 1: when every
    document has a point size of at least 1 and the font dialog only hands
    over fonts of size at least 1, every document of every tab has a point
    size of at least 1 after any sequence of events. *)
Theorem X16_point_sizes_stay_positive (evs : list ui_event) (st : state) :
  Forall sane_event evs ->
  sizes_ok (tabs (self st)) ->
  sizes_ok (tabs (self (snd (run_events evs st)))).
Proof.
  intros Hsane Hok.
  apply (run_events_invariant sizes_ok sane_event); [|exact Hsane|exact Hok].
  intros ev t t' Hq Hc. exact (tab_change_sizes_ok ev t t' Hc Hq).
Qed.

Lemma X16_point_sizes_stay_positive_witness :
  sizes_ok (tabs (self (snd (run_events
     [OnDecrease; OnDecrease; OnFont (mkFont "Mono" 1 false false false) true;
      OnDecrease; OnOpen "x.txt"; OnDecrease; OnBold] st0)))).
Proof.
  apply (X16_point_sizes_stay_positive _ st0).
  - repeat constructor. cbn. lia.
  - repeat constructor. cbn. lia.
Defined.

(** *** What gets logged, and what can escape *)

Lemma logs_ret (P : event -> Prop) {A} (a : A) : logs P (ret a).
Proof. intros st. exists []. split; [reflexivity|constructor]. Qed.

Lemma logs_raise (P : event -> Prop) {A} (e : exn) : logs P (@raise A e).
Proof. intros st. exists []. split; [reflexivity|constructor]. Qed.

Lemma logs_bind (P : event -> Prop) {A B} (m : M A) (k : A -> M B) :
  logs P m -> (forall a, logs P (k a)) -> logs P (bind m k).
Proof.
  intros Hm Hk st. unfold bind. destruct (Hm st) as (evs & He & Hp).
  destruct (m st) as [[a|e] st1]; cbn [snd] in *; [|eauto].
  destruct (Hk a st1) as (evs' & He' & Hp').
  exists (evs' ++ evs). split; [rewrite He', He, app_assoc; reflexivity|].
  apply Forall_app. split; assumption.
Qed.

Lemma logs_try (P : event -> Prop) {A} (m : M A) (h : exn -> M A) :
  logs P m -> (forall e, logs P (h e)) -> logs P (try_except m h).
Proof.
  intros Hm Hh st. unfold try_except. destruct (Hm st) as (evs & He & Hp).
  destruct (m st) as [[a|e] st1]; cbn [snd] in *; [eauto|].
  destruct (Hh e st1) as (evs' & He' & Hp').
  exists (evs' ++ evs). split; [rewrite He', He, app_assoc; reflexivity|].
  apply Forall_app. split; assumption.
Qed.

Lemma logs_if (P : event -> Prop) {A} (b : bool) (m1 m2 : M A) :
  logs P m1 -> logs P m2 -> logs P (if b then m1 else m2).
Proof. destruct b; auto. Qed.

Lemma logs_quiet (P : event -> Prop) {A} (m : M A) :
  (forall st, log (world (snd (m st))) = log (world st)) -> logs P m.
Proof. intros Hm st. exists []. split; [apply Hm|constructor]. Qed.

Lemma logs_emit (P : event -> Prop) (ev : event) : P ev -> logs P (emit ev).
Proof.
  intros Hp st. exists [ev]. split; [reflexivity|]. constructor; [exact Hp|constructor].
Qed.

Create HintDb evlog.

Lemma logs_get_tabs (P : event -> Prop) : logs P get_tabs.
Proof. apply logs_quiet. reflexivity. Qed.

Lemma logs_put_tabs (P : event -> Prop) (t : QTabWidget) : logs P (put_tabs t).
Proof. apply logs_quiet. reflexivity. Qed.

Lemma logs_get_world (P : event -> Prop) : logs P get_world.
Proof. apply logs_quiet. reflexivity. Qed.

Lemma logs_set_file (P : event -> Prop) (path data : string) :
  logs P (set_file path data).
Proof. apply logs_quiet. reflexivity. Qed.

#[local] Hint Resolve logs_ret logs_raise logs_get_tabs logs_put_tabs
  logs_get_world logs_set_file : evlog.
#[local] Hint Extern 2 (logs _ (bind _ _)) =>
  apply logs_bind; [|intros ?] : evlog.
#[local] Hint Extern 2 (logs _ (try_except _ _)) =>
  apply logs_try; [|intros ?] : evlog.
#[local] Hint Extern 2 (logs _ (if _ then _ else _)) =>
  apply logs_if : evlog.
#[local] Hint Extern 3 (logs _ (match ?x with _ => _ end)) =>
  destruct x : evlog.
#[local] Hint Extern 1 (logs not_font_error (emit _)) =>
  apply logs_emit; intros ?; discriminate : evlog.

Lemma logs_load_file (path : string) : logs not_font_error (load_file path).
Proof.
  unfold load_file, load_file_body, json_load_file, py_contains, py_getitem,
    add_new_tab, setPlainText, open_r, f_read, showMessage, critical.
  auto 16 with evlog.
Qed.

Lemma logs_write_to_file (path : string) (is_esh : bool) :
  logs not_font_error (write_to_file path is_esh).
Proof.
  unfold write_to_file, current_editor, deref, open_w, f_write.
  auto 16 with evlog.
Qed.

Lemma logs_save_file_as (path : string) : logs not_font_error (save_file_as path).
Proof.
  unfold save_file_as, save_file_as_body, save_file_as_write, current_editor,
    deref, open_w, f_write, showMessage, critical.
  auto 16 using logs_write_to_file with evlog.
Qed.

Lemma logs_autosave_at (st : state) :
  exists evs,
    log (world (snd (autosave st))) = evs ++ log (world st)
    /\ Forall not_font_error evs.
Proof.
  rewrite autosave_unfold.
  destruct (autosave_enabled (self st));
    [|exists []; split; [reflexivity|constructor]].
  destruct (negb _); [|exists []; split; [reflexivity|constructor]].
  match goal with |- context [snd (?m st)] =>
    assert (Hl : logs not_font_error m); [|exact (Hl st)] end.
  unfold autosave_write, deref, open_w, f_write, showMessage.
  auto 16 using logs_write_to_file with evlog.
Qed.

Lemma tabs_ok_current_doc (st : state) :
  tabs_ok (tabs (self st)) -> exists e, current_doc st = Some e.
Proof.
  intros [Hcur _]. unfold current_doc, currentWidget, page_at.
  destruct (Z.leb_spec 0 (currentIndex (tabs (self st)))); [|lia].
  destruct (pages (tabs (self st)) !! Z.to_nat (currentIndex (tabs (self st))))
    as [[title e]|] eqn:Hp; [eauto|].
  apply lookup_ge_None in Hp. unfold count in Hcur. lia.
Qed.

Lemma quiet_log (st st' : state) :
  world st' = world st ->
  exists evs, log (world st') = evs ++ log (world st) /\ Forall not_font_error evs.
Proof. intros ->. exists []. split; [reflexivity|constructor]. Qed.

Lemma font_action_quiet (h : M unit) (g : QFont -> QFont) (err : list event)
    (st : state) (e : QTextEdit) :
  font_action h g err -> current_doc st = Some e ->
  fst (h st) = Return tt /\ world (snd (h st)) = world st.
Proof.
  intros Hh He. rewrite (Hh st), He, (with_font_run _ _ _ He). split; reflexivity.
Qed.

(** With a current document, what one event logs and whether it returns. *)
Lemma dispatch_log_and_result (ev : ui_event) (st : state) :
  tabs_ok (tabs (self st)) ->
  (exists evs,
      log (world (snd (dispatch ev st))) = evs ++ log (world st)
      /\ Forall not_font_error evs)
  /\ (forall e, fst (dispatch ev st) = Raise e ->
                exn_kind e = OSError
                /\ (exists answer, ev = OnSave answer)
                /\ current_title st <> "Untitled").
Proof.
  intros Hok. destruct (tabs_ok_current_doc st Hok) as [d Hd].
  destruct ev as [f|f|f| |i| | | | | |font ok| |b|i|text]; cbn [dispatch].
  - split; [apply logs_load_file|].
    intros e. unfold load_file. destruct (String.eqb f EmptyString); [discriminate|].
    unfold try_except. destruct (load_file_body f st) as [[[]|e1] st1]; discriminate.
  - rewrite save_file_unfold.
    destruct (String.eqb_spec (current_title st) "Untitled") as [Ht|Ht].
    + split; [apply logs_save_file_as|].
      intros e. unfold save_file_as. destruct (String.eqb f EmptyString); [discriminate|].
      unfold try_except. destruct (save_file_as_body f st) as [[[]|e1] st1]; discriminate.
    + split; [apply logs_write_to_file|].
      intros e He. split; [|split; [eauto|exact Ht]]. revert He.
      unfold current_doc in Hd. run_m. rewrite Hd. cbn -[json_dump].
      destruct (decide _); cbn -[json_dump]; [intros [= <-]; reflexivity|].
      destruct (write_fault (world st)) as [k|]; cbn -[json_dump];
        [|discriminate].
      destruct (String.eqb _ EmptyString); cbn -[json_dump];
        [discriminate|intros [= <-]; reflexivity].
  - split; [apply logs_save_file_as|].
    intros e. unfold save_file_as. destruct (String.eqb f EmptyString); [discriminate|].
    unfold try_except. destruct (save_file_as_body f st) as [[[]|e1] st1]; discriminate.
  - split; [apply quiet_log; reflexivity|discriminate].
  - rewrite close_tab_run. split; [apply quiet_log; reflexivity|discriminate].
  - destruct (font_action_quiet _ _ _ st d (toggle_font_action bold_map) Hd) as [Hr Hw].
    split; [apply quiet_log; exact Hw|]. intros e He.
    unfold make_bold, bold_map in *. rewrite Hr in He. discriminate.
  - destruct (font_action_quiet _ _ _ st d (toggle_font_action italic_map) Hd) as [Hr Hw].
    split; [apply quiet_log; exact Hw|]. intros e He.
    unfold make_italic, italic_map in *. rewrite Hr in He. discriminate.
  - destruct (font_action_quiet _ _ _ st d (toggle_font_action underline_map) Hd) as [Hr Hw].
    split; [apply quiet_log; exact Hw|]. intros e He.
    unfold make_underline, underline_map in *. rewrite Hr in He. discriminate.
  - destruct (font_action_quiet _ _ _ st d increase_font_size_action Hd) as [Hr Hw].
    split; [apply quiet_log; exact Hw|]. intros e He. rewrite Hr in He. discriminate.
  - destruct (font_action_quiet _ _ _ st d decrease_font_size_action Hd) as [Hr Hw].
    split; [apply quiet_log; exact Hw|]. intros e He. rewrite Hr in He. discriminate.
  - rewrite (select_font_run _ _ _ _ Hd), (with_font_run _ _ _ Hd).
    split; [apply quiet_log; reflexivity|discriminate].
  - split; [apply logs_autosave_at|].
    intros e. rewrite autosave_unfold.
    destruct (autosave_enabled (self st)); [|discriminate].
    destruct (negb _); [|discriminate].
    unfold try_except, bind.
    destruct (autosave_write _ _ st) as [[[]|e1] st1]; discriminate.
  - split; [apply quiet_log; reflexivity|discriminate].
  - split; [apply quiet_log; reflexivity|discriminate].
  - unfold current_editor, update_editor, bind, get_tabs, put_tabs, ret.
    cbn [self tabs]. unfold current_doc in Hd. rewrite Hd.
    split; [apply quiet_log; reflexivity|discriminate].
Qed.

(** X17. From a window with a current document, such as the window at
    start-up, and whatever the events: the "Font Error" dialog is never
    shown, and an exception escapes a handler only as an [OSError] (a file
    that cannot be opened or written), which ends the run; the one
    handler it can escape from is [save_file], on a document that has a
    location. *)
Theorem X17_font_error_never_shown (evs : list ui_event) (st : state) :
  tabs_ok (tabs (self st)) ->
  (exists new,
      log (world (snd (run_events evs st))) = new ++ log (world st)
      /\ Forall not_font_error new)
  /\ (forall e, fst (run_events evs st) = Raise e -> exn_kind e = OSError)
  /\ (forall ev e, fst (dispatch ev st) = Raise e ->
                   (exists answer, ev = OnSave answer)
                   /\ current_title st <> "Untitled").
Proof.
  intros Hok.
  assert (Hrun : (exists new,
      log (world (snd (run_events evs st))) = new ++ log (world st)
      /\ Forall not_font_error new)
  /\ (forall e, fst (run_events evs st) = Raise e -> exn_kind e = OSError));
    [|destruct Hrun as [H1 H2]; split; [exact H1|]; split; [exact H2|];
      intros ev e He;
      destruct (dispatch_log_and_result ev st Hok) as [_ Hr];
      destruct (Hr e He) as (_ & Hs & Ht); split; assumption].
  revert st Hok. induction evs as [|ev rest IH]; intros st Hok.
  - split; [exists []; split; [reflexivity|constructor]|discriminate].
  - cbn [run_events]. unfold bind.
    destruct (dispatch_log_and_result ev st Hok) as [(new & Hlog & Hnew) Hraise].
    pose proof (tab_change_tabs_ok _ _ _ (dispatch_tab_change ev st) Hok) as Hok1.
    destruct (dispatch ev st) as [[[]|e1] st1]; cbn [fst snd] in *.
    + destruct (IH st1 Hok1) as [(new' & Hlog' & Hnew') Hraise'].
      split; [|exact Hraise'].
      exists (new' ++ new). split; [rewrite Hlog', Hlog, app_assoc; reflexivity|].
      apply Forall_app. split; assumption.
    + split; [eauto|]. intros e [= <-]. apply (Hraise e1). reflexivity.
Qed.

Lemma X17_font_error_never_shown_witness :
  let evs := [OnClose 0; OnIncrease; OnSaveAs "a.txt"; OnNew; OnClose 1;
              OnClose 0; OnDecrease; OnOpen "a.txt"; OnSave "b.txt"] in
  (exists new,
      log (world (snd (run_events evs st0))) = new ++ log (world st0)
      /\ Forall not_font_error new)
  /\ (forall e, fst (run_events evs st0) = Raise e -> exn_kind e = OSError)
  /\ (forall ev e, fst (dispatch ev st0) = Raise e ->
                   (exists answer, ev = OnSave answer)
                   /\ current_title st0 <> "Untitled").
Proof.
  intros evs. apply (X17_font_error_never_shown evs st0).
  split; [unfold st0, init_window, count; cbn; lia|].
  repeat constructor; discriminate.
Defined.

(** ** The syntax highlighter *)

Lemma occurs_at_cons (sub : string) (c : ascii) (s : string) (j : nat) :
  occurs_at sub (String c s) (S j) <-> occurs_at sub s j.
Proof. unfold occurs_at. reflexivity. Qed.

Lemma occurs_at_0 (sub s : string) :
  occurs_at sub s 0 <-> String.prefix sub s = true.
Proof. unfold occurs_at. symmetry. apply String.prefix_correct. Qed.

Lemma length_substring_le (s : string) (j n : nat) :
  (String.length (String.substring j n s) <= String.length s - j)%nat.
Proof.
  revert j n. induction s as [|c s IH]; intros j n.
  - destruct j, n; cbn; lia.
  - destruct j as [|j].
    + destruct n as [|n]; cbn; [lia|]. specialize (IH 0%nat n). lia.
    + cbn. apply IH.
Qed.

Lemma occurs_at_bound (sub s : string) (j : nat) :
  sub <> EmptyString -> occurs_at sub s j ->
  (j + String.length sub <= String.length s)%nat.
Proof.
  intros Hne Hocc. pose proof (length_substring_le s j (String.length sub)) as Hl.
  unfold occurs_at in Hocc. rewrite Hocc in Hl.
  destruct sub; [contradiction|]. cbn in *. lia.
Qed.

(** [find] returns the first occurrence, or -1 when there is none. *)
Lemma find_from_spec (sub s : string) (i : Z) :
  0 <= i ->
  (find_from sub s i = -1 /\ forall j, ~ occurs_at sub s j)
  \/ (exists j : nat,
        find_from sub s i = i + Z.of_nat j
        /\ occurs_at sub s j
        /\ forall j', (j' < j)%nat -> ~ occurs_at sub s j').
Proof.
  revert i. induction s as [|c s IH]; intros i Hi; cbn [find_from].
  - destruct (String.prefix sub EmptyString) eqn:Hp.
    + right. exists 0%nat. rewrite Z.add_0_r.
      split; [reflexivity|]. split; [apply occurs_at_0; exact Hp|]. intros; lia.
    + left. split; [reflexivity|]. intros j Hocc.
      assert (Hs : sub = EmptyString).
      { unfold occurs_at in Hocc. rewrite <- Hocc. destruct j, (String.length sub); reflexivity. }
      subst sub. discriminate.
  - destruct (String.prefix sub (String c s)) eqn:Hp.
    + right. exists 0%nat. rewrite Z.add_0_r.
      split; [reflexivity|]. split; [apply occurs_at_0; exact Hp|]. intros; lia.
    + assert (H0 : ~ occurs_at sub (String c s) 0).
      { intros H%occurs_at_0. congruence. }
      destruct (IH (i + 1)) as [[Hf Hno]|(j & Hf & Hocc & Hmin)]; [lia| |].
      * left. split; [exact Hf|]. intros [|j]; [exact H0|].
        rewrite occurs_at_cons. apply Hno.
      * right. exists (S j). split; [rewrite Hf; lia|].
        split; [apply occurs_at_cons; exact Hocc|].
        intros [|j'] Hlt; [exact H0|]. rewrite occurs_at_cons. apply Hmin. lia.
Qed.

Lemma keywords_nonempty (word : string) : In word keywords -> word <> EmptyString.
Proof. intros Hin ->. cbn in Hin. intuition discriminate. Qed.

(** X18. Every range the highlighter colours is a keyword standing in the
    text: the range lies inside the text, the characters in it spell one of
    the eight keywords, and that keyword does not occur earlier in the
    text.  So of several occurrences of a keyword in a block only the
    first is coloured. *)
Theorem X18_highlight_ranges_are_first_occurrences
    (text : string) (start count : Z) :
  In (start, count) (highlightBlock true text) ->
  exists (word : string) (j : nat),
    In word keywords
    /\ start = Z.of_nat j
    /\ count = Z.of_nat (String.length word)
    /\ (j + String.length word <= String.length text)%nat
    /\ String.substring j (String.length word) text = word
    /\ forall j', (j' < j)%nat ->
                  String.substring j' (String.length word) text <> word.
Proof.
  unfold highlightBlock. intros Hin. apply in_flat_map in Hin.
  destruct Hin as (word & Hw & Hin). exists word.
  unfold str_find in Hin.
  destruct (find_from_spec word text 0) as [[Hf _]|(j & Hf & Hocc & Hmin)]; [lia| |].
  - rewrite Hf in Hin. cbn in Hin. contradiction.
  - rewrite Hf, Z.add_0_l in Hin.
    destruct (negb _); [|contradiction]. destruct Hin as [[= <- <-]|[]].
    exists j. split; [exact Hw|]. split; [reflexivity|]. split; [reflexivity|].
    split; [apply occurs_at_bound; [apply keywords_nonempty; exact Hw|exact Hocc]|].
    split; [exact Hocc|exact Hmin].
Qed.

Lemma X18_highlight_ranges_are_first_occurrences_witness :
  exists (word : string) (j : nat),
    In word keywords
    /\ 4 = Z.of_nat j
    /\ 2 = Z.of_nat (String.length word)
    /\ (j + String.length word <= String.length "x = if a: if b")%nat
    /\ String.substring j (String.length word) "x = if a: if b" = word
    /\ forall j', (j' < j)%nat ->
                  String.substring j' (String.length word) "x = if a: if b" <> word.
Proof.
  apply (X18_highlight_ranges_are_first_occurrences "x = if a: if b" 4 2).
  vm_compute. left. reflexivity.
Defined.

(** X19. The highlighter matches substrings, not words, and colours at
    most one range per keyword: in a code block a keyword that occurs
    anywhere, also inside a longer word, gets a range that starts at or
    before that occurrence; a block never gets more than eight ranges; and
    when the editor is not marked as code nothing is coloured. *)
Theorem X19_highlight_substrings_once (text : string) :
  (forall (word : string) (j : nat),
      In word keywords ->
      String.substring j (String.length word) text = word ->
      exists j0 : nat,
        (j0 <= j)%nat
        /\ In (Z.of_nat j0, Z.of_nat (String.length word)) (highlightBlock true text))
  /\ (length (highlightBlock true text) <= 8)%nat
  /\ highlightBlock false text = [].
Proof.
  split; [|split; [|reflexivity]].
  - intros word j Hw Hocc.
    destruct (find_from_spec word text 0) as [[_ Hno]|(j0 & Hf & Hocc0 & Hmin)]; [lia| |].
    + exfalso. exact (Hno j Hocc).
    + exists j0. split.
      * destruct (Nat.le_gt_cases j0 j) as [Hle|Hgt]; [exact Hle|].
        exfalso. exact (Hmin j Hgt Hocc).
      * unfold highlightBlock. apply in_flat_map. exists word.
        split; [exact Hw|]. cbv beta zeta. unfold str_find.
        rewrite Hf, Z.add_0_l.
        destruct (Z.eqb_spec (Z.of_nat j0) (-1)) as [Heq|Hne]; [lia|].
        cbn [negb]. left. reflexivity.
  - unfold highlightBlock, keywords. cbn [flat_map].
    repeat match goal with
           | |- context [if ?b then _ else _] => destruct b
           end; cbn; lia.
Qed.

(** ** Closing tabs *)

Lemma removeTab_out_of_range (t : QTabWidget) (i : Z) :
  ~ (0 <= i < count t) -> removeTab t i = t.
Proof.
  intros Hi. unfold removeTab.
  destruct (Z.leb_spec 0 i); [destruct (Z.ltb_spec i (count t))|]; cbn [andb];
    try reflexivity. lia.
Qed.

(** X20. Closing a tab writes nothing and asks nothing: the files and the
    event log are as before, so the closed document is discarded as it is.
    With at least two tabs and an index in range, exactly the tab at that
    index goes and the others keep their order, titles, texts and fonts;
    with an index out of range nothing changes at all. *)
Theorem X20_close_tab_discards_without_saving (index : Z) (st : state) :
  let t := tabs (self st) in
  let st' := snd (close_tab index st) in
  world st' = world st
  /\ autosave_enabled (self st') = autosave_enabled (self st)
  /\ (0 <= index < count t -> 2 <= count t ->
      pages (tabs (self st')) = delete (Z.to_nat index) (pages t)
      /\ count (tabs (self st')) = count t - 1)
  /\ (~ (0 <= index < count t) -> 1 <= count t -> st' = st).
Proof.
  cbn zeta. rewrite close_tab_run. cbn [snd].
  split; [reflexivity|]. split; [reflexivity|]. split.
  - intros Hi Hn. pose proof (count_removeTab _ _ Hi) as Hc.
    cbn [with_tabs self tabs].
    destruct (Z.eqb_spec (count (removeTab (tabs (self st)) index)) 0); [lia|].
    split; [|exact Hc]. unfold removeTab.
    destruct (Z.leb_spec 0 index); [|lia].
    destruct (Z.ltb_spec index (count (tabs (self st)))); [|lia]. reflexivity.
  - intros Hi Hn. rewrite (removeTab_out_of_range _ _ Hi).
    destruct (Z.eqb_spec (count (tabs (self st))) 0); [lia|]. apply state_eta.
Qed.

(** ** Opening a plain file and writing it back *)

(** X21. A plain file that is opened and then written back, by an autosave
    tick or by [save_file_as] to the same name, comes back with its line
    ends translated and is otherwise the same: it holds what [read] made of
    its contents, and every other file is as it was (unlike [save_file],
    which would store the structured text in it).  So a file without a
    carriage return is written back unchanged, and a file with CR LF line
    ends is rewritten with LF line ends by being opened with autosave on. *)
Theorem X21_plain_file_written_back_with_line_feeds
    (st : state) (path contents : string) :
  path <> EmptyString ->
  path <> "Untitled" ->
  endswith path ".esh" = false ->
  files (world st) !! path = Some contents ->
  path ∉ unreadable (world st) ->
  path ∉ readonly (world st) ->
  write_fault (world st) = None ->
  autosave_enabled (self st) = true ->
  let st1 := snd (load_file path st) in
  files (world (snd (autosave st1)))
  = <[path := universal_newlines contents]> (files (world st))
  /\ files (world (snd (save_file_as path st1)))
     = <[path := universal_newlines contents]> (files (world st))
  /\ current_doc (snd (save_file_as path st1))
     = Some (mkEdit (universal_newlines contents) default_font)
  /\ (has_cr contents = false ->
      files (world (snd (autosave st1))) = files (world st)
      /\ files (world (snd (save_file_as path st1))) = files (world st)).
Proof.
  intros Hne Hnu Hext Hfile Hr Hw Hfault Hon st1.
  assert (Hload : load_file path st
    = (Return tt,
       with_log
         (with_tabs st
            (open_tab (tabs (self st)) path (universal_newlines contents)))
         [StatusMessage ("File loaded: " +:+ path) 3000; OpenRead path])).
  { apply load_file_ok.
    - destruct (String.eqb_spec path EmptyString); [contradiction|reflexivity].
    - apply load_file_body_plain; assumption. }
  subst st1. rewrite Hload. cbn [snd]. set (st1 := with_log _ _).
  set (text := universal_newlines contents) in *.
  assert (Ht : current_title st1 = path) by apply current_title_open_tab.
  assert (Hd : current_doc st1 = Some (mkEdit text default_font)).
  { unfold current_doc, st1. cbn [with_log with_tabs self tabs].
    apply currentWidget_open_tab. }
  assert (Henc : encoding_by_suffix path (mkEdit text default_font) = text).
  { unfold encoding_by_suffix. rewrite Hext. reflexivity. }
  assert (Hauto : files (world (snd (autosave st1)))
                  = <[path := text]> (files (world st))).
  { rewrite (autosave_run st1 _ Hon Hd); rewrite ?Ht; try assumption.
    cbn [snd with_log with_file world files]. rewrite Henc. reflexivity. }
  assert (Hsave : files (world (snd (save_file_as path st1)))
                  = <[path := text]> (files (world st))).
  { rewrite (save_file_as_run st1 _ path Hd Hne); try assumption.
    cbn [snd with_log with_file with_tabs world files]. rewrite Henc.
    reflexivity. }
  split; [exact Hauto|]. split; [exact Hsave|]. split.
  - rewrite (save_file_as_run st1 _ path Hd Hne); try assumption.
    cbn [snd]. unfold current_doc. cbn [with_log with_tabs self tabs].
    apply (setTabText_current _ _ path Hd).
  - intros Hcr. rewrite Hauto, Hsave. unfold text.
    rewrite (universal_newlines_id _ Hcr), insert_id by exact Hfile.
    split; reflexivity.
Qed.

(** A file with one CR LF line end. *)
Lemma X21_plain_file_written_back_with_line_feeds_witness :
  let contents := "one" +:+ String "013" (String "010" "two") in
  let text := "one" +:+ String "010" "two" in
  let st := mkState init_window (one_file "notes.txt" contents) in
  let st1 := snd (load_file "notes.txt" st) in
  files (world (snd (autosave st1))) = <[ "notes.txt" := text ]> (files (world st))
  /\ files (world (snd (save_file_as "notes.txt" st1)))
     = <[ "notes.txt" := text ]> (files (world st))
  /\ current_doc (snd (save_file_as "notes.txt" st1))
     = Some (mkEdit text default_font)
  /\ (has_cr contents = false ->
      files (world (snd (autosave st1))) = files (world st)
      /\ files (world (snd (save_file_as "notes.txt" st1))) = files (world st)).
Proof.
  intros contents text st.
  apply (X21_plain_file_written_back_with_line_feeds st "notes.txt" contents).
  - discriminate.
  - discriminate.
  - reflexivity.
  - reflexivity.
  - cbn. apply not_elem_of_empty.
  - cbn. apply not_elem_of_empty.
  - reflexivity.
  - reflexivity.
Defined.

(** ** The autosave switch *)

Lemma keeps_flags_ret {A} (a : A) : keeps_flags (ret a).
Proof. intros st; split; reflexivity. Qed.

Lemma keeps_flags_raise {A} (e : exn) : keeps_flags (@raise A e).
Proof. intros st; split; reflexivity. Qed.

Lemma keeps_flags_bind {A B} (m : M A) (k : A -> M B) :
  keeps_flags m -> (forall a, keeps_flags (k a)) -> keeps_flags (bind m k).
Proof.
  intros Hm Hk st. unfold bind. specialize (Hm st).
  destruct (m st) as [[a|e] st1]; cbn [snd] in *; [|exact Hm].
  destruct Hm as [H1 H2]. destruct (Hk a st1) as [H3 H4].
  split; congruence.
Qed.

Lemma keeps_flags_try {A} (m : M A) (h : exn -> M A) :
  keeps_flags m -> (forall e, keeps_flags (h e)) -> keeps_flags (try_except m h).
Proof.
  intros Hm Hh st. unfold try_except. specialize (Hm st).
  destruct (m st) as [[a|e] st1]; cbn [snd] in *; [exact Hm|].
  destruct Hm as [H1 H2]. destruct (Hh e st1) as [H3 H4].
  split; congruence.
Qed.

Lemma keeps_flags_if {A} (b : bool) (m1 m2 : M A) :
  keeps_flags m1 -> keeps_flags m2 -> keeps_flags (if b then m1 else m2).
Proof. destruct b; auto. Qed.

Lemma keeps_flags_get_tabs : keeps_flags get_tabs.
Proof. intros st; split; reflexivity. Qed.

Lemma keeps_flags_put_tabs (t : QTabWidget) : keeps_flags (put_tabs t).
Proof. intros st; split; reflexivity. Qed.

Lemma keeps_flags_of_keeps_self {A} (m : M A) : keeps_self m -> keeps_flags m.
Proof. intros Hm st. rewrite (Hm st). split; reflexivity. Qed.

Create HintDb flags.

#[local] Hint Resolve keeps_flags_ret keeps_flags_raise keeps_flags_get_tabs
  keeps_flags_put_tabs : flags.
#[local] Hint Extern 2 (keeps_flags (bind _ _)) =>
  apply keeps_flags_bind; [|intros ?] : flags.
#[local] Hint Extern 2 (keeps_flags (try_except _ _)) =>
  apply keeps_flags_try; [|intros ?] : flags.
#[local] Hint Extern 2 (keeps_flags (if _ then _ else _)) =>
  apply keeps_flags_if : flags.
#[local] Hint Extern 3 (keeps_flags (match ?x with _ => _ end)) =>
  destruct x : flags.
#[local] Hint Extern 1 (keeps_flags (let '(_, _) := ?x in _)) =>
  destruct x : flags.
#[local] Hint Extern 4 (keeps_flags _) =>
  apply keeps_flags_of_keeps_self; solve [auto 12 with frame] : flags.

Lemma keeps_flags_write_to_file (path : string) (is_esh : bool) :
  keeps_flags (write_to_file path is_esh).
Proof. apply keeps_flags_of_keeps_self, keeps_write_to_file. Qed.

Lemma keeps_flags_save_file_as_write (path : string) :
  keeps_flags (save_file_as_write path).
Proof. apply keeps_flags_of_keeps_self, keeps_save_file_as_write. Qed.

Lemma keeps_flags_showMessage (text : string) (msecs : Z) :
  keeps_flags (showMessage text msecs).
Proof. apply keeps_flags_of_keeps_self, keeps_showMessage. Qed.

Lemma keeps_flags_critical (title text : string) :
  keeps_flags (critical title text).
Proof. apply keeps_flags_of_keeps_self, keeps_critical. Qed.

#[local] Hint Resolve keeps_flags_write_to_file keeps_flags_save_file_as_write
  keeps_flags_showMessage keeps_flags_critical : flags.

Lemma keeps_flags_add_new_tab (title : string) (content : json) :
  keeps_flags (add_new_tab title content).
Proof. unfold add_new_tab, setPlainText. auto 10 with flags. Qed.

Lemma keeps_flags_update_editor (e : QTextEdit) : keeps_flags (update_editor e).
Proof. unfold update_editor. auto with flags. Qed.

(** Every handler but [toggle_autosave] leaves the flags alone. *)
Lemma dispatch_keeps_flags (ev : ui_event) :
  is_toggle ev = false -> keeps_flags (dispatch ev).
Proof.
  destruct ev as [f|f|f| |i| | | | | |font ok| |b|i|text]; cbn [dispatch is_toggle];
    intros Ht; try discriminate Ht.
  - unfold load_file, load_file_body.
    auto 12 using keeps_flags_add_new_tab with flags.
  - unfold save_file, save_file_as, save_file_as_body.
    auto 12 with flags.
  - unfold save_file_as, save_file_as_body.
    auto 12 with flags.
  - apply keeps_flags_add_new_tab.
  - unfold close_tab. auto 12 using keeps_flags_add_new_tab with flags.
  - unfold make_bold, toggle_font. auto 12 using keeps_flags_update_editor with flags.
  - unfold make_italic, toggle_font. auto 12 using keeps_flags_update_editor with flags.
  - unfold make_underline, toggle_font. auto 12 using keeps_flags_update_editor with flags.
  - unfold increase_font_size. auto 12 using keeps_flags_update_editor with flags.
  - unfold decrease_font_size. auto 12 using keeps_flags_update_editor with flags.
  - unfold select_font. auto 12 using keeps_flags_update_editor with flags.
  - apply keeps_flags_of_keeps_self, keeps_self_autosave.
  - auto 12 with flags.
  - auto 12 using keeps_flags_update_editor with flags.
Qed.

(** X22. Only [toggle_autosave] switches autosave: any run of events
    without it leaves the autosave flag (and the dark-mode flag) as it
    was.  So with autosave off and no toggle in the run, the timer ticks
    do nothing: the run gives the same result and the same state as the
    run with its ticks taken out. *)
Theorem X22_only_the_toggle_switches_autosave
    (evs : list ui_event) (st : state) :
  forallb (fun ev => negb (is_toggle ev)) evs = true ->
  autosave_enabled (self (snd (run_events evs st))) = autosave_enabled (self st)
  /\ dark_mode (self (snd (run_events evs st))) = dark_mode (self st)
  /\ (autosave_enabled (self st) = false ->
      run_events evs st
      = run_events (List.filter (fun ev => negb (is_tick ev)) evs) st).
Proof.
  revert st. induction evs as [|ev rest IH]; intros st Hevs.
  - repeat split; reflexivity.
  - cbn [forallb] in Hevs. apply andb_true_iff in Hevs as [Hev Hrest].
    apply negb_true_iff in Hev.
    destruct (dispatch_keeps_flags ev Hev st) as [Ha Hd].
    assert (Hflags :
      autosave_enabled (self (snd (run_events (ev :: rest) st)))
        = autosave_enabled (self st)
      /\ dark_mode (self (snd (run_events (ev :: rest) st))) = dark_mode (self st)).
    { cbn [run_events]. unfold bind.
      destruct (dispatch ev st) as [[[]|e] st1]; cbn [snd] in *; [|split; assumption].
      destruct (IH st1 Hrest) as (Ha' & Hd' & _). split; congruence. }
    destruct Hflags as [Hf1 Hf2]. split; [exact Hf1|]. split; [exact Hf2|].
    intros Hoff. cbn [run_events List.filter].
    destruct ev; cbn [is_tick negb run_events];
      try (unfold bind;
           match goal with |- context [dispatch ?ev st] =>
             destruct (dispatch ev st) as [[[]|e] st1] end;
           cbn [snd] in *; [|reflexivity];
           apply (IH st1 Hrest); congruence).
    unfold bind. cbn [dispatch]. rewrite autosave_unfold, Hoff.
    apply (IH st Hrest). exact Hoff.
Qed.

Lemma X22_only_the_toggle_switches_autosave_witness :
  let st := mkState (mkWin (tabs init_window) false false) the_world0 in
  let evs := [OnSaveAs "a.txt"; OnTick; OnType "more"; OnTick; OnNew] in
  autosave_enabled (self (snd (run_events evs st))) = autosave_enabled (self st)
  /\ dark_mode (self (snd (run_events evs st))) = dark_mode (self st)
  /\ (autosave_enabled (self st) = false ->
      run_events evs st
      = run_events (List.filter (fun ev => negb (is_tick ev)) evs) st).
Proof.
  intros st evs. apply (X22_only_the_toggle_switches_autosave evs st).
  reflexivity.
Defined.
